(** * Greenhouse-gas data module: a shallow embedding of [Data] and its methods

    The module under verification is [greenhouse_gases_module_Gracie.py]: one
    class, [Data], holding a pandas table of measurements for a monitoring
    site and a gas species, with methods that summarise it ([glimpse]),
    aggregate it ([weekly_ave], [baseline]) and draw it ([plot],
    [plot_compare]).

    Conventions of the embedding.
    - A float64 cell is [option Qc]: [None] is NaN, [Some x] a number.  Numbers
      are exact rationals, so every statement below is about the arithmetic
      the code asks for, not about binary64 rounding.
    - A timestamp is the number of seconds since 1970-01-01T00:00:00; a day
      period is the number of days since 1970-01-01; a week period (pandas
      [W-SUN]: Monday to Sunday) is numbered so that week 0 is the one that
      holds 1970-01-01.
    - The pandas calls follow pandas 1.5, the last series the module runs
      on: [GroupBy.mean] leaves the columns that are not numeric out when
      there is a numeric one, [rolling(w)] has [min_periods = w], [quantile]
      interpolates linearly, [dropna] drops a row when any of its cells is
      missing.  matplotlib turns what it is given to draw into floats, and
      refuses periods.
    - Objects and tables live in stores addressed by location, because the
      methods mutate [self.df] in place and keep references to the tables
      they are handed. *)

From Stdlib Require Import ZArith QArith Qcanon Qround Lia.
From stdpp Require Import base option numbers list sorting strings pretty gmap.

Local Open Scope Z_scope.

(** ** Numbers *)

Definition Qc_of_nat (n : nat) : Qc := Qc_of_Z (Z.of_nat n).

(** [q] given as a fraction, e.g. [0.05] is [frac 1 20]. *)
Definition frac (a b : Z) : Qc := (Qc_of_Z a / Qc_of_Z b)%Qc.

Definition sum (xs : list Qc) : Qc := foldr Qcplus (Q2Qc 0) xs.

(** The observations of a float column: its cells that are not NaN. *)
Definition observations (vs : list (option Qc)) : list Qc := omap id vs.

(** [Series.count]: the number of cells that are not NaN. *)
Definition count (vs : list (option Qc)) : nat := length (observations vs).

(** [mean] with pandas' [skipna=True]: the mean of the observations, NaN when
    there is none. *)
Definition mean (vs : list (option Qc)) : option Qc :=
  match observations vs with
  | [] => None
  | xs => Some (sum xs / Qc_of_nat (length xs))%Qc
  end.

(** The quantile of a non-empty sample with linear interpolation, as the
    rolling aggregation computes it: the sample is kept sorted, the fractional
    rank is [q * (nobs - 1)], and the value is taken at the rank or
    interpolated between the two neighbours. *)
Definition quantile (q : Qc) (xs : list Qc) : option Qc :=
  let s := merge_sort Qcle xs in
  let idx_with_fraction := (q * Qc_of_nat (length s - 1))%Qc in
  let idx := Z.to_nat (Qfloor idx_with_fraction) in
  match s !! idx with
  | None => None
  | Some vlow =>
      if decide (idx_with_fraction = Qc_of_nat idx) then Some vlow
      else
        let vhigh := default vlow (s !! S idx) in
        Some (vlow + (vhigh - vlow) * (idx_with_fraction - Qc_of_nat idx))%Qc
  end.

(** The window of [rolling(w)] that ends at position [i]: the rows
    [i - w + 1 .. i], cut at the start of the column. *)
Definition window {A} (w i : nat) (xs : list A) : list A :=
  drop (S i - w) (take (S i) xs).

(** [rolling(w).quantile(q)] on one column: NaN cells of the window are not
    observations, and fewer than [min_periods = w] observations give NaN. *)
Definition rolling_quantile (w : nat) (q : Qc) (vs : list (option Qc))
  : list (option Qc) :=
  imap (fun i _ =>
          let obs := observations (window w i vs) in
          if decide (w ≤ length obs)%nat then quantile q obs else None) vs.

(** ** Time and periods *)

Inductive Freq := D | W.

#[global] Instance Freq_eq_dec : EqDecision Freq.
Proof. solve_decision. Defined.

Definition day_of (t : Z) : Z := t / 86400.

(** The week (Monday to Sunday) of a day: 1970-01-01 is a Thursday, so the
    Monday of its week is day -3. *)
Definition week_of_day (d : Z) : Z := (d + 3) / 7.

(** [DatetimeIndex.to_period(freq)] on one timestamp. *)
Definition to_period (f : Freq) (t : Z) : Z :=
  match f with
  | D => day_of t
  | W => week_of_day (day_of t)
  end.

(** A period's attributes are read at its last day. *)
Definition period_first_day (f : Freq) (p : Z) : Z :=
  match f with D => p | W => 7 * p - 3 end.

Definition period_last_day (f : Freq) (p : Z) : Z :=
  match f with D => p | W => 7 * p + 3 end.

(** The proleptic Gregorian date of a day number. *)
Definition civil_from_days (d : Z) : Z * Z * Z :=
  let z := d + 719468 in
  let era := z / 146097 in
  let doe := z - era * 146097 in
  let yoe := (doe - doe / 1460 + doe / 36524 - doe / 146096) / 365 in
  let doy := doe - (365 * yoe + yoe / 4 - yoe / 100) in
  let mp := (5 * doy + 2) / 153 in
  let dd := doy - (153 * mp + 2) / 5 + 1 in
  let m := if decide (mp < 10) then mp + 3 else mp - 9 in
  let y := yoe + era * 400 + (if decide (m ≤ 2) then 1 else 0) in
  (y, m, dd).

Definition year_of_day (d : Z) : Z := (civil_from_days d).1.1.

(** The day number of the first of January of year [y]. *)
Definition first_day_of_year (y : Z) : Z :=
  let y' := y - 1 in
  let era := y' / 400 in
  let yoe := y' - era * 400 in
  let doe := yoe * 365 + yoe / 4 - yoe / 100 + 306 in
  era * 146097 + doe - 719468.

(** The ISO week number of a day: that of the Thursday of its week, counted
    within the Thursday's year. *)
Definition week_of_year (d : Z) : Z :=
  let thursday := 7 * week_of_day d in
  (thursday - first_day_of_year (year_of_day thursday)) / 7 + 1.

Definition period_year (f : Freq) (p : Z) : Z := year_of_day (period_last_day f p).
Definition period_week (f : Freq) (p : Z) : Z := week_of_year (period_last_day f p).

Definition pad (width : nat) (s : string) : string :=
  String.concat "" (replicate (width - String.length s) "0"%string) +:+ s.

Definition date_str (d : Z) : string :=
  let '(y, m, dd) := civil_from_days d in
  pad 4 (pretty y) +:+ "-" +:+ pad 2 (pretty m) +:+ "-" +:+ pad 2 (pretty dd).

(** [str] of a period. *)
Definition period_str (f : Freq) (p : Z) : string :=
  match f with
  | D => date_str p
  | W => date_str (period_first_day W p) +:+ "/" +:+ date_str (period_last_day W p)
  end.

(** ** Tables *)

(** A column has one dtype: float64; object, here the text of a timestamp,
    kept as the timestamp it denotes ([None] for an empty cell); or period.
    Neither of the last two is numeric. *)
Inductive Column :=
| Float64 (vs : list (option Qc))
| Object (ts : list (option Z))
| Period (f : Freq) (ps : list (option Z)).

#[global] Instance Column_eq_dec : EqDecision Column.
Proof. solve_decision. Defined.

(** An index of integer labels (what [read_csv] gives is the range
    [0 .. n-1]) or of periods of one frequency. *)
Inductive Index :=
| IntIndex (ls : list Z)
| PeriodIndex (f : Freq) (ps : list Z).

#[global] Instance Index_eq_dec : EqDecision Index.
Proof. solve_decision. Defined.

Definition RangeIndex (n : nat) : Index := IntIndex (Z.of_nat <$> seq 0 n).

(** The columns are kept in order, by name: [columns[-1]] is the last one, and
    [rename] can make two names equal. *)
Record DataFrame := mkDataFrame {
  index : Index;
  columns : list (string * Column)
}.

#[global] Instance DataFrame_eq_dec : EqDecision DataFrame.
Proof. solve_decision. Defined.

Inductive exn :=
| KeyError (key : string)
| TypeError (msg : string)
| ValueError (msg : string)
| IndexError
| AttributeError (attr : string)
| FileNotFoundError (path : string)
| ParserError (path : string).

#[global] Instance exn_eq_dec : EqDecision exn.
Proof. solve_decision. Defined.

(** What a call does: it returns, it raises, or it is [Wild]: it followed a
    reference to nothing, which no Python state lets happen. *)
Inductive result (A : Type) :=
| Ok (a : A)
| Raise (e : exn)
| Wild.
Arguments Ok {A} a.
Arguments Raise {A} e.
Arguments Wild {A}.

#[global] Instance result_eq_dec `{EqDecision A} : EqDecision (result A).
Proof. solve_decision. Defined.

Definition index_length (i : Index) : nat :=
  match i with
  | IntIndex ls => length ls
  | PeriodIndex _ ps => length ps
  end.

Definition column_length (c : Column) : nat :=
  match c with
  | Float64 vs => length vs
  | Object ts => length ts
  | Period _ ps => length ps
  end.

(** Which rows of a column hold a missing value. *)
Definition isna (c : Column) : list bool :=
  match c with
  | Float64 vs => (fun v => bool_decide (v = None)) <$> vs
  | Object ts => (fun v => bool_decide (v = None)) <$> ts
  | Period _ ps => (fun v => bool_decide (v = None)) <$> ps
  end.

(** The rows of a list that a mask keeps. *)
Fixpoint select {A} (mask : list bool) (xs : list A) : list A :=
  match mask, xs with
  | b :: mask', x :: xs' => if b then x :: select mask' xs' else select mask' xs'
  | _, _ => []
  end.

Definition select_column (mask : list bool) (c : Column) : Column :=
  match c with
  | Float64 vs => Float64 (select mask vs)
  | Object ts => Object (select mask ts)
  | Period f ps => Period f (select mask ps)
  end.

Definition select_index (mask : list bool) (i : Index) : Index :=
  match i with
  | IntIndex ls => IntIndex (select mask ls)
  | PeriodIndex f ps => PeriodIndex f (select mask ps)
  end.

(** [df[name]], for a name held by one column. *)
Fixpoint lookup_column (name : string) (cols : list (string * Column))
  : option Column :=
  match cols with
  | [] => None
  | (n, c) :: rest => if decide (n = name) then Some c else lookup_column name rest
  end.

Definition getitem (name : string) (df : DataFrame) : result Column :=
  match lookup_column name (columns df) with
  | Some c => Ok c
  | None => Raise (KeyError name)
  end.

(** [df[name] = c]: the column of that name is replaced where it stands, a new
    name is added at the end. *)
Fixpoint set_column (name : string) (c : Column) (cols : list (string * Column))
  : list (string * Column) :=
  match cols with
  | [] => [(name, c)]
  | (n, c') :: rest =>
      if decide (n = name) then (n, c) :: rest
      else (n, c') :: set_column name c rest
  end.

Definition setitem (name : string) (c : Column) (df : DataFrame) : DataFrame :=
  mkDataFrame (index df) (set_column name c (columns df)).

(** [df[name] = value] for a table [value] on the same index: a table of
    one column is stored under [name]; any other number of columns does not
    fit the one place, and pandas raises a [ValueError], whose text depends
    on whether [df] has a column [name] already. *)
Definition setitem_frame (name : string) (value df : DataFrame) : result DataFrame :=
  match columns value with
  | [(_, c)] => Ok (setitem name c df)
  | _ =>
      if decide (is_Some (lookup_column name (columns df)))
      then Raise (ValueError "Columns must be same length as key")
      else Raise (ValueError ("Cannot set a DataFrame with multiple columns to "
                              +:+ "the single column " +:+ name))
  end.

(** [pd.DatetimeIndex(column)]: text is parsed (an empty cell is NaT), floats
    are nanoseconds since the epoch (NaN is NaT), periods are refused. *)
Definition truncate (x : Qc) : Z :=
  if decide (0 ≤ x)%Qc then Qfloor x else Qceiling x.

Definition DatetimeIndex (c : Column) : result (list (option Z)) :=
  match c with
  | Object ts => Ok ts
  | Float64 vs => Ok (fmap (M := option) (fun x => truncate x / 1000000000) <$> vs)
  | Period _ _ => Raise (TypeError "Passing PeriodDtype data is invalid")
  end.

(** The numeric columns of a table, in order. *)
Definition numeric_columns (cols : list (string * Column))
  : list (string * list (option Qc)) :=
  omap (fun '(name, c) =>
          match c with
          | Float64 vs => Some (name, vs)
          | _ => None
          end) cols.

(** ** Grouping *)

(** The group keys ([sort=True], [dropna=True]): the distinct keys that are
    not missing, in increasing order. *)
Definition group_keys (keys : list (option Z)) : list Z :=
  merge_sort Z.le (remove_dups (omap id keys)).

(** The cells of a column that belong to the rows whose key is [k]. *)
Definition group {A} (k : Z) (keys : list (option Z)) (vs : list A) : list A :=
  (filter (fun p => p.1 = Some k) (zip keys vs)).*2.

(** The mean of the periods of a group: the mean of their numbers, cut to
    an integer; a group without a period has none. *)
Definition mean_period (ps : list (option Z)) : option Z :=
  truncate <$> mean (fmap (M := option) Qc_of_Z <$> ps).

(** The mean of one column by group when [GroupBy.mean] takes the columns
    that are not numeric too.  Periods are averaged.  Text is not: the
    column is left out, unless no row of any group has a cell in it, when
    all its means are NaN. *)
Definition mean_any (ks : list Z) (keys : list (option Z)) (c : Column)
  : option Column :=
  match c with
  | Float64 vs => Some (Float64 ((fun k => mean (group k keys vs)) <$> ks))
  | Period f ps => Some (Period f ((fun k => mean_period (group k keys ps)) <$> ks))
  | Object ts =>
      if decide (Forall (fun k => Forall (fun c => c = None) (group k keys ts)) ks)
      then Some (match ks with [] => Object [] | _ => Float64 (replicate (length ks) None) end)
      else None
  end.

(** [df.groupby([by]).mean()], where [keys] is the period column stored under
    [by]: one row per group key, and the mean within the group of every
    numeric column other than the key; the columns that are not numeric
    (the text of [time], a period column of an earlier aggregation) are left
    out.  Only when the table has rows and columns besides the key, none of
    them numeric, does pandas 1.5 turn to those columns. *)
Definition groupby_mean (by_ : string) (f : Freq) (keys : list (option Z))
    (df : DataFrame) : DataFrame :=
  let ks := group_keys keys in
  let others := filter (fun nc => nc.1 ≠ by_) (columns df) in
  let numeric := filter (fun nv => nv.1 ≠ by_) (numeric_columns (columns df)) in
  mkDataFrame (PeriodIndex f ks)
    (if decide (numeric = [] ∧ others ≠ [] ∧ index_length (index df) ≠ 0%nat)
     then omap (fun '(name, c) => pair name <$> mean_any ks keys c) others
     else (fun '(name, vs) =>
             (name, Float64 ((fun k => mean (group k keys vs)) <$> ks)))
            <$> numeric).

(** [df.rename(columns = {old: new})]. *)
Definition rename (old new : string) (df : DataFrame) : DataFrame :=
  mkDataFrame (index df)
    ((fun '(name, c) => (if decide (name = old) then new else name, c)) <$> columns df).

(** [df.rolling(w).quantile(q)]: column by column, over the numeric columns. *)
Definition rolling_quantile_frame (w : nat) (q : Qc) (df : DataFrame) : DataFrame :=
  mkDataFrame (index df)
    ((fun '(name, vs) => (name, Float64 (rolling_quantile w q vs)))
       <$> numeric_columns (columns df)).

(** [df.dropna()]: a row stays when none of its cells is missing. *)
Definition cell_isna (c : Column) (i : nat) : bool := default false (isna c !! i).

Definition notna_rows (df : DataFrame) : list bool :=
  (fun i => forallb (fun nc => negb (cell_isna nc.2 i)) (columns df))
    <$> seq 0 (index_length (index df)).

Definition dropna (df : DataFrame) : DataFrame :=
  let mask := notna_rows df in
  mkDataFrame (select_index mask (index df))
    ((fun '(name, c) => (name, select_column mask c)) <$> columns df).

(** ** Summaries *)

(** One column of [describe()]'s table.  The [std] entry is the square root
    of a rational; it is kept as its square, the sample variance. *)
Record Stats := mkStats {
  st_count : nat;
  st_mean : option Qc;
  st_std_squared : option Qc;
  st_min : option Qc;
  st_25 : option Qc;
  st_50 : option Qc;
  st_75 : option Qc;
  st_max : option Qc
}.

(** [describe()] summarises the numeric columns; when there is none it turns
    to the other columns (count, unique, top, freq), of which only the names
    are kept here. *)
Inductive Summary :=
| NumericSummary (cols : list (string * Stats))
| OtherSummary (names : list string).

(** The sample variance ([ddof = 1]), NaN below two observations. *)
Definition variance (vs : list (option Qc)) : option Qc :=
  let xs := observations vs in
  match mean vs with
  | Some m =>
      if decide (2 ≤ length xs)%nat
      then Some (sum ((fun x => (x - m) * (x - m))%Qc <$> xs)
                 / Qc_of_nat (length xs - 1))%Qc
      else None
  | None => None
  end.

Definition describe_column (vs : list (option Qc)) : Stats :=
  let xs := observations vs in
  let s := merge_sort Qcle xs in
  {| st_count := count vs;
     st_mean := mean vs;
     st_std_squared := variance vs;
     st_min := head s;
     st_25 := quantile (frac 1 4) xs;
     st_50 := quantile (frac 1 2) xs;
     st_75 := quantile (frac 3 4) xs;
     st_max := last s |}.

Definition describe (df : DataFrame) : result Summary :=
  match columns df with
  | [] => Raise (ValueError "Cannot describe a DataFrame without columns")
  | cols =>
      match numeric_columns cols with
      | [] => Ok (OtherSummary cols.*1)
      | numeric => Ok (NumericSummary (prod_map id describe_column <$> numeric))
      end
  end.

(** The entry of a summary for one column. *)
Fixpoint summary_of (name : string) (rows : list (string * Stats)) : option Stats :=
  match rows with
  | [] => None
  | (n, s) :: rest => if decide (n = name) then Some s else summary_of name rest
  end.

(** ** What the plots read from a table *)

(** [index.astype("str")]. *)
Definition astype_str (i : Index) : list string :=
  match i with
  | IntIndex ls => pretty <$> ls
  | PeriodIndex f ps => period_str f <$> ps
  end.

(** [index.week]: only an index of periods has it. *)
Definition index_week (i : Index) : result (list Z) :=
  match i with
  | IntIndex _ => Raise (AttributeError "week")
  | PeriodIndex f ps => Ok (period_week f <$> ps)
  end.

(** [index.year[0]]. *)
Definition index_year_0 (i : Index) : result Z :=
  match i with
  | IntIndex _ => Raise (AttributeError "year")
  | PeriodIndex f [] => Raise IndexError
  | PeriodIndex f (p :: _) => Ok (period_year f p)
  end.

(** [columns[-1]] and [columns[-2]]: the name [k] places before the end. *)
Definition column_name_from_end (k : nat) (df : DataFrame) : result string :=
  match reverse (columns df) !! k with
  | Some (name, _) => Ok name
  | None => Raise IndexError
  end.

(** [df[name]] as the plots use it: the column of that name, or all of them
    when several columns bear it. *)
Definition getitem_all (name : string) (df : DataFrame) : list Column :=
  (filter (fun nc => nc.1 = name) (columns df)).*2.

(** The Python slice [[:-1]]. *)
Definition drop_last {A} (xs : list A) : list A := take (length xs - 1) xs.

Definition drop_last_column (c : Column) : Column :=
  match c with
  | Float64 vs => Float64 (drop_last vs)
  | Object ts => Object (drop_last ts)
  | Period f ps => Period f (drop_last ps)
  end.

(** [needle in haystack] on strings. *)
Fixpoint contains (needle haystack : string) : bool :=
  String.prefix needle haystack ||
  match haystack with
  | EmptyString => false
  | String _ rest => contains needle rest
  end.

(** [np.arange(start, stop, step)], for a positive step. *)
Definition arange (start stop step : Qc) : list Qc :=
  (fun k => start + Qc_of_nat k * step)%Qc
    <$> seq 0 (Z.to_nat (Qceiling ((stop - start) / step)%Qc)).

(** What [ax.plot] makes of a column: matplotlib turns the cells into
    floats.  Numbers are taken as they are and text is drawn by category; a
    period is no number, and a missing cell among text is no text: either
    is refused with a [TypeError], whose text is that of Python 3.9 and
    matplotlib 3.6.  A column without a row, or of missing cells only, is
    taken. *)
Definition refusal (c : Column) : option string :=
  match c with
  | Float64 _ => None
  | Object ts =>
      if decide (Exists is_Some ts ∧ Exists (fun c => c = None) ts)
      then Some "'value' must be an instance of str or bytes, not a float"%string
      else None
  | Period _ [] => None
  | Period _ (Some _ :: _) =>
      Some "float() argument must be a string or a number, not 'Period'"%string
  | Period _ (None :: _) =>
      Some "float() argument must be a string or a number, not 'NaTType'"%string
  end.

Definition as_floats (y : list Column) : result unit :=
  match omap refusal y with
  | [] => Ok ()
  | msg :: _ => Raise (TypeError msg)
  end.

(** ** The program state *)

(** What matplotlib is asked to do, in the order it is asked. *)
Inductive Axis :=
| Labels (xs : list string)
| Numbers (xs : list Z).

Inductive Draw :=
| Subplots (width height : Z)
| Plot (x : Axis) (y : list Column) (label color : string) (linewidth : option Z)
| SetTitle (s : string)
| SetYLabel (s : string)
| SetXLabel (s : string)
| SetXTicks (ticks : list Qc)
| Grid
| Legend
| Show.

#[global] Instance Axis_eq_dec : EqDecision Axis.
Proof. solve_decision. Defined.

#[global] Instance Draw_eq_dec : EqDecision Draw.
Proof. solve_decision. Defined.

(** An instance of [Data].  [data] and [data2] are the attributes that the
    plotting methods add; [df], [data] and [data2] refer to tables. *)
Record Data := mkData {
  site : string;
  species : string;
  path : string;
  df : nat;
  scale : string;
  units : string;
  data : option nat;
  data2 : option nat
}.

#[global] Instance Data_eq_dec : EqDecision Data.
Proof. solve_decision. Defined.

Definition set_data (l : nat) (o : Data) : Data :=
  mkData (site o) (species o) (path o) (df o) (scale o) (units o) (Some l) (data2 o).

Definition set_data2 (l : nat) (o : Data) : Data :=
  mkData (site o) (species o) (path o) (df o) (scale o) (units o) (data o) (Some l).

Inductive File :=
| Csv (table : DataFrame)
| Malformed.

(** The table read from [data/species_info.csv] with the species as index:
    the species it lists, and for each of its columns the text [str] gives
    for the cell of a listed species. *)
Record SpeciesInfo := mkSpeciesInfo {
  listed : gset string;
  cells : gmap string (string → string)
}.

(** [species_info] is the module-level table; [files] is what [read_csv]
    finds; [frames] and [objects] hold the tables and the instances of
    [Data]; [canvas] is what has been drawn. *)
Record World := mkWorld {
  species_info : SpeciesInfo;
  files : gmap string File;
  frames : gmap nat DataFrame;
  objects : gmap nat Data;
  canvas : list Draw
}.

Definition with_frames (fs : gmap nat DataFrame) (w : World) : World :=
  mkWorld (species_info w) (files w) fs (objects w) (canvas w).

Definition with_objects (os : gmap nat Data) (w : World) : World :=
  mkWorld (species_info w) (files w) (frames w) os (canvas w).

Definition with_canvas (c : list Draw) (w : World) : World :=
  mkWorld (species_info w) (files w) (frames w) (objects w) c.

(** A computation on the state that may raise; what it did before raising
    stays done. *)
Definition M (A : Type) : Type := World → World * result A.

#[global] Instance M_ret : MRet M := fun A a w => (w, Ok a).

#[global] Instance M_bind : MBind M := fun A B k m w =>
  match m w with
  | (w', Ok a) => k a w'
  | (w', Raise e) => (w', Raise e)
  | (w', Wild) => (w', Wild)
  end.

Definition raise {A} (e : exn) : M A := fun w => (w, Raise e).

Definition lift {A} (r : result A) : M A := fun w => (w, r).

Definition get_object (l : nat) : M Data := fun w =>
  match objects w !! l with
  | Some o => (w, Ok o)
  | None => (w, Wild)
  end.

Definition set_object (l : nat) (o : Data) : M unit := fun w =>
  (with_objects (<[l := o]> (objects w)) w, Ok ()).

Definition new_object (o : Data) : M nat := fun w =>
  let l := fresh (dom (objects w)) in
  (with_objects (<[l := o]> (objects w)) w, Ok l).

Definition get_frame (l : nat) : M DataFrame := fun w =>
  match frames w !! l with
  | Some t => (w, Ok t)
  | None => (w, Wild)
  end.

Definition set_frame (l : nat) (t : DataFrame) : M unit := fun w =>
  (with_frames (<[l := t]> (frames w)) w, Ok ()).

Definition new_frame (t : DataFrame) : M nat := fun w =>
  let l := fresh (dom (frames w)) in
  (with_frames (<[l := t]> (frames w)) w, Ok l).

Definition draw (d : Draw) : M unit := fun w =>
  (with_canvas (canvas w ++ [d]) w, Ok ()).

(** [ax.plot(x, y, ...)]: the line is drawn when [y] is taken. *)
Definition ax_plot (x : Axis) (y : list Column) (label color : string)
    (linewidth : option Z) : M unit :=
  lift (as_floats y);;
  draw (Plot x y label color linewidth).

(** [pd.read_csv(path)]. *)
Definition read_csv (p : string) : M DataFrame := fun w =>
  match files w !! p with
  | None => (w, Raise (FileNotFoundError p))
  | Some Malformed => (w, Raise (ParserError p))
  | Some (Csv t) => (w, Ok t)
  end.

(** [species_info[column][species]]. *)
Definition species_info_at (column sp : string) : M string := fun w =>
  match cells (species_info w) !! column with
  | None => (w, Raise (KeyError column))
  | Some col =>
      if decide (sp ∈ listed (species_info w)) then (w, Ok (col sp))
      else (w, Raise (KeyError sp))
  end.

(** The attribute [self.data] (and [other.data2]), read back after it is set. *)
Definition get_data (self : nat) : M DataFrame :=
  o ← get_object self;
  match data o with
  | Some l => get_frame l
  | None => raise (AttributeError "data")
  end.

Definition get_data2 (self : nat) : M DataFrame :=
  o ← get_object self;
  match data2 o with
  | Some l => get_frame l
  | None => raise (AttributeError "data2")
  end.

(** ** The class [Data] *)

(** [Data(site, species)].  The table is read first, then the scale and the
    units are looked up.  The instance enters the store once [__init__] has
    run to its end: one whose [__init__] raises is handed to nobody. *)
Definition __init__ (site_ species_ : string) : M nat :=
  let path_ := "data/" +:+ site_ +:+ "_" +:+ species_ +:+ ".csv" in
  table ← read_csv path_;
  df_ ← new_frame table;
  scale_ ← species_info_at "scale" species_;
  units_ ← species_info_at "units" species_;
  new_object (mkData site_ species_ path_ df_ scale_ units_ None None).

(** [str(self)]. *)
Definition __str__ (self : nat) : M string :=
  o ← get_object self;
  mret ("Species: " +:+ species o +:+ "   Site code: " +:+ site o
        +:+ "    Scale: " +:+ scale o +:+ "    Units: " +:+ units o).

Definition glimpse (self : nat) : M Summary :=
  o ← get_object self;
  t ← get_frame (df o);
  lift (describe t).

Definition weekly_ave (self : nat) : M nat :=
  o ← get_object self;
  t ← get_frame (df o);
  (* self.df["week"] = pd.DatetimeIndex(self.df["time"]).to_period("W") *)
  time ← lift (getitem "time" t);
  stamps ← lift (DatetimeIndex time);
  let weeks := fmap (M := option) (to_period W) <$> stamps in
  set_frame (df o) (setitem "week" (Period W weeks) t);;
  (* df_ave = self.df.groupby(["week"]).mean() *)
  t' ← get_frame (df o);
  df_ave ← new_frame (groupby_mean "week" W weeks t');
  (* df_ave.rename(columns = {"mf": "Weekly average mole fraction"}, inplace = True) *)
  a ← get_frame df_ave;
  set_frame df_ave (rename "mf" "Weekly average mole fraction" a);;
  mret df_ave.

Definition baseline (self : nat) : M nat :=
  o ← get_object self;
  t ← get_frame (df o);
  (* self.df["day"] = pd.DatetimeIndex(self.df["time"]).to_period("D") *)
  time ← lift (getitem "time" t);
  stamps ← lift (DatetimeIndex time);
  let days := fmap (M := option) (to_period D) <$> stamps in
  set_frame (df o) (setitem "day" (Period D days) t);;
  (* df_ave = self.df.groupby(["day"]).mean() *)
  t' ← get_frame (df o);
  df_ave ← new_frame (groupby_mean "day" D days t');
  (* df_ave["Baseline"] = df_ave.rolling(14).quantile(.05) *)
  a ← get_frame df_ave;
  a' ← lift (setitem_frame "Baseline" (rolling_quantile_frame 14 (frac 1 20) a) a);
  set_frame df_ave a';;
  (* return df_ave.dropna() *)
  a'' ← get_frame df_ave;
  new_frame (dropna a'').

Definition plot (self data_ : nat) : M unit :=
  o ← get_object self;
  set_object self (set_data data_ o);;
  d ← get_data self;
  let x := astype_str (index d) in
  last_name ← lift (column_name_from_end 0 d);
  let y := getitem_all last_name d in
  let title := last_name in
  draw (Subplots 12 6);;
  o ← get_object self;
  ax_plot (Labels x) y (species o +:+ ", " +:+ site o) "black" (Some 2);;
  (if contains "Baseline" title then
     before_last ← lift (column_name_from_end 1 d);
     ax_plot (Labels x) (getitem_all before_last d)
       ("Normal " +:+ species o +:+ " data") "seagreen" None
   else mret ());;
  draw (SetTitle title);;
  draw (SetYLabel ("Mole fraction of " +:+ species o +:+ " / " +:+ units o
                   +:+ " (scale:" +:+ scale o +:+ ")"));;
  year ← lift (index_year_0 (index d));
  draw (SetXLabel ("Time (" +:+ pretty year +:+ ")"));;
  let n := Qc_of_nat (index_length (index d)) in
  draw (SetXTicks (arange (Q2Qc 0) n (n / frac 7 2)%Qc));;
  draw Grid;;
  draw Legend;;
  draw Show.

Definition plot_compare (self data_ other data2_ : nat) : M unit :=
  o ← get_object self;
  o' ← get_object other;
  (if decide (units o ≠ units o') then raise (TypeError "Units must match")
   else mret ());;
  (if decide (scale o ≠ scale o') then raise (TypeError "Scale must match")
   else mret ());;
  (* self.data = data; other.data2 = data2 *)
  set_object self (set_data data_ o);;
  o' ← get_object other;
  set_object other (set_data2 data2_ o');;
  d ← get_data self;
  d2 ← get_data2 other;
  x ← lift (index_week (index d));
  x2 ← lift (index_week (index d2));
  last_name ← lift (column_name_from_end 0 d);
  let y := drop_last_column <$> getitem_all last_name d in
  last_name2 ← lift (column_name_from_end 0 d2);
  let y2 := drop_last_column <$> getitem_all last_name2 d2 in
  let title := last_name in
  draw (Subplots 12 6);;
  o ← get_object self;
  o' ← get_object other;
  ax_plot (Numbers (drop_last x)) y (species o +:+ ", " +:+ site o)
    "seagreen" (Some 2);;
  ax_plot (Numbers (drop_last x2)) y2 (species o' +:+ ", " +:+ site o')
    "plum" (Some 2);;
  draw (SetTitle title);;
  draw (SetYLabel ("Mole fraction of " +:+ species o +:+ " / " +:+ units o
                   +:+ " (scale:" +:+ scale o +:+ ")"));;
  year ← lift (index_year_0 (index d));
  draw (SetXLabel ("Weeks, " +:+ pretty year));;
  draw Grid;;
  draw Legend;;
  draw Show.

(** ** Sample series *)

(** The timestamps of hourly rows for [ndays] days from day [d0]. *)
Definition hourly (d0 : Z) (ndays : nat) : list Z :=
  (fun k => 86400 * d0 + 3600 * Z.of_nat k) <$> seq 0 (24 * ndays).

(** The timestamps of one row a day, at midnight, for [ndays] days from day
    [d0]. *)
Definition daily (d0 : Z) (ndays : nat) : list Z :=
  (fun k => 86400 * (d0 + Z.of_nat k)) <$> seq 0 ndays.

(** A measurement file as [read_csv] reads it: the two columns [time] and
    [mf] on a range index. *)
Definition raw_table (ts : list (option Z)) (vs : list (option Qc)) : DataFrame :=
  mkDataFrame (RangeIndex (length ts))
    [("time"%string, Object ts); ("mf"%string, Float64 vs)].

Definition metadata : SpeciesInfo :=
  mkSpeciesInfo {[ "ch4"%string; "co2"%string; "n2o"%string ]}
    {[ "scale"%string := (fun sp => if decide (sp = "ch4"%string) then "WMO-X2004A"
                                    else if decide (sp = "co2"%string) then "WMO-X2019"
                                    else "WMO-X2006A")%string;
       "units"%string := (fun sp => if decide (sp = "co2"%string)
                                    then "ppm" else "ppb")%string ]}.

(** A state with one measurement file, for CH4 at Mace Head, and the state
    after [Data("MHD", "ch4")]: the instance and its table are both at
    location 0. *)
Definition disk (t : DataFrame) : World :=
  mkWorld metadata {[ "data/MHD_ch4.csv"%string := Csv t ]} ∅ ∅ [].

Definition loaded (t : DataFrame) : World := (__init__ "MHD" "ch4" (disk t)).1.

(** A state with the files of three species at Mace Head and of CH4 at
    Tacolneston, all holding the same table, and the state after the four
    are loaded: CH4, CO2 and N2O at Mace Head at locations 0, 1 and 2, CH4
    at Tacolneston at 3.  CH4 and CO2 differ in units; CH4 and N2O share the
    units and differ in scale. *)
Definition archive (t : DataFrame) : World :=
  mkWorld metadata
    {[ "data/MHD_ch4.csv"%string := Csv t;
       "data/MHD_co2.csv"%string := Csv t;
       "data/MHD_n2o.csv"%string := Csv t;
       "data/TAC_ch4.csv"%string := Csv t ]} ∅ ∅ [].

Definition station (t : DataFrame) : World :=
  ((__init__ "MHD" "ch4";; __init__ "MHD" "co2";; __init__ "MHD" "n2o";;
    __init__ "TAC" "ch4") (archive t)).1.

(** The same with the weekly averages of CH4 at the two sites computed: the
    two tables of averages are at locations 4 and 5. *)
Definition station_weekly (t : DataFrame) : World :=
  ((weekly_ave 0;; weekly_ave 3) (station t)).1.

(** Fifteen days from 2021-01-01 (day 18628), one row a day, with the values
    1 to 15; the same with the value of the last day missing; and fourteen
    days of hourly rows with the value 10. *)
Definition rising : DataFrame :=
  raw_table (Some <$> daily 18628 15) (Some ∘ Qc_of_Z <$> seqZ 1 15).

Definition rising_gap : DataFrame :=
  raw_table (Some <$> daily 18628 15) ((Some ∘ Qc_of_Z <$> seqZ 1 14) ++ [None]).

Definition steady : DataFrame :=
  raw_table (Some <$> hourly 18628 14) (replicate (24 * 14) (Some (Qc_of_Z 10))).

(** Two full weeks of hourly rows from Monday 2021-01-04 (day 18631): the
    values 1 to 168 in the first week, and their doubles in the second. *)
Definition doubling : DataFrame :=
  raw_table (Some <$> hourly 18631 7 ++ hourly 18638 7)
    (Some <$> (Qc_of_Z <$> seqZ 1 168) ++ (Qcmult 2 <$> (Qc_of_Z <$> seqZ 1 168))).

(** A measurement file with a third column, the air temperature, and a state
    with a measurement file for a species, SF6, that the table of species
    does not list. *)
Definition with_temperature : DataFrame :=
  mkDataFrame (RangeIndex 15)
    [("time"%string, Object (Some <$> daily 18628 15));
     ("mf"%string, Float64 (Some ∘ Qc_of_Z <$> seqZ 1 15));
     ("temperature"%string, Float64 (Some ∘ Qc_of_Z <$> seqZ 271 15))].

Definition unlisted (t : DataFrame) : World :=
  mkWorld metadata {[ "data/MHD_sf6.csv"%string := Csv t ]} ∅ ∅ [].

(** ** Vocabulary of the statements *)

(** Two states of an instance that differ at most in the attributes [data]
    and [data2]. *)
Definition same_core (o o' : Data) : Prop :=
  site o' = site o ∧ species o' = species o ∧ path o' = path o ∧
  df o' = df o ∧ scale o' = scale o ∧ units o' = units o.

(** A computation obeys a frame [I] and a set [P] of exceptions when, from
    any state, it ends in a state that [I] relates to the one it started
    from, and raises only exceptions of [P]. *)
Definition obeys {A} (I : World → World → Prop) (P : exn → Prop) (m : M A) : Prop :=
  ∀ w, I w (m w).1 ∧ ∀ e, (m w).2 = Raise e → P e.

(** Frames: nothing changes; nothing but the canvas changes. *)
Definition reads_only (w w' : World) : Prop := w' = w.

Definition draws_only (w w' : World) : Prop :=
  species_info w' = species_info w ∧ files w' = files w ∧
  frames w' = frames w ∧ objects w' = objects w.

(** The instances once the table at [l] is stored in the attribute [data],
    or [data2], of the one at [self]. *)
Definition store_data (self l : nat) (os : gmap nat Data) : gmap nat Data :=
  match os !! self with
  | Some o => <[self := set_data l o]> os
  | None => os
  end.

Definition store_data2 (self l : nat) (os : gmap nat Data) : gmap nat Data :=
  match os !! self with
  | Some o => <[self := set_data2 l o]> os
  | None => os
  end.

(** The frame of [plot]: nothing changes but the canvas and the attribute
    [data] of the instance at [self], which refers to [data_]. *)
Definition stores_data (self data_ : nat) (w w' : World) : Prop :=
  species_info w' = species_info w ∧ files w' = files w ∧
  frames w' = frames w ∧
  objects w' = store_data self data_ (objects w).

(** The frame of [plot_compare]: when the two instances exist and agree in
    units and scale, nothing changes but the canvas, the attribute [data] of
    the instance at [self], which refers to [data_], and the attribute
    [data2] of the one at [other], which refers to [data2_]; otherwise
    nothing changes. *)
Definition stores_data_and_data2 (self data_ other data2_ : nat) (w w' : World)
  : Prop :=
  match objects w !! self, objects w !! other with
  | Some a, Some b =>
      if decide (units a = units b ∧ scale a = scale b)
      then species_info w' = species_info w ∧ files w' = files w ∧
           frames w' = frames w ∧
           objects w' = store_data2 other data2_ (store_data self data_ (objects w))
      else w' = w
  | _, _ => w' = w
  end.

(** The frame of a constructor: what was there stays as it was. *)
Definition extends (w w' : World) : Prop :=
  species_info w' = species_info w ∧ files w' = files w ∧
  canvas w' = canvas w ∧
  (∀ l t, frames w !! l = Some t → frames w' !! l = Some t) ∧
  (∀ l o, objects w !! l = Some o → objects w' !! l = Some o).

(** The table of an instance after an aggregation by [column]: when its
    [time] column reads as timestamps, [column] is set to their periods of
    frequency [f]; otherwise the table is as it was. *)
Definition with_period_column (column : string) (f : Freq) (t : DataFrame)
  : DataFrame :=
  match getitem "time" t with
  | Ok time =>
      match DatetimeIndex time with
      | Ok stamps =>
          setitem column (Period f (fmap (M := option) (to_period f) <$> stamps)) t
      | _ => t
      end
  | _ => t
  end.

(** The frame of an aggregation by [column]: the canvas and the instances
    stay as they were, and so do the tables that exist, but for the table
    of the instance at [self], in which [column] is set; the other tables
    of the state after are new. *)
Definition sets_column (column : string) (f : Freq) (self : nat) (w w' : World)
  : Prop :=
  species_info w' = species_info w ∧ files w' = files w ∧
  canvas w' = canvas w ∧ objects w' = objects w ∧
  ∀ l t, frames w !! l = Some t →
    frames w' !! l =
      Some (if decide (df <$> objects w !! self = Some l)
            then with_period_column column f t else t).

(** The first second of week [k], the midnight that opens its Monday:
    1970-01-01 is a Thursday, so week 0 opens three days before it.  The rows
    of a calendar week are those stamped from its first second up to the
    first second of the next week. *)
Definition week_opens (k : Z) : Z := 86400 * (7 * k - 3).

Definition in_week (k s : Z) : Prop := week_opens k ≤ s < week_opens (k + 1).

#[global] Instance in_week_dec k s : Decision (in_week k s).
Proof. unfold in_week. apply _. Defined.

(** The frame that allows every change. *)
Definition unconstrained (w w' : World) : Prop := True.

(** A measurement file whose timestamps are in a column named [date], and a
    state with a measurement file that does not parse. *)
Definition without_time : DataFrame :=
  mkDataFrame (RangeIndex 15)
    [("date"%string, Object (Some <$> daily 18628 15));
     ("mf"%string, Float64 (Some ∘ Qc_of_Z <$> seqZ 1 15))].

Definition damaged : World :=
  mkWorld metadata {[ "data/MHD_ch4.csv"%string := Malformed ]} ∅ ∅ [].

(** One week of hourly rows from Monday 2021-01-04, with the values 1 to
    168. *)
Definition one_week : DataFrame :=
  raw_table (Some <$> hourly 18631 7) (Some <$> (Qc_of_Z <$> seqZ 1 168)).

(** Thirty days from 2021-01-01, one row a day with the values 1 to 30, the
    value of day 15 missing. *)
Definition month_with_gap : DataFrame :=
  raw_table (Some <$> daily 18628 30)
    ((Some ∘ Qc_of_Z <$> seqZ 1 14) ++ [None] ++ (Some ∘ Qc_of_Z <$> seqZ 16 15)).

(** Fifteen days from 2021-01-01, one row a day with the values 1 to 15, the
    values of the week from 2021-01-04 missing; and a file of timestamps
    alone. *)
Definition lost_week : DataFrame :=
  raw_table (Some <$> daily 18628 15)
    ((Some ∘ Qc_of_Z <$> seqZ 1 3) ++ replicate 7 None
     ++ (Some ∘ Qc_of_Z <$> seqZ 11 5)).

Definition timestamps_only : DataFrame :=
  mkDataFrame (RangeIndex 15) [("time"%string, Object (Some <$> daily 18628 15))].
(** * Properties *)

(** ** Numbers, means and quantiles *)

Section numbers.
Local Open Scope Qc_scope.

Lemma Qc_of_nat_S (n : nat) : Qc_of_nat (S n) = Qc_of_nat n + 1.
Proof.
  apply Qc_is_canon. unfold Qc_of_nat, Qc_of_Z. simpl this.
  rewrite Nat2Z.inj_succ. unfold Z.succ.
  rewrite Qred_correct. unfold Qeq, Qplus. simpl. lia.
Qed.

Lemma Qc_of_nat_0 : Qc_of_nat 0 = 0.
Proof. by apply Qc_is_canon. Qed.

Lemma Qc_of_nat_pos (n : nat) : (0 < n)%nat → 0 < Qc_of_nat n.
Proof.
  intros Hn. unfold Qclt, Qc_of_nat, Qc_of_Z, Qlt. simpl. lia.
Qed.

Lemma Qc_of_nat_nonzero (n : nat) : (0 < n)%nat → Qc_of_nat n ≠ 0.
Proof.
  intros Hn E. apply Qc_of_nat_pos in Hn. rewrite E in Hn.
  by apply (Qclt_not_eq 0 0).
Qed.

Lemma observations_Some (xs : list Qc) : observations (Some <$> xs) = xs.
Proof.
  unfold observations. induction xs as [|x xs IH]; [done|].
  rewrite fmap_cons. csimpl. by f_equal.
Qed.

Lemma observations_length (vs : list (option Qc)) :
  (length (observations vs) ≤ length vs)%nat.
Proof.
  unfold observations. induction vs as [|[x|] vs IH]; csimpl; lia.
Qed.

(** A column counts as many observations as it has rows exactly when it
    has no NaN. *)
Lemma observations_full (vs : list (option Qc)) :
  length (observations vs) = length vs ↔ Forall is_Some vs.
Proof.
  unfold observations. induction vs as [|[x|] vs IH]; csimpl.
  - split; [constructor|done].
  - rewrite Forall_cons. split.
    + intros E. split; [by eexists|]. apply IH. lia.
    + intros [_ H]. f_equal. by apply IH.
  - split.
    + intros E. pose proof (observations_length vs) as Hle.
      unfold observations in Hle. lia.
    + intros H. apply Forall_cons in H as [[? [=]] _].
Qed.

Lemma observations_all_Some (vs : list (option Qc)) :
  Forall is_Some vs → Some <$> observations vs = vs.
Proof.
  unfold observations. induction 1 as [|v vs [x ->] _ IH]; csimpl; [done|].
  by rewrite IH.
Qed.

Lemma mean_Some (xs : list Qc) :
  xs ≠ [] → mean (Some <$> xs) = Some (sum xs / Qc_of_nat (length xs)).
Proof.
  intros Hne. unfold mean. rewrite observations_Some. by destruct xs.
Qed.

Lemma sum_replicate (n : nat) (v : Qc) : sum (replicate n v) = Qc_of_nat n * v.
Proof.
  induction n as [|n IH]; simpl.
  - rewrite Qc_of_nat_0. ring.
  - rewrite IH, Qc_of_nat_S. ring.
Qed.

Lemma sum_scale (c : Qc) (xs : list Qc) : sum (Qcmult c <$> xs) = c * sum xs.
Proof.
  induction xs as [|x xs IH]; csimpl.
  - ring.
  - rewrite IH. ring.
Qed.

(** The mean of a constant, non-empty sample is the constant. *)
Lemma mean_replicate (n : nat) (v : Qc) :
  (0 < n)%nat → mean (replicate n (Some v)) = Some v.
Proof.
  intros Hn. rewrite <-fmap_replicate, mean_Some by (destruct n; [lia|done]).
  rewrite sum_replicate, length_replicate. f_equal.
  field. by apply Qc_of_nat_nonzero.
Qed.

Lemma merge_sort_replicate (n : nat) (v : Qc) :
  merge_sort Qcle (replicate n v) = replicate n v.
Proof.
  symmetry. apply replicate_Permutation. symmetry.
  apply merge_sort_Permutation.
Qed.

Lemma merge_sort_length (xs : list Qc) :
  length (merge_sort Qcle xs) = length xs.
Proof. by rewrite merge_sort_Permutation. Qed.

(** With fourteen observations the fifth percentile lies between the two
    smallest, thirteen twentieths of the way up. *)
Lemma quantile_5_of_14 (xs : list Qc) :
  length xs = 14%nat →
  ∃ lo hi rest,
    merge_sort Qcle xs = lo :: hi :: rest ∧
    quantile (frac 1 20) xs = Some (lo + (hi - lo) * frac 13 20).
Proof.
  intros Hlen. pose proof (merge_sort_length xs) as Hs. rewrite Hlen in Hs.
  assert (frac 1 20 * Qc_of_nat (14 - 1) = frac 13 20) as Hrank
    by (by apply Qc_is_canon).
  assert (Z.to_nat (Qfloor (frac 13 20)) = 0%nat) as Hidx by done.
  assert (frac 13 20 ≠ Qc_of_nat 0) as Hfrac.
  { intros E. by apply (f_equal (fun q => Qnum (this q))) in E. }
  unfold quantile. rewrite Hs, Hrank, Hidx.
  destruct (merge_sort Qcle xs) as [|lo [|hi rest]]; try done.
  exists lo, hi, rest. split; [done|].
  cbn [lookup list_lookup default]. rewrite decide_False by done.
  rewrite Qc_of_nat_0. f_equal; ring.
Qed.

Lemma quantile_5_of_14_constant (v : Qc) :
  quantile (frac 1 20) (replicate 14 v) = Some v.
Proof.
  destruct (quantile_5_of_14 (replicate 14 v)) as (lo & hi & rest & Hs & ->);
    [done|].
  rewrite merge_sort_replicate in Hs. simpl in Hs. simplify_eq.
  f_equal. ring.
Qed.
End numbers.

(** ** Grouping *)

Section grouping.
Implicit Types (keys : list (option Z)) (k : Z).

Lemma elem_of_group_keys keys k : k ∈ group_keys keys ↔ Some k ∈ keys.
Proof.
  unfold group_keys. rewrite merge_sort_Permutation, elem_of_remove_dups.
  rewrite list_elem_of_omap. split.
  - by intros ([x|] & Hin & [= <-]).
  - intros Hin. by exists (Some k).
Qed.

Lemma NoDup_group_keys keys : NoDup (group_keys keys).
Proof.
  unfold group_keys. rewrite merge_sort_Permutation. apply NoDup_remove_dups.
Qed.

Lemma Sorted_group_keys keys : StronglySorted Z.le (group_keys keys).
Proof. apply StronglySorted_merge_sort; apply _. Qed.

(** The group keys are the one increasing list without repetition that
    holds the keys present. *)
Lemma group_keys_unique keys (l : list Z) :
  StronglySorted Z.le l → NoDup l → (∀ k, k ∈ l ↔ Some k ∈ keys) →
  group_keys keys = l.
Proof.
  intros Hsorted Hnodup Hin.
  apply (StronglySorted_unique Z.le); [apply Sorted_group_keys|done|].
  apply NoDup_Permutation; [apply NoDup_group_keys|done|].
  intros k. by rewrite elem_of_group_keys, Hin.
Qed.

Lemma group_cons {A} k (key : option Z) keys (v : A) (vs : list A) :
  group k (key :: keys) (v :: vs) =
  if decide (key = Some k) then v :: group k keys vs else group k keys vs.
Proof.
  unfold group. simpl zip. rewrite filter_cons. simpl.
  by destruct (decide (key = Some k)).
Qed.

Lemma group_app {A} k keys1 keys2 (vs1 vs2 : list A) :
  length keys1 = length vs1 →
  group k (keys1 ++ keys2) (vs1 ++ vs2) = group k keys1 vs1 ++ group k keys2 vs2.
Proof.
  intros Hlen. unfold group.
  rewrite zip_with_app by done. by rewrite filter_app, fmap_app.
Qed.

Lemma elem_of_group {A} k keys (vs : list A) (v : A) :
  v ∈ group k keys vs → v ∈ vs.
Proof.
  unfold group. rewrite list_elem_of_fmap. intros ([key v'] & -> & Hin).
  apply list_elem_of_filter in Hin as [_ Hin].
  by apply elem_of_zip_r in Hin.
Qed.

Lemma group_all {A} k keys (vs : list A) :
  Forall (fun key => key = Some k) keys → length keys = length vs →
  group k keys vs = vs.
Proof.
  intros Hall. revert vs.
  induction Hall as [|key keys -> _ IH]; intros [|v vs] [=]; [done|].
  rewrite group_cons, decide_True by done. f_equal. by apply IH.
Qed.

Lemma group_none {A} k keys (vs : list A) :
  Forall (fun key => key ≠ Some k) keys → group k keys vs = [].
Proof.
  intros Hall. revert vs.
  induction Hall as [|key keys Hne _ IH]; intros [|v vs]; try done.
  rewrite group_cons, decide_False by done. apply IH.
Qed.

Lemma group_nonempty {A} k keys (vs : list A) :
  Some k ∈ keys → length keys = length vs → group k keys vs ≠ [].
Proof.
  revert vs. induction keys as [|key keys IH]; intros vs Hin Hlen.
  { by apply elem_of_nil in Hin. }
  destruct vs as [|v vs]; [done|]. injection Hlen as Hlen.
  rewrite group_cons. case_decide as Hkey; [done|].
  apply elem_of_cons in Hin as [Hin|Hin]; [done|]. by apply IH.
Qed.

Lemma group_fmap {A B} (g : A → B) k keys (vs : list A) :
  group k keys (g <$> vs) = g <$> group k keys vs.
Proof.
  revert vs. induction keys as [|key keys IH]; intros [|v vs]; try done.
  rewrite fmap_cons, !group_cons. case_decide; [rewrite fmap_cons|]; by rewrite IH.
Qed.

(** Every group of a constant column is constant, and its mean is the
    constant. *)
Lemma mean_group_constant k keys (n : nat) (v : Qc) :
  Some k ∈ keys → length keys = n →
  mean (group k keys (replicate n (Some v))) = Some v.
Proof.
  intros Hin Hlen.
  assert (group k keys (replicate n (Some v)) =
          replicate (length (group k keys (replicate n (Some v)))) (Some v)) as ->.
  { symmetry. apply replicate_as_Forall. split; [done|].
    apply Forall_forall. intros x Hx%elem_of_group.
    by apply elem_of_replicate in Hx as [-> _]. }
  apply mean_replicate.
  pose proof (group_nonempty k keys (replicate n (Some v)) Hin) as Hne.
  rewrite length_replicate in Hne. specialize (Hne Hlen).
  destruct (group k keys (replicate n (Some v))); [done|simpl; lia].
Qed.
End grouping.

(** ** Rolling windows and row selection *)

Section rolling.
Lemma window_fmap {A B} (g : A → B) (w i : nat) (xs : list A) :
  window w i (g <$> xs) = g <$> window w i xs.
Proof. unfold window. by rewrite <-fmap_take, <-fmap_drop. Qed.

(** From row [w - 1] on, the window is the [w] rows that end at the row. *)
Lemma window_full {A} (w i : nat) (xs : list A) :
  (0 < w)%nat → (i + w ≤ length xs)%nat →
  window w (i + w - 1) xs = take w (drop i xs).
Proof.
  intros Hw Hlen. unfold window.
  replace (S (i + w - 1) - w)%nat with i by lia.
  replace (S (i + w - 1)) with (i + w)%nat by lia.
  by rewrite take_drop_commute.
Qed.

Lemma window_length {A} (w i : nat) (xs : list A) :
  (i < length xs)%nat → length (window w i xs) = (S i `min` w)%nat.
Proof.
  intros Hi. unfold window. rewrite length_drop, length_take. lia.
Qed.

Lemma rolling_quantile_length (w : nat) (q : Qc) (vs : list (option Qc)) :
  length (rolling_quantile w q vs) = length vs.
Proof. unfold rolling_quantile. apply length_imap. Qed.

Lemma rolling_quantile_lookup (w : nat) (q : Qc) (vs : list (option Qc)) (i : nat) :
  (i < length vs)%nat →
  rolling_quantile w q vs !! i =
  Some (let obs := observations (window w i vs) in
        if decide (w ≤ length obs)%nat then quantile q obs else None).
Proof.
  intros Hi. unfold rolling_quantile. rewrite list_lookup_imap.
  destruct (lookup_lt_is_Some_2 vs i Hi) as [v ->]. done.
Qed.

(** Before row [w - 1] the window is short, and the value is NaN. *)
Lemma rolling_quantile_early (w : nat) (q : Qc) (vs : list (option Qc)) (i : nat) :
  (i < length vs)%nat → (S i < w)%nat → rolling_quantile w q vs !! i = Some None.
Proof.
  intros Hi Hw. rewrite rolling_quantile_lookup by done. cbv zeta.
  rewrite decide_False; [done|].
  pose proof (observations_length (window w i vs)) as Hle.
  rewrite window_length in Hle by done. lia.
Qed.

(** A NaN anywhere in the window makes the value NaN. *)
Lemma rolling_quantile_gap (w : nat) (q : Qc) (vs : list (option Qc)) (i : nat) :
  (i < length vs)%nat → None ∈ window w i vs →
  rolling_quantile w q vs !! i = Some None.
Proof.
  intros Hi Hgap. rewrite rolling_quantile_lookup by done. cbv zeta.
  rewrite decide_False; [done|]. intros Hle.
  assert (length (observations (window w i vs)) = length (window w i vs)) as Hfull.
  { pose proof (observations_length (window w i vs)).
    rewrite window_length in * by done. lia. }
  apply observations_full in Hfull.
  rewrite Forall_forall in Hfull. by destruct (Hfull None Hgap).
Qed.


(** A mask that refuses the rows before [k] and keeps the others drops the
    first [k] rows. *)
Lemma select_from {A} (k j : nat) (xs : list A) :
  select ((fun i => bool_decide (k ≤ i)%nat) <$> seq j (length xs)) xs
  = drop (k - j) xs.
Proof.
  revert j. induction xs as [|x xs IH]; intros j; [by rewrite drop_nil|].
  simpl length. rewrite <-cons_seq, fmap_cons. simpl select.
  case_bool_decide as Hk.
  - rewrite IH. replace (k - j)%nat with 0%nat by lia.
    replace (k - S j)%nat with 0%nat by lia. done.
  - rewrite IH. replace (k - j)%nat with (S (k - S j)) by lia. done.
Qed.

Lemma elem_of_select {A} (mask : list bool) (xs : list A) (x : A) :
  x ∈ select mask xs ↔ ∃ i, mask !! i = Some true ∧ xs !! i = Some x.
Proof.
  revert xs. induction mask as [|b mask IH]; intros [|y xs]; simpl.
  - split; [by intros ?%elem_of_nil|by intros (i & ? & ?)].
  - split; [by intros ?%elem_of_nil|by intros (i & ? & ?)].
  - split; [by intros ?%elem_of_nil|by intros (i & ? & ?)].
  - destruct b.
    + rewrite elem_of_cons, IH. split.
      * intros [->|(i & ? & ?)]; [by exists 0%nat|by exists (S i)].
      * intros ([|i] & ? & ?); simplify_eq/=; [by left|right; by exists i].
    + rewrite IH. split.
      * intros (i & ? & ?). by exists (S i).
      * intros ([|i] & ? & ?); simplify_eq/=. by exists i.
Qed.

End rolling.

(** ** Running the methods *)

Section running.
Context {A B : Type}.
Implicit Types (w : World) (m : M A) (k : A → M B).

Lemma bind_Ok m k w w' a : m w = (w', Ok a) → (m ≫= k) w = k a w'.
Proof. unfold mbind, M_bind. by intros ->. Qed.

Lemma bind_Raise m k w w' e : m w = (w', Raise e) → (m ≫= k) w = (w', Raise e).
Proof. unfold mbind, M_bind. by intros ->. Qed.

Lemma bind_Wild m k w w' : m w = (w', Wild) → (m ≫= k) w = (w', Wild).
Proof. unfold mbind, M_bind. by intros ->. Qed.
End running.

Lemma get_object_Ok w l o : objects w !! l = Some o → get_object l w = (w, Ok o).
Proof. unfold get_object. by intros ->. Qed.

Lemma get_frame_Ok w l t : frames w !! l = Some t → get_frame l w = (w, Ok t).
Proof. unfold get_frame. by intros ->. Qed.

Lemma lift_Ok {A} w (r : result A) a : r = Ok a → lift r w = (w, Ok a).
Proof. by intros ->. Qed.

Lemma lift_Raise {A} w (r : result A) e : r = Raise e → lift r w = (w, Raise e).
Proof. by intros ->. Qed.

(** One step of a method that goes well. *)
Ltac step :=
  erewrite bind_Ok by
    first [ by apply get_object_Ok
          | by apply get_frame_Ok
          | apply get_frame_Ok; simpl; by apply lookup_insert_eq
          | by apply lift_Ok
          | reflexivity ].

Lemma fresh_frame w : frames w !! fresh (dom (frames w)) = None.
Proof. apply not_elem_of_dom, is_fresh. Qed.

Lemma fresh_object w : objects w !! fresh (dom (objects w)) = None.
Proof. apply not_elem_of_dom, is_fresh. Qed.

(** Storing a period column under [by_] does not change which numeric columns
    are averaged. *)
Lemma numeric_columns_set_period by_ f ps cols :
  filter (fun nv => nv.1 ≠ by_) (numeric_columns (set_column by_ (Period f ps) cols))
  = filter (fun nv => nv.1 ≠ by_) (numeric_columns cols).
Proof.
  unfold numeric_columns. induction cols as [|[n c] cols IH]; [done|].
  simpl set_column. case_decide as Hn.
  - subst n. csimpl. destruct c; csimpl; try done.
    by rewrite filter_cons_False by (simpl; intros ?; done).
  - csimpl. destruct c; csimpl; try done.
    by rewrite !filter_cons, IH.
Qed.

(** With a numeric column besides the key, the means are those of the
    numeric columns. *)
Lemma groupby_mean_numeric by_ f keys t :
  filter (fun nv => nv.1 ≠ by_) (numeric_columns (columns t)) ≠ [] →
  groupby_mean by_ f keys t =
  mkDataFrame (PeriodIndex f (group_keys keys))
    ((fun '(name, vs) =>
        (name, Float64 ((fun k => mean (group k keys vs)) <$> group_keys keys)))
       <$> filter (fun nv => nv.1 ≠ by_) (numeric_columns (columns t))).
Proof.
  intros Hne. unfold groupby_mean. rewrite decide_False; [done|]. by intros [? _].
Qed.

Section weekly_ave_run.
Context (w : World) (self : nat) (o : Data) (t : DataFrame).
Context (time : Column) (stamps : list (option Z)).
Hypothesis Hself : objects w !! self = Some o.
Hypothesis Hdf : frames w !! df o = Some t.
Hypothesis Htime : getitem "time" t = Ok time.
Hypothesis Hstamps : DatetimeIndex time = Ok stamps.

Let weeks := fmap (M := option) (to_period W) <$> stamps.
Let stored := <[df o := setitem "week" (Period W weeks) t]> (frames w).

(** What [weekly_ave] does when the time column reads as timestamps: the
    week column is stored in [self.df], and the table of weekly means is a
    new table. *)
Lemma weekly_ave_run :
  weekly_ave self w =
  (with_frames
     (<[fresh (dom stored) :=
          rename "mf" "Weekly average mole fraction"
            (groupby_mean "week" W weeks (setitem "week" (Period W weeks) t))]>
        stored) w,
   Ok (fresh (dom stored))).
Proof.
  unfold weekly_ave. do 9 step.
  unfold mret, M_ret, with_frames. simpl. by rewrite insert_insert_eq.
Qed.
End weekly_ave_run.

Section baseline_run.
Context (w : World) (self : nat) (o : Data) (t : DataFrame).
Context (time : Column) (stamps : list (option Z)) (vs : list (option Qc)).
Hypothesis Hself : objects w !! self = Some o.
Hypothesis Hdf : frames w !! df o = Some t.
Hypothesis Htime : getitem "time" t = Ok time.
Hypothesis Hstamps : DatetimeIndex time = Ok stamps.

Let days := fmap (M := option) (to_period D) <$> stamps.
Let stored := <[df o := setitem "day" (Period D days) t]> (frames w).

Lemma baseline_grouped :
  baseline self w =
  (a ← get_frame (fresh (dom stored));
   a' ← lift (setitem_frame "Baseline" (rolling_quantile_frame 14 (frac 1 20) a) a);
   set_frame (fresh (dom stored)) a';;
   a'' ← get_frame (fresh (dom stored));
   new_frame (dropna a''))
    (with_frames
       (<[fresh (dom stored) :=
            groupby_mean "day" D days (setitem "day" (Period D days) t)]> stored) w).
Proof. unfold baseline. by do 7 step. Qed.

Hypothesis Hmf :
  filter (fun nv => nv.1 ≠ "day") (numeric_columns (columns t)) = [("mf", vs)].

Let ds := group_keys days.
Let ms := (fun d => mean (group d days vs)) <$> ds.
Let bs := rolling_quantile 14 (frac 1 20) ms.
Let df_ave :=
  mkDataFrame (PeriodIndex D ds) [("mf", Float64 ms); ("Baseline", Float64 bs)].
Let grouped := <[fresh (dom stored) := df_ave]> stored.

(** What [baseline] does when [mf] is the one numeric column: the table of
    daily means gets its [Baseline] column, and the result is a new table,
    the rows of that one without a missing cell. *)
Lemma baseline_run :
  baseline self w =
  (with_frames (<[fresh (dom grouped) := dropna df_ave]> grouped) w,
   Ok (fresh (dom grouped))).
Proof.
  rewrite baseline_grouped.
  assert (groupby_mean "day" D days (setitem "day" (Period D days) t)
          = mkDataFrame (PeriodIndex D ds) [("mf", Float64 ms)]) as ->.
  { rewrite groupby_mean_numeric; simpl columns;
      by rewrite numeric_columns_set_period, Hmf. }
  do 4 step. unfold new_frame, with_frames. simpl.
  by rewrite insert_insert_eq.
Qed.
End baseline_run.

(** ** The baseline *)

Section baseline_rows.
Local Open Scope nat_scope.

(** The rolling fifth percentile of a column without NaN: NaN on the first
    thirteen rows, and from then on the percentile of the fourteen rows
    that end at the row. *)
Lemma rolling_14_lookup (xs : list Qc) (i : nat) :
  i < length xs →
  rolling_quantile 14 (frac 1 20) (Some <$> xs) !! i =
  Some (if decide (13 ≤ i) then quantile (frac 1 20) (take 14 (drop (i - 13) xs))
        else None).
Proof.
  intros Hi. case_decide as H13.
  - assert (window 14 i xs = take 14 (drop (i - 13) xs)) as Hwin.
    { rewrite <-(window_full 14 (i - 13)) by lia. f_equal. lia. }
    rewrite rolling_quantile_lookup by (by rewrite length_fmap). cbv zeta.
    rewrite window_fmap, observations_Some, Hwin.
    rewrite decide_True; [done|].
    rewrite length_take, length_drop. lia.
  - apply rolling_quantile_early; [by rewrite length_fmap|lia].
Qed.

Lemma rolling_14_defined (xs : list Qc) (i : nat) :
  i < length xs → 13 ≤ i →
  is_Some (quantile (frac 1 20) (take 14 (drop (i - 13) xs))).
Proof.
  intros Hi H13.
  destruct (quantile_5_of_14 (take 14 (drop (i - 13) xs)))
    as (lo & hi & rest & _ & ->); [|by eexists].
  rewrite length_take, length_drop. lia.
Qed.

Lemma rolling_14_tail (xs : list Qc) :
  Forall is_Some (drop 13 (rolling_quantile 14 (frac 1 20) (Some <$> xs))).
Proof.
  apply Forall_lookup. intros i v Hv. rewrite lookup_drop in Hv.
  assert (13 + i < length xs) as Hi.
  { apply lookup_lt_Some in Hv.
    by rewrite rolling_quantile_length, length_fmap in Hv. }
  rewrite rolling_14_lookup, decide_True in Hv by lia.
  injection Hv as <-. apply (rolling_14_defined xs (13 + i)); lia.
Qed.

(** The rows that [dropna] keeps of the table of daily means and baseline,
    when every daily mean is a number: all but the first thirteen. *)
Lemma notna_rows_baseline (ds : list Z) (xs : list Qc) :
  length ds = length xs →
  notna_rows
    (mkDataFrame (PeriodIndex D ds)
       [("mf"%string, Float64 (Some <$> xs));
        ("Baseline"%string,
         Float64 (rolling_quantile 14 (frac 1 20) (Some <$> xs)))])
  = (fun i => bool_decide (13 ≤ i)) <$> seq 0 (length xs).
Proof.
  intros Hlen. unfold notna_rows. simpl index_length. rewrite Hlen.
  apply Forall_fmap_ext, Forall_forall. intros i Hi%elem_of_seq.
  simpl. unfold cell_isna, isna.
  rewrite !list_lookup_fmap, rolling_14_lookup by lia.
  destruct (lookup_lt_is_Some_2 xs i) as [x ->]; [lia|]. simpl.
  case_decide as H13.
  - destruct (rolling_14_defined xs i) as [b ->]; [lia..|].
    simpl. by rewrite bool_decide_eq_true_2.
  - simpl. by rewrite bool_decide_eq_false_2.
Qed.
End baseline_rows.

(** The days and the daily means of an hourly series with one value. *)
Section hourly_series.
Context (d0 : Z) (n : nat) (v : Qc).

Let days : list (option Z) :=
  fmap (M := option) (to_period D) <$> (Some <$> hourly d0 n).

Lemma hourly_length : length (hourly d0 n) = (24 * n)%nat.
Proof. unfold hourly. by rewrite length_fmap, length_seq. Qed.

Lemma hourly_day (d : Z) : Some d ∈ days ↔ d0 ≤ d < d0 + Z.of_nat n.
Proof.
  unfold days, hourly. rewrite <-!list_fmap_compose.
  rewrite list_elem_of_fmap. setoid_rewrite elem_of_seq. split.
  - intros (k & [= ->] & Hk). simpl. unfold day_of.
    assert ((86400 * d0 + 3600 * Z.of_nat k) `div` 86400
            = d0 + Z.of_nat k `div` 24) as ->.
    { rewrite (Z.mul_comm 86400), Z.add_comm, Z.div_add by lia.
      replace 86400 with (3600 * 24) by lia.
      rewrite Z.div_mul_cancel_l by lia. lia. }
    assert (0 ≤ Z.of_nat k `div` 24 < Z.of_nat n); [|lia].
    split; [apply Z.div_pos; lia|apply Z.div_lt_upper_bound; lia].
  - intros Hd. exists (24 * Z.to_nat (d - d0))%nat. split; [|lia].
    change (Some d = Some (day_of (86400 * d0
                                   + 3600 * Z.of_nat (24 * Z.to_nat (d - d0))))).
    f_equal. unfold day_of.
    replace (86400 * d0 + 3600 * Z.of_nat (24 * Z.to_nat (d - d0)))
      with (d * 86400) by lia.
    by rewrite Z.div_mul.
Qed.

Lemma hourly_group_keys : group_keys days = seqZ d0 (Z.of_nat n).
Proof.
  apply group_keys_unique.
  - apply Sorted_StronglySorted; [apply _|].
    unfold seqZ. rewrite Nat2Z.id. generalize 0%nat.
    induction n as [|m IH]; intros j; [constructor|].
    simpl. constructor; [apply IH|].
    destruct m; constructor. lia.
  - apply NoDup_seqZ.
  - intros d. rewrite hourly_day, elem_of_seqZ. lia.
Qed.

Lemma hourly_means :
  (fun d => mean (group d days (replicate (24 * n) (Some v)))) <$> group_keys days
  = Some <$> replicate n v.
Proof.
  rewrite fmap_replicate.
  symmetry. apply replicate_as_Forall. split.
  { by rewrite length_fmap, hourly_group_keys, length_seqZ, Nat2Z.id. }
  apply Forall_fmap, Forall_forall. intros d Hd. simpl. symmetry.
  apply mean_group_constant; [by apply elem_of_group_keys|].
  unfold days. by rewrite !length_fmap, hourly_length.
Qed.
End hourly_series.

(** C1 (as amended).  When [mf] is the one numeric column of the raw series
    and every day of the series has a daily mean (a day all of whose values
    are missing has none), [baseline] drops exactly the first 13 rows of the
    day-grouped series, and on every row that stays the [Baseline] value is
    the 5th percentile of the 14 daily means that end at that row.  In
    particular, hourly rows for 14 consecutive days with one value [v] (such
    as 10.0) give one row, that of day 14, with daily mean [v] and baseline
    [v]. *)
Theorem baseline_drops_first_13_rows :
  (∀ w self o t ts vs xs,
     objects w !! self = Some o →
     frames w !! df o = Some t →
     lookup_column "time" (columns t) = Some (Object ts) →
     filter (fun nv => nv.1 ≠ "day"%string) (numeric_columns (columns t))
       = [("mf"%string, vs)] →
     let days := fmap (M := option) (to_period D) <$> ts in
     (fun d => mean (group d days vs)) <$> group_keys days = Some <$> xs →
     ∃ l bl,
       (baseline self w).2 = Ok l ∧
       frames (baseline self w).1 !! l =
         Some (mkDataFrame (PeriodIndex D (drop 13 (group_keys days)))
                 [("mf"%string, Float64 (Some <$> drop 13 xs));
                  ("Baseline"%string, Float64 (Some <$> bl))]) ∧
       length bl = (length xs - 13)%nat ∧
       ∀ i b, bl !! i = Some b →
              quantile (frac 1 20) (take 14 (drop i xs)) = Some b)
  ∧
  (∀ w self o t d0 v,
     objects w !! self = Some o →
     frames w !! df o = Some t →
     columns t = [("time"%string, Object (Some <$> hourly d0 14));
                  ("mf"%string, Float64 (replicate (24 * 14) (Some v)))] →
     ∃ l,
       (baseline self w).2 = Ok l ∧
       frames (baseline self w).1 !! l =
         Some (mkDataFrame (PeriodIndex D [d0 + 13])
                 [("mf"%string, Float64 [Some v]);
                  ("Baseline"%string, Float64 [Some v])])).
Proof.
  assert (∀ w self o t ts vs xs,
     objects w !! self = Some o →
     frames w !! df o = Some t →
     lookup_column "time" (columns t) = Some (Object ts) →
     filter (fun nv => nv.1 ≠ "day"%string) (numeric_columns (columns t))
       = [("mf"%string, vs)] →
     let days := fmap (M := option) (to_period D) <$> ts in
     (fun d => mean (group d days vs)) <$> group_keys days = Some <$> xs →
     ∃ l,
       (baseline self w).2 = Ok l ∧
       frames (baseline self w).1 !! l =
         Some (mkDataFrame (PeriodIndex D (drop 13 (group_keys days)))
                 [("mf"%string, Float64 (Some <$> drop 13 xs));
                  ("Baseline"%string,
                   Float64 (drop 13 (rolling_quantile 14 (frac 1 20) (Some <$> xs))))]))
    as Hrun.
  { intros w self o t ts vs xs Hself Hdf Htime Hmf days Hmeans.
    rewrite (baseline_run w self o t (Object ts) ts vs); try done;
      [|by unfold getitem; rewrite Htime].
    eexists. split; [done|]. simpl. rewrite lookup_insert_eq. f_equal.
    fold days. rewrite Hmeans.
    assert (length (group_keys days) = length xs) as Hlen.
    { apply (f_equal length) in Hmeans. by rewrite !length_fmap in Hmeans. }
    unfold dropna. rewrite notna_rows_baseline by done. simpl.
    rewrite <-Hlen at 1. rewrite (select_from 13 0).
    rewrite <-(length_fmap Some xs) at 1. rewrite (select_from 13 0).
    rewrite <-(length_fmap Some xs), <-(rolling_quantile_length 14 (frac 1 20)).
    rewrite (select_from 13 0). by rewrite fmap_drop. }
  split.
  - intros w self o t ts vs xs Hself Hdf Htime Hmf days Hmeans.
    destruct (Hrun w self o t ts vs xs) as (l & Hl & Hres); try done.
    exists l, (observations (drop 13 (rolling_quantile 14 (frac 1 20) (Some <$> xs)))).
    pose proof (rolling_14_tail xs) as Htail.
    split; [done|]. split; [|split].
    + rewrite Hres. by rewrite observations_all_Some.
    + apply observations_full in Htail. rewrite Htail.
      by rewrite length_drop, rolling_quantile_length, length_fmap.
    + intros i b Hb.
      assert (drop 13 (rolling_quantile 14 (frac 1 20) (Some <$> xs)) !! i
              = Some (Some b)) as Hb'.
      { rewrite <-(observations_all_Some _ Htail), list_lookup_fmap.
        by rewrite Hb. }
      rewrite lookup_drop in Hb'.
      assert (13 + i < length xs)%nat as Hi.
      { apply lookup_lt_Some in Hb'.
        by rewrite rolling_quantile_length, length_fmap in Hb'. }
      rewrite rolling_14_lookup, decide_True in Hb' by lia.
      replace (13 + i - 13)%nat with i in Hb' by lia. by injection Hb'.
  - intros w self o t d0 v Hself Hdf Hcols.
    destruct (Hrun w self o t (Some <$> hourly d0 14)
                (replicate (24 * 14) (Some v)) (replicate 14 v))
      as (l & Hl & Hres); try done.
    + by rewrite Hcols.
    + by rewrite Hcols.
    + apply hourly_means.
    + exists l. split; [done|]. rewrite Hres, hourly_group_keys.
      assert (drop 13 (seqZ d0 (Z.of_nat 14)) = [d0 + 13]) as ->.
      { rewrite (drop_S _ (d0 + 13) 13), drop_ge; [done| |].
        - by rewrite length_seqZ.
        - by apply lookup_seqZ. }
      set (bs := rolling_quantile 14 (frac 1 20) (Some <$> replicate 14 v)).
      assert (drop 13 bs = [Some v]) as ->; [|done].
      assert (bs !! 13%nat = Some (Some v)) as Hlast.
      { unfold bs. rewrite rolling_14_lookup by (rewrite length_replicate; lia).
        rewrite decide_True by lia. f_equal.
        apply quantile_5_of_14_constant. }
      rewrite (drop_S _ _ _ Hlast), drop_ge; [done|].
      unfold bs. by rewrite rolling_quantile_length, length_fmap, length_replicate.
Qed.

(** Checking a closed statement by evaluation. *)
Ltac evaluate := cbv zeta; apply (bool_decide_unpack _); vm_compute; exact I.

Lemma baseline_drops_first_13_rows_witness :
  (∃ l bl,
     (baseline 0 (loaded rising)).2 = Ok l ∧
     frames (baseline 0 (loaded rising)).1 !! l =
       Some (mkDataFrame (PeriodIndex D [18641; 18642])
               [("mf"%string, Float64 [Some (Qc_of_Z 14); Some (Qc_of_Z 15)]);
                ("Baseline"%string, Float64 (Some <$> bl))]) ∧
     bl = [frac 33 20; frac 53 20])
  ∧
  (∃ l,
     (baseline 0 (loaded steady)).2 = Ok l ∧
     frames (baseline 0 (loaded steady)).1 !! l =
       Some (mkDataFrame (PeriodIndex D [18641])
               [("mf"%string, Float64 [Some (Qc_of_Z 10)]);
                ("Baseline"%string, Float64 [Some (Qc_of_Z 10)])])).
Proof.
  destruct baseline_drops_first_13_rows as [Hrows Hsteady]. split.
  - destruct (Hrows (loaded rising) 0%nat
                (mkData "MHD" "ch4" "data/MHD_ch4.csv" 0 "WMO-X2004A" "ppb" None None)
                rising (Some <$> daily 18628 15) (Some ∘ Qc_of_Z <$> seqZ 1 15)
                (Qc_of_Z <$> seqZ 1 15))
      as (l & bl & Hl & Hres & Hlen & Hbl).
    + vm_compute. reflexivity.
    + vm_compute. reflexivity.
    + vm_compute. reflexivity.
    + vm_compute. reflexivity.
    + evaluate.
    + exists l, bl. split; [exact Hl|]. split.
      * rewrite Hres.
        assert (drop 13 (group_keys (fmap (M := option) (to_period D)
                                       <$> (Some <$> daily 18628 15)))
                = [18641; 18642]) as -> by evaluate.
        assert (Some <$> drop 13 (Qc_of_Z <$> seqZ 1 15)
                = [Some (Qc_of_Z 14); Some (Qc_of_Z 15)]) as -> by evaluate.
        reflexivity.
      * destruct bl as [|b0 [|b1 [|? ?]]]; try discriminate Hlen.
        pose proof (Hbl 0%nat b0 eq_refl) as H0.
        pose proof (Hbl 1%nat b1 eq_refl) as H1.
        f_equal; [|f_equal].
        -- apply (inj Some). rewrite <-H0. evaluate.
        -- apply (inj Some). rewrite <-H1. evaluate.
  - destruct (Hsteady (loaded steady) 0%nat
                (mkData "MHD" "ch4" "data/MHD_ch4.csv" 0 "WMO-X2004A" "ppb" None None)
                steady 18628 (Qc_of_Z 10))
      as (l & Hl & Hres).
    + vm_compute. reflexivity.
    + vm_compute. reflexivity.
    + vm_compute. reflexivity.
    + exists l. split; [exact Hl|]. rewrite Hres. reflexivity.
Defined.

(** C1 (as stated) fails on a series with a day whose values are all
    missing.  The day-grouped table of [rising_gap] has 15 rows; dropping
    exactly the first 13 would leave days 14 and 15 (18641 and 18642), and
    [baseline] returns day 14 alone. *)
Lemma baseline_drops_a_later_row :
  group_keys (fmap (M := option) (to_period D) <$> (Some <$> daily 18628 15))
    = seqZ 18628 15
  ∧ drop 13 (seqZ 18628 15) = [18641; 18642]
  ∧ (baseline 0 (loaded rising_gap)).2 = Ok 2%nat
  ∧ frames (baseline 0 (loaded rising_gap)).1 !! 2%nat =
      Some (mkDataFrame (PeriodIndex D [18641])
              [("mf"%string, Float64 [Some (Qc_of_Z 14)]);
               ("Baseline"%string, Float64 [Some (frac 33 20)])]).
Proof.
  split; [evaluate|]. split; [evaluate|]. split; evaluate.
Qed.

(** ** The weekly average *)

Lemma lookup_column_elem_of name c cols :
  lookup_column name cols = Some c → (name, c) ∈ cols.
Proof.
  induction cols as [|[n c'] cols IH]; simpl; [done|].
  case_decide as Hn.
  - intros [= ->]. subst n. apply list_elem_of_here.
  - intros H. apply list_elem_of_further. by apply IH.
Qed.

Lemma elem_of_numeric_columns name vs cols :
  (name, vs) ∈ numeric_columns cols ↔ (name, Float64 vs) ∈ cols.
Proof.
  unfold numeric_columns. rewrite list_elem_of_omap. split.
  - intros ([n c] & Hin & Hc). destruct c; simplify_eq. done.
  - intros Hin. by exists (name, Float64 vs).
Qed.

(** The columns of the table of means: one for every numeric column of the
    raw table that is not the key. *)
Lemma groupby_mean_columns by_ f keys t name vs :
  (name, Float64 vs) ∈ columns t → name ≠ by_ →
  (name, Float64 ((fun k => mean (group k keys vs)) <$> group_keys keys))
    ∈ columns (groupby_mean by_ f keys (setitem by_ (Period f keys) t)).
Proof.
  intros Hin Hne.
  assert ((name, vs) ∈ filter (fun nv => nv.1 ≠ by_) (numeric_columns (columns t)))
    as Hnumeric.
  { apply list_elem_of_filter. split; [done|]. by apply elem_of_numeric_columns. }
  rewrite groupby_mean_numeric; simpl columns; rewrite numeric_columns_set_period;
    [|by intros Hnil; rewrite Hnil in Hnumeric; apply elem_of_nil in Hnumeric].
  apply (list_elem_of_fmap_2
           (fun '(name, vs) =>
              (name, Float64 ((fun k => mean (group k keys vs)) <$> group_keys keys)))
           _ (name, vs)).
  done.
Qed.

Lemma rename_columns old new t name c :
  (name, c) ∈ columns t →
  ((if decide (name = old) then new else name), c) ∈ columns (rename old new t).
Proof.
  intros Hin. unfold rename. simpl.
  by apply (list_elem_of_fmap_2
              (fun '(name, c) => (if decide (name = old) then new else name, c))
              _ (name, c)).
Qed.

(** The cells of the rows of period [p], when every row has a timestamp. *)
Lemma group_to_period {A} (f : Freq) (p : Z) (ts : list Z) (xs : list A) :
  group p (fmap (M := option) (to_period f) <$> (Some <$> ts)) xs
  = (filter (fun tx => to_period f tx.1 = p) (zip ts xs)).*2.
Proof.
  revert xs. induction ts as [|t ts IH]; intros [|x xs]; try done.
  rewrite !fmap_cons, group_cons. simpl zip. rewrite filter_cons. simpl.
  repeat case_decide; simplify_eq/=; rewrite ?fmap_cons, IH; done.
Qed.

(** The rows of a week are those whose timestamp has the week as its
    period. *)
Lemma to_period_week (k s : Z) : to_period W s = k ↔ in_week k s.
Proof.
  unfold to_period, week_of_day, day_of, in_week, week_opens.
  Z.div_mod_to_equations. lia.
Qed.

Lemma filter_in_week {A} (k : Z) (rows : list (Z * A)) :
  filter (fun sx => to_period W sx.1 = k) rows = filter (fun sx => in_week k sx.1) rows.
Proof. apply list_filter_iff. intros [s x]. apply to_period_week. Qed.

(** The table of weekly means, week by week, with the rows of a week and the
    mean as the embedding has them. *)
Lemma weekly_ave_rows w self o t ts vs :
  objects w !! self = Some o →
  frames w !! df o = Some t →
  lookup_column "time" (columns t) = Some (Object (Some <$> ts)) →
  lookup_column "mf" (columns t) = Some (Float64 vs) →
  length ts = length vs →
  ∃ l res weeks means,
    (weekly_ave self w).2 = Ok l ∧
    frames (weekly_ave self w).1 !! l = Some res ∧
    index res = PeriodIndex W weeks ∧
    NoDup weeks ∧ StronglySorted Z.le weeks ∧
    (∀ k, k ∈ weeks ↔ k ∈ to_period W <$> ts) ∧
    ("Weekly average mole fraction"%string, Float64 means) ∈ columns res ∧
    length means = length weeks ∧
    ∀ i k, weeks !! i = Some k →
      let cells := (filter (fun sx => to_period W sx.1 = k) (zip ts vs)).*2 in
      cells ≠ [] ∧ means !! i = Some (mean cells).
Proof.
  intros Hself Hdf Htime Hmf Hlen.
  set (keys := fmap (M := option) (to_period W) <$> (Some <$> ts)).
  rewrite (weekly_ave_run w self o t (Object (Some <$> ts)) (Some <$> ts));
    try done; [|by unfold getitem; rewrite Htime].
  fold keys. simpl fst. simpl snd.
  eexists _, _, (group_keys keys),
    ((fun k => mean (group k keys vs)) <$> group_keys keys).
  split; [done|]. split; [apply lookup_insert_eq|].
  split; [done|]. split; [apply NoDup_group_keys|].
  split; [apply Sorted_group_keys|]. split; [|split; [|split]].
  - intros k. rewrite elem_of_group_keys. unfold keys.
    rewrite <-list_fmap_compose, !list_elem_of_fmap. split.
    + intros (s & [= ->] & Hs). by exists s.
    + intros (s & -> & Hs). by exists s.
  - apply (rename_columns "mf" "Weekly average mole fraction" _ "mf").
    apply groupby_mean_columns; [|done]. by apply lookup_column_elem_of.
  - by rewrite length_fmap.
  - intros i k Hk cells.
    assert (group k keys vs = cells) as Hgroup by apply group_to_period.
    split.
    + rewrite <-Hgroup. apply group_nonempty.
      * apply elem_of_group_keys. by eapply list_elem_of_lookup_2.
      * unfold keys. by rewrite !length_fmap.
    + rewrite list_lookup_fmap, Hk. simpl. by rewrite Hgroup.
Qed.

(** C2.  For a raw series whose [time] and [mf] columns have no missing
    cell, [weekly_ave] returns a table with exactly one row for each
    calendar week, Monday to Sunday, in which the series has a row, in
    increasing order, and the value of a row in the column [Weekly average
    mole fraction] is the arithmetic mean of the raw [mf] values of that
    week: their sum divided by their number. *)
Theorem weekly_ave_one_row_per_week w self o t ts xs :
  objects w !! self = Some o →
  frames w !! df o = Some t →
  lookup_column "time" (columns t) = Some (Object (Some <$> ts)) →
  lookup_column "mf" (columns t) = Some (Float64 (Some <$> xs)) →
  length ts = length xs →
  ∃ l res weeks means,
    (weekly_ave self w).2 = Ok l ∧
    frames (weekly_ave self w).1 !! l = Some res ∧
    index res = PeriodIndex W weeks ∧
    NoDup weeks ∧ StronglySorted Z.le weeks ∧
    (∀ k, k ∈ weeks ↔ ∃ s, s ∈ ts ∧ in_week k s) ∧
    ("Weekly average mole fraction"%string, Float64 means) ∈ columns res ∧
    length means = length weeks ∧
    ∀ i k, weeks !! i = Some k →
      let values := (filter (fun sx => in_week k sx.1) (zip ts xs)).*2 in
      values ≠ [] ∧
      means !! i = Some (Some (foldr Qcplus (Q2Qc 0) values
                               / Qc_of_Z (Z.of_nat (length values)))%Qc).
Proof.
  intros Hself Hdf Htime Hmf Hlen.
  destruct (weekly_ave_rows w self o t ts (Some <$> xs))
    as (l & res & weeks & means & Hl & Hres & Hindex & Hnodup & Hsorted
        & Hweeks & Hcolumn & Hlength & Hmeans);
    [done..|by rewrite length_fmap|].
  exists l, res, weeks, means. repeat (split; [done|]). split; [|split; [done|split; [done|]]].
  - intros k. rewrite Hweeks, list_elem_of_fmap. split.
    + intros (s & -> & Hs). exists s. split; [done|]. by apply to_period_week.
    + intros (s & Hs & Hin). exists s. split; [|done].
      symmetry. by apply to_period_week.
  - intros i k Hk values. destruct (Hmeans i k Hk) as [Hne Hmean].
    rewrite filter_in_week in Hne, Hmean.
    assert ((filter (fun sx => in_week k sx.1) (zip ts (Some <$> xs))).*2
            = Some <$> values) as Hcells.
    { unfold values. clear. revert xs.
      induction ts as [|s ts IH]; intros [|x xs]; try done.
      rewrite fmap_cons. simpl zip. rewrite !filter_cons. simpl.
      case_decide; rewrite ?fmap_cons, IH; done. }
    rewrite Hcells in Hne, Hmean. clearbody values.
    assert (values ≠ []) as Hvalues by (intros ->; by apply Hne).
    split; [done|]. by rewrite Hmean, mean_Some.
Qed.

Lemma weekly_ave_one_row_per_week_witness :
  (weekly_ave 0 (loaded rising)).2 = Ok 1%nat
  ∧ frames (weekly_ave 0 (loaded rising)).1 !! 1%nat =
      Some (mkDataFrame (PeriodIndex W [2661; 2662; 2663])
              [("Weekly average mole fraction"%string,
                Float64 [Some (Qc_of_Z 2); Some (Qc_of_Z 7); Some (Qc_of_Z 13)])])
  ∧ period_str W <$> [2661; 2662; 2663] =
      ["2020-12-28/2021-01-03"; "2021-01-04/2021-01-10"; "2021-01-11/2021-01-17"]%string
  ∧ (∀ k, k ∈ [2661; 2662; 2663] ↔ ∃ s, s ∈ daily 18628 15 ∧ in_week k s)
  ∧ ∀ i k, [2661; 2662; 2663] !! i = Some k →
      let values :=
        (filter (fun sx => in_week k sx.1)
           (zip (daily 18628 15) (Qc_of_Z <$> seqZ 1 15))).*2 in
      values ≠ [] ∧
      [Some (Qc_of_Z 2); Some (Qc_of_Z 7); Some (Qc_of_Z 13)] !! i =
        Some (Some (foldr Qcplus (Q2Qc 0) values
                    / Qc_of_Z (Z.of_nat (length values)))%Qc).
Proof.
  destruct (weekly_ave_one_row_per_week (loaded rising) 0%nat
              (mkData "MHD" "ch4" "data/MHD_ch4.csv" 0 "WMO-X2004A" "ppb" None None)
              rising (daily 18628 15) (Qc_of_Z <$> seqZ 1 15))
    as (l & res & weeks & means & Hl & Hres & Hindex & _ & _ & Hweeks & Hcolumn
        & _ & Hmeans).
  - vm_compute. reflexivity.
  - vm_compute. reflexivity.
  - vm_compute. reflexivity.
  - evaluate.
  - vm_compute. reflexivity.
  - assert ((weekly_ave 0 (loaded rising)).2 = Ok 1%nat) as Hone by evaluate.
    assert (frames (weekly_ave 0 (loaded rising)).1 !! 1%nat =
              Some (mkDataFrame (PeriodIndex W [2661; 2662; 2663])
                      [("Weekly average mole fraction"%string,
                        Float64 [Some (Qc_of_Z 2); Some (Qc_of_Z 7);
                                 Some (Qc_of_Z 13)])])) as Htable by evaluate.
    split; [exact Hone|]. split; [exact Htable|]. split; [evaluate|].
    rewrite Hone in Hl. injection Hl as <-.
    rewrite Htable in Hres. injection Hres as <-.
    injection Hindex as <-.
    apply list_elem_of_singleton in Hcolumn. injection Hcolumn as <-.
    split; [exact Hweeks|exact Hmeans].
Defined.

(** The group keys and the groups of a series that fills one week and then
    the next. *)
Section two_weeks.
Context (k : Z) (ts1 ts2 : list Z).
Hypothesis Hweek1 : Forall (fun t => to_period W t = k) ts1.
Hypothesis Hweek2 : Forall (fun t => to_period W t = k + 1) ts2.

Let keys : list (option Z) :=
  fmap (M := option) (to_period W) <$> (Some <$> ts1 ++ ts2).

Lemma two_weeks_keys :
  keys = replicate (length ts1) (Some k) ++ replicate (length ts2) (Some (k + 1)).
Proof.
  unfold keys. rewrite !fmap_app. f_equal.
  - symmetry. apply replicate_as_Forall. split; [by rewrite !length_fmap|].
    rewrite <-list_fmap_compose. apply Forall_fmap.
    eapply Forall_impl; [exact Hweek1|]. by intros t <-.
  - symmetry. apply replicate_as_Forall. split; [by rewrite !length_fmap|].
    rewrite <-list_fmap_compose. apply Forall_fmap.
    eapply Forall_impl; [exact Hweek2|]. by intros t <-.
Qed.

Lemma two_weeks_group_keys : ts1 ≠ [] → ts2 ≠ [] → group_keys keys = [k; k + 1].
Proof.
  intros Hrows1 Hrows2. apply group_keys_unique.
  - repeat constructor; lia.
  - apply NoDup_cons. split; [|apply NoDup_singleton].
    rewrite list_elem_of_singleton. lia.
  - intros k'. rewrite two_weeks_keys, elem_of_app, !elem_of_replicate.
    rewrite !elem_of_cons, elem_of_nil.
    assert (length ts1 ≠ 0%nat) by (by destruct ts1).
    assert (length ts2 ≠ 0%nat) by (by destruct ts2).
    split; [intros [->|[->|[]]]; auto|intros [[? _]|[? _]]; simplify_eq; auto].
Qed.

Lemma two_weeks_group_1 {A} (xs1 xs2 : list A) :
  length ts1 = length xs1 → group k keys (xs1 ++ xs2) = xs1.
Proof.
  intros Hlen1.
  rewrite two_weeks_keys, group_app by (by rewrite length_replicate).
  rewrite group_all, group_none, app_nil_r; [done| | |].
  - apply Forall_replicate. intros [=]. lia.
  - by apply Forall_replicate.
  - by rewrite length_replicate.
Qed.

Lemma two_weeks_group_2 {A} (xs1 xs2 : list A) :
  length ts1 = length xs1 → length ts2 = length xs2 →
  group (k + 1) keys (xs1 ++ xs2) = xs2.
Proof.
  intros Hlen1 Hlen2.
  rewrite two_weeks_keys, group_app by (by rewrite length_replicate).
  rewrite group_none, group_all; [done| | |].
  - by apply Forall_replicate.
  - by rewrite length_replicate.
  - apply Forall_replicate. intros [=]. lia.
Qed.
End two_weeks.

(** C3.  A raw series whose rows fill one week [k] and then the next, with
    the values of the second week the doubles of those of the first, gives
    exactly two rows, for [k] and [k + 1]; the first holds the mean of the
    first week's values and the second its double, in the one column, now
    named [Weekly average mole fraction]. *)
Theorem weekly_ave_two_weeks w self o t k ts1 ts2 xs :
  objects w !! self = Some o →
  frames w !! df o = Some t →
  columns t = [("time"%string, Object (Some <$> ts1 ++ ts2));
               ("mf"%string, Float64 (Some <$> xs ++ (Qcmult 2 <$> xs)))] →
  Forall (fun t => to_period W t = k) ts1 →
  Forall (fun t => to_period W t = k + 1) ts2 →
  length ts1 = length xs →
  length ts2 = length xs →
  xs ≠ [] →
  ∃ l,
    (weekly_ave self w).2 = Ok l ∧
    frames (weekly_ave self w).1 !! l =
      Some (mkDataFrame (PeriodIndex W [k; k + 1])
              [("Weekly average mole fraction"%string,
                Float64 [Some (sum xs / Qc_of_nat (length xs))%Qc;
                         Some (2 * (sum xs / Qc_of_nat (length xs)))%Qc])]).
Proof.
  intros Hself Hdf Hcols Hweek1 Hweek2 Hlen1 Hlen2 Hne.
  rewrite (weekly_ave_run w self o t (Object (Some <$> ts1 ++ ts2))
             (Some <$> ts1 ++ ts2));
    try done; [|by unfold getitem; rewrite Hcols].
  eexists. split; [done|]. cbn [fst frames with_frames].
  rewrite lookup_insert_eq. f_equal.
  rewrite groupby_mean_numeric; simpl columns;
    rewrite numeric_columns_set_period, Hcols.
  2:{ by change (filter _ (numeric_columns _))
        with [("mf"%string, Some <$> xs ++ (Qcmult 2 <$> xs))]. }
  unfold rename. simpl index. simpl columns.
  assert (ts1 ≠ []) as Hrows1 by (by destruct ts1, xs).
  assert (ts2 ≠ []) as Hrows2 by (by destruct ts2, xs).
  rewrite (two_weeks_group_keys k ts1 ts2) by done.
  change (filter _ (numeric_columns _))
    with [("mf"%string, Some <$> xs ++ (Qcmult 2 <$> xs))].
  rewrite (fmap_app Some xs). simpl.
  rewrite (two_weeks_group_1 k ts1 ts2), (two_weeks_group_2 k ts1 ts2);
    try done; rewrite ?length_fmap; try done.
  rewrite !mean_Some by (by destruct xs).
  rewrite sum_scale, length_fmap.
  assert (2 * sum xs / Qc_of_nat (length xs)
          = 2 * (sum xs / Qc_of_nat (length xs)))%Qc as ->; [|done].
  field. apply Qc_of_nat_nonzero. destruct xs; [done|simpl; lia].
Qed.

Lemma weekly_ave_two_weeks_witness :
  ∃ l,
    (weekly_ave 0 (loaded doubling)).2 = Ok l ∧
    frames (weekly_ave 0 (loaded doubling)).1 !! l =
      Some (mkDataFrame (PeriodIndex W [2662; 2663])
              [("Weekly average mole fraction"%string,
                Float64 [Some (frac 169 2); Some (Qc_of_Z 169)])]).
Proof.
  destruct (weekly_ave_two_weeks (loaded doubling) 0%nat
              (mkData "MHD" "ch4" "data/MHD_ch4.csv" 0 "WMO-X2004A" "ppb" None None)
              doubling 2662 (hourly 18631 7) (hourly 18638 7)
              (Qc_of_Z <$> seqZ 1 168))
    as (l & Hl & Hres).
  - vm_compute. reflexivity.
  - vm_compute. reflexivity.
  - vm_compute. reflexivity.
  - evaluate.
  - evaluate.
  - vm_compute. reflexivity.
  - vm_compute. reflexivity.
  - discriminate.
  - exists l. split; [exact Hl|]. rewrite Hres. evaluate.
Defined.

(** ** Frames and exceptions, step by step *)

#[global] Instance unconstrained_refl : Reflexive unconstrained.
Proof. by intros w. Qed.

#[global] Instance unconstrained_trans : Transitive unconstrained.
Proof. by intros w1 w2 w3. Qed.

#[global] Instance draws_only_refl : Reflexive draws_only.
Proof. by intros w. Qed.

#[global] Instance draws_only_trans : Transitive draws_only.
Proof.
  intros w1 w2 w3 (? & ? & ? & ?) (? & ? & ? & ?).
  repeat split; congruence.
Qed.

Lemma same_core_refl o : same_core o o.
Proof. by repeat split. Qed.

Lemma same_core_trans o1 o2 o3 : same_core o1 o2 → same_core o2 o3 → same_core o1 o3.
Proof.
  intros (? & ? & ? & ? & ? & ?) (? & ? & ? & ? & ? & ?).
  repeat split; congruence.
Qed.

Section obeys.
Context (I : World → World → Prop) (P : exn → Prop).
Context `{!Reflexive I, !Transitive I}.

Lemma obeys_bind {A B} (m : M A) (k : A → M B) :
  obeys I P m → (∀ a, obeys I P (k a)) → obeys I P (m ≫= k).
Proof.
  intros Hm Hk w. unfold mbind, M_bind.
  destruct (Hm w) as [HI HP]. destruct (m w) as [w' [a| e|]]; simpl in *.
  - destruct (Hk a w') as [HI' HP']. split; [by etrans|done].
  - split; [done|]. intros e' [= <-]. by apply HP.
  - by split.
Qed.

Lemma obeys_ret {A} (a : A) : obeys I P (mret a).
Proof. by intros w. Qed.

Lemma obeys_raise {A} e : P e → obeys I P (raise (A := A) e).
Proof. intros He w. split; [done|]. by intros e' [= <-]. Qed.

Lemma obeys_lift {A} (r : result A) :
  (∀ e, r = Raise e → P e) → obeys I P (lift r).
Proof. intros Hr w. by split. Qed.

Lemma obeys_get_object l : obeys I P (get_object l).
Proof. intros w. unfold get_object. by destruct (objects w !! l). Qed.

Lemma obeys_get_frame l : obeys I P (get_frame l).
Proof. intros w. unfold get_frame. by destruct (frames w !! l). Qed.

Lemma obeys_draw d :
  (∀ w c, I w (with_canvas c w)) → obeys I P (draw d).
Proof. intros Hdraw w. split; [apply Hdraw|done]. Qed.

Lemma obeys_frame {A} (m : M A) w : obeys I P m → I w (m w).1.
Proof. intros Hm. apply Hm. Qed.

Lemma obeys_exception {A} (m : M A) w e : obeys I P m → (m w).2 = Raise e → P e.
Proof. intros Hm. apply Hm. Qed.

Lemma obeys_set_object l o :
  (∀ w, I w (with_objects (<[l := o]> (objects w)) w)) → obeys I P (set_object l o).
Proof. intros Hset w. split; [apply Hset|done]. Qed.

Lemma obeys_ax_plot x y label color linewidth :
  (∀ e, as_floats y = Raise e → P e) → (∀ w c, I w (with_canvas c w)) →
  obeys I P (ax_plot x y label color linewidth).
Proof.
  intros Hy Hdraw. apply obeys_bind; [by apply obeys_lift|].
  intros _. by apply obeys_draw.
Qed.

Lemma obeys_get_data l : P (AttributeError "data") → obeys I P (get_data l).
Proof.
  intros HP. apply obeys_bind; [apply obeys_get_object|].
  intros o. destruct (data o); [apply obeys_get_frame|by apply obeys_raise].
Qed.

Lemma obeys_get_data2 l : P (AttributeError "data2") → obeys I P (get_data2 l).
Proof.
  intros HP. apply obeys_bind; [apply obeys_get_object|].
  intros o. destruct (data2 o); [apply obeys_get_frame|by apply obeys_raise].
Qed.
End obeys.

Lemma index_week_raises i e : index_week i = Raise e → e = AttributeError "week".
Proof. destruct i; simpl; congruence. Qed.

Lemma index_year_0_raises i e :
  index_year_0 i = Raise e → e = AttributeError "year" ∨ e = IndexError.
Proof. destruct i as [|f [|p ps]]; simpl; naive_solver. Qed.

Lemma column_name_from_end_raises k t e :
  column_name_from_end k t = Raise e → e = IndexError.
Proof.
  unfold column_name_from_end. destruct (reverse (columns t) !! k) as [[? ?]|];
    congruence.
Qed.

(** What matplotlib raises when it refuses a column. *)
Lemma as_floats_raises y e :
  as_floats y = Raise e →
  e = TypeError "'value' must be an instance of str or bytes, not a float"
  ∨ e = TypeError "float() argument must be a string or a number, not 'Period'"
  ∨ e = TypeError "float() argument must be a string or a number, not 'NaTType'".
Proof.
  unfold as_floats. destruct (omap refusal y) as [|msg rest] eqn:Hy; [done|].
  intros [= <-].
  assert (msg ∈ omap refusal y) as Hmsg by (rewrite Hy; apply list_elem_of_here).
  apply list_elem_of_omap in Hmsg as (c & _ & Hc).
  destruct c as [vs|ts|f [|[p|] ps]]; simpl in Hc; try done.
  - case_decide; [|done]. injection Hc as <-. by left.
  - injection Hc as <-. right. by left.
  - injection Hc as <-. right. by right.
Qed.

(** A column of numbers is drawn. *)
Lemma as_floats_Float64 (y : list Column) :
  Forall (fun c => ∃ vs, c = Float64 vs) y → as_floats y = Ok ().
Proof.
  intros Hy. unfold as_floats.
  assert (omap refusal y = []) as ->; [|done].
  induction Hy as [|c y [vs ->] _ IH]; [done|]. csimpl. by rewrite IH.
Qed.

(** Following a method whose steps all obey the frame and the exceptions. *)
Ltac obey_with lem := apply lem; try solve [apply _].

Ltac obey :=
  repeat first
    [ obey_with obeys_ret
    | obey_with obeys_get_object
    | obey_with obeys_get_frame
    | obey_with obeys_get_data; [done]
    | obey_with obeys_get_data2; [done]
    | obey_with obeys_draw; [done]
    | obey_with obeys_ax_plot;
      [by intros ? [-> | [-> | ->]]%as_floats_raises|done]
    | obey_with obeys_set_object; [done]
    | obey_with obeys_raise; [done]
    | obey_with obeys_lift;
      first [ by intros ? ->%index_week_raises
            | by intros ? ->%column_name_from_end_raises
            | by intros ? [-> | ->]%index_year_0_raises ]
    | obey_with obeys_bind; [|intros ?]
    | case_match ].

(** ** Comparing two datasets *)

(** C4.  [plot_compare] raises the mismatch error when the units of the two
    datasets differ, and when the units agree and the scales differ; and
    when it raises that error the state is the one it started from: nothing
    is drawn and no instance or table is changed. *)
Theorem plot_compare_mismatch w self data_ other data2_ a b :
  objects w !! self = Some a →
  objects w !! other = Some b →
  (units a ≠ units b →
   plot_compare self data_ other data2_ w = (w, Raise (TypeError "Units must match")))
  ∧ (units a = units b → scale a ≠ scale b →
     plot_compare self data_ other data2_ w = (w, Raise (TypeError "Scale must match")))
  ∧ (∀ msg, msg = "Units must match"%string ∨ msg = "Scale must match"%string →
            (plot_compare self data_ other data2_ w).2 = Raise (TypeError msg) →
            (plot_compare self data_ other data2_ w).1 = w).
Proof.
  intros Hself Hother. split; [|split].
  - intros Hunits. unfold plot_compare.
    erewrite !bind_Ok by (by apply get_object_Ok).
    erewrite bind_Raise; [done|]. by rewrite decide_True.
  - intros Hunits Hscale. unfold plot_compare.
    erewrite !bind_Ok by (by apply get_object_Ok).
    erewrite bind_Ok by (by rewrite decide_False by (by intros ?)).
    erewrite bind_Raise; [done|]. by rewrite decide_True.
  - intros msg Hmsg. unfold plot_compare.
    erewrite !bind_Ok by (by apply get_object_Ok).
    destruct (decide (units a ≠ units b)) as [Hunits|Hunits].
    { by erewrite bind_Raise by reflexivity. }
    erewrite bind_Ok by reflexivity.
    destruct (decide (scale a ≠ scale b)) as [Hscale|Hscale].
    { by erewrite bind_Raise by reflexivity. }
    erewrite bind_Ok by reflexivity.
    intros Hraise. exfalso.
    eapply (obeys_exception unconstrained
              (fun e => e ≠ TypeError "Units must match"
                        ∧ e ≠ TypeError "Scale must match"))
      in Hraise; [by destruct Hmsg as [-> | ->], Hraise|].
    obey.
Qed.

Lemma plot_compare_mismatch_witness :
  plot_compare 0 7 1 8 (station steady)
    = (station steady, Raise (TypeError "Units must match"))
  ∧ plot_compare 0 7 2 8 (station steady)
    = (station steady, Raise (TypeError "Scale must match"))
  ∧ (∀ msg, msg = "Units must match"%string ∨ msg = "Scale must match"%string →
            (plot_compare 0 7 1 8 (station steady)).2 = Raise (TypeError msg) →
            (plot_compare 0 7 1 8 (station steady)).1 = station steady).
Proof.
  pose (ch4 := mkData "MHD" "ch4" "data/MHD_ch4.csv" 0 "WMO-X2004A" "ppb" None None).
  pose (co2 := mkData "MHD" "co2" "data/MHD_co2.csv" 1 "WMO-X2019" "ppm" None None).
  pose (n2o := mkData "MHD" "n2o" "data/MHD_n2o.csv" 2 "WMO-X2006A" "ppb" None None).
  assert (objects (station steady) !! 0%nat = Some ch4) as H0 by (vm_compute; reflexivity).
  assert (objects (station steady) !! 1%nat = Some co2) as H1 by (vm_compute; reflexivity).
  assert (objects (station steady) !! 2%nat = Some n2o) as H2 by (vm_compute; reflexivity).
  split; [|split].
  - apply (plot_compare_mismatch (station steady) 0 7 1 8 ch4 co2 H0 H1).
    discriminate.
  - apply (plot_compare_mismatch (station steady) 0 7 2 8 ch4 n2o H0 H2).
    + reflexivity.
    + discriminate.
  - apply (plot_compare_mismatch (station steady) 0 7 1 8 ch4 co2 H0 H1).
Defined.

(** The slice [[:-1]] removes the last row. *)
Lemma drop_last_snoc {A} (xs : list A) (x : A) : drop_last (xs ++ [x]) = xs.
Proof.
  unfold drop_last. rewrite length_app. simpl.
  replace (length xs + 1 - 1)%nat with (length xs) by lia.
  by rewrite take_app_length.
Qed.

(** The two instances after [self.data = data] and [other.data2 = data2]. *)
Section stored.
Context (w : World) (self other data_ data2_ : nat) (a b : Data).
Hypothesis Hself : objects w !! self = Some a.
Hypothesis Hother : objects w !! other = Some b.

Let stored_self := <[self := set_data data_ a]> (objects w).

Lemma stored_other :
  ∃ o', stored_self !! other = Some o' ∧ same_core b o' ∧
        (self = other → data o' = Some data_).
Proof.
  unfold stored_self. destruct (decide (self = other)) as [<-|Hne].
  - rewrite lookup_insert_eq. eexists. split; [done|].
    rewrite Hself in Hother. injection Hother as <-. by repeat split.
  - rewrite lookup_insert_ne by done. exists b.
    split; [done|]. split; [apply same_core_refl|done].
Qed.

Lemma stored_both o' :
  stored_self !! other = Some o' →
  ∃ oa ob,
    <[other := set_data2 data2_ o']> stored_self !! self = Some oa ∧
    <[other := set_data2 data2_ o']> stored_self !! other = Some ob ∧
    data oa = Some data_ ∧ data2 ob = Some data2_ ∧
    same_core a oa ∧ same_core b ob.
Proof.
  intros Ho'. destruct stored_other as (o'' & Ho'' & Hcore & Hdata).
  rewrite Ho' in Ho''. injection Ho'' as <-.
  destruct (decide (self = other)) as [<-|Hne].
  - rewrite lookup_insert_eq. eexists _, _. split; [done|]. split; [done|].
    rewrite Hself in Hother. injection Hother as <-.
    split; [by apply Hdata|]. split; [done|].
    destruct Hcore as (? & ? & ? & ? & ? & ?). by repeat split.
  - rewrite lookup_insert_ne, lookup_insert_eq by done.
    unfold stored_self. rewrite lookup_insert_eq. eexists _, _.
    split; [done|]. split; [done|]. split; [done|]. split; [done|].
    split; [by repeat split|].
    destruct Hcore as (? & ? & ? & ? & ? & ?). by repeat split.
Qed.
End stored.

(** What [ax.plot] does with a column it takes, and with one it refuses. *)
Lemma ax_plot_Ok w x y label color linewidth :
  as_floats y = Ok () →
  ax_plot x y label color linewidth w
  = (with_canvas (canvas w ++ [Plot x y label color linewidth]) w, Ok ()).
Proof. intros Hy. unfold ax_plot. by erewrite bind_Ok by (by apply lift_Ok). Qed.

Lemma ax_plot_Raise w x y label color linewidth e :
  as_floats y = Raise e →
  ax_plot x y label color linewidth w = (w, Raise e).
Proof. intros Hy. unfold ax_plot. by erewrite bind_Raise by (by apply lift_Raise). Qed.

(** C5.  When the units and the scales agree, and the two series are tables
    on an index of periods with at least one column, whose last columns
    matplotlib takes once cut (columns of numbers, as the weekly means are),
    [plot_compare] draws, after opening the figure, the two lines with the
    last point of each series left out: the week numbers of all rows but
    the last against the values of the last column on all rows but the
    last.  When the first series has a row, the figure is then labelled and
    shown. *)
Theorem plot_compare_drops_last_point w self data_ other data2_ a b d d2
    f ps f2 ps2 name name2 :
  objects w !! self = Some a →
  objects w !! other = Some b →
  units a = units b →
  scale a = scale b →
  frames w !! data_ = Some d →
  frames w !! data2_ = Some d2 →
  index d = PeriodIndex f ps →
  index d2 = PeriodIndex f2 ps2 →
  column_name_from_end 0 d = Ok name →
  column_name_from_end 0 d2 = Ok name2 →
  as_floats (drop_last_column <$> getitem_all name d) = Ok () →
  as_floats (drop_last_column <$> getitem_all name2 d2) = Ok () →
  (∃ rest,
     canvas (plot_compare self data_ other data2_ w).1 =
       canvas w ++
       [Subplots 12 6;
        Plot (Numbers (drop_last (period_week f <$> ps)))
          (drop_last_column <$> getitem_all name d)
          (species a +:+ ", " +:+ site a) "seagreen" (Some 2);
        Plot (Numbers (drop_last (period_week f2 <$> ps2)))
          (drop_last_column <$> getitem_all name2 d2)
          (species b +:+ ", " +:+ site b) "plum" (Some 2)] ++ rest ∧
     (ps ≠ [] →
      (plot_compare self data_ other data2_ w).2 = Ok () ∧ last rest = Some Show))
  ∧ (∀ (xs : list Z) x, drop_last (xs ++ [x]) = xs)
  ∧ (∀ vs v, drop_last_column (Float64 (vs ++ [v])) = Float64 vs).
Proof.
  intros Hself Hother Hunits Hscale Hd Hd2 Hindex Hindex2 Hname Hname2 Hy Hy2.
  split; [|split; [apply drop_last_snoc|by intros; simpl; rewrite drop_last_snoc]].
  unfold plot_compare.
  erewrite !bind_Ok by (by apply get_object_Ok).
  erewrite bind_Ok by (by rewrite decide_False by (by intros ?)).
  erewrite bind_Ok by (by rewrite decide_False by (by intros ?)).
  erewrite bind_Ok by reflexivity.
  destruct (stored_other w self other data_ a b Hself Hother) as (o' & Ho' & _).
  erewrite bind_Ok by (by apply get_object_Ok).
  erewrite bind_Ok by reflexivity.
  destruct (stored_both w self other data_ data2_ a b Hself Hother o' Ho')
    as (oa & ob & Hoa & Hob & Hdata & Hdata2 & Hcorea & Hcoreb).
  destruct Hcorea as (Hsite & Hspecies & _ & _ & Hscale' & Hunits').
  destruct Hcoreb as (Hsite2 & Hspecies2 & _).
  set (w2 := with_objects _ _).
  assert (get_data self w2 = (w2, Ok d)) as Hget.
  { unfold get_data. erewrite bind_Ok by (by apply get_object_Ok).
    rewrite Hdata. by apply get_frame_Ok. }
  assert (get_data2 other w2 = (w2, Ok d2)) as Hget2.
  { unfold get_data2. erewrite bind_Ok by (by apply get_object_Ok).
    rewrite Hdata2. by apply get_frame_Ok. }
  erewrite bind_Ok by exact Hget.
  erewrite bind_Ok by exact Hget2.
  rewrite Hindex, Hindex2. simpl index_week.
  erewrite !bind_Ok by reflexivity.
  erewrite bind_Ok by (by apply lift_Ok).
  erewrite bind_Ok by (by apply lift_Ok).
  erewrite bind_Ok by reflexivity.
  erewrite bind_Ok by (by apply get_object_Ok).
  erewrite bind_Ok by (by apply get_object_Ok).
  erewrite bind_Ok by (by apply ax_plot_Ok).
  erewrite bind_Ok by (by apply ax_plot_Ok).
  erewrite !bind_Ok by reflexivity.
  rewrite Hsite, Hspecies, Hsite2, Hspecies2, Hscale', Hunits'.
  destruct ps as [|p ps].
  - erewrite bind_Raise by reflexivity. eexists. split; [|done].
    simpl. rewrite <-!app_assoc. simpl. reflexivity.
  - erewrite !bind_Ok by reflexivity. eexists. split.
    + simpl. rewrite <-!app_assoc. simpl. reflexivity.
    + done.
Qed.

Lemma plot_compare_drops_last_point_witness :
  (∃ rest,
     canvas (plot_compare 0 4 3 5 (station_weekly steady)).1 =
       [] ++
       [Subplots 12 6;
        Plot (Numbers (drop_last (period_week W <$> [2661; 2662; 2663])))
          (drop_last_column <$>
             [Float64 [Some (Qc_of_Z 10); Some (Qc_of_Z 10); Some (Qc_of_Z 10)]])
          "ch4, MHD" "seagreen" (Some 2);
        Plot (Numbers (drop_last (period_week W <$> [2661; 2662; 2663])))
          (drop_last_column <$>
             [Float64 [Some (Qc_of_Z 10); Some (Qc_of_Z 10); Some (Qc_of_Z 10)]])
          "ch4, TAC" "plum" (Some 2)] ++ rest ∧
     (plot_compare 0 4 3 5 (station_weekly steady)).2 = Ok () ∧
     last rest = Some Show)
  ∧ drop_last (period_week W <$> [2661; 2662; 2663]) = [53; 1].
Proof.
  pose (weekly := mkDataFrame (PeriodIndex W [2661; 2662; 2663])
          [("Weekly average mole fraction"%string,
            Float64 [Some (Qc_of_Z 10); Some (Qc_of_Z 10); Some (Qc_of_Z 10)])]).
  destruct (plot_compare_drops_last_point (station_weekly steady) 0 4 3 5
              (mkData "MHD" "ch4" "data/MHD_ch4.csv" 0 "WMO-X2004A" "ppb" None None)
              (mkData "TAC" "ch4" "data/TAC_ch4.csv" 3 "WMO-X2004A" "ppb" None None)
              weekly weekly W [2661; 2662; 2663] W [2661; 2662; 2663]
              "Weekly average mole fraction" "Weekly average mole fraction")
    as [(rest & Hcanvas & Hshown) _].
  - vm_compute. reflexivity.
  - vm_compute. reflexivity.
  - reflexivity.
  - reflexivity.
  - evaluate.
  - evaluate.
  - reflexivity.
  - reflexivity.
  - reflexivity.
  - reflexivity.
  - reflexivity.
  - reflexivity.
  - split; [|reflexivity]. exists rest. split; [exact Hcanvas|].
    apply Hshown. discriminate.
Defined.

(** ** What the methods change *)

#[global] Instance reads_only_refl : Reflexive reads_only.
Proof. by intros w. Qed.

#[global] Instance reads_only_trans : Transitive reads_only.
Proof. unfold reads_only. by intros w1 w2 w3 -> ->. Qed.

#[global] Instance extends_refl : Reflexive extends.
Proof. by intros w. Qed.

#[global] Instance extends_trans : Transitive extends.
Proof.
  intros w1 w2 w3 (? & ? & ? & Hf12 & Ho12) (? & ? & ? & Hf23 & Ho23).
  repeat split; try congruence; eauto.
Qed.

Lemma get_object_Wild w l : objects w !! l = None → get_object l w = (w, Wild).
Proof. unfold get_object. by intros ->. Qed.

Lemma get_frame_Wild w l : frames w !! l = None → get_frame l w = (w, Wild).
Proof. unfold get_frame. by intros ->. Qed.

(** A location in use is not the next one handed out, also after a table
    is stored. *)
Lemma fresh_insert_ne {A} (m : gmap nat A) (k l : nat) (x y : A) :
  m !! l = Some x → l ≠ fresh (dom (<[k := y]> m)).
Proof.
  intros Hl ->. apply (is_fresh (dom (<[k := y]> m))).
  apply elem_of_dom_2 in Hl. set_solver.
Qed.

Lemma obeys_any {A} (I : World → World → Prop) (m : M A) :
  (∀ w, I w (m w).1) → obeys I (fun _ => True) m.
Proof. intros Hm w. by split. Qed.

Lemma extends_new_frame t : obeys extends (fun _ => True) (new_frame t).
Proof.
  apply obeys_any. intros w. repeat split; simpl; try done.
  intros l t' Hl. rewrite lookup_insert_ne; [done|].
  intros <-. by rewrite fresh_frame in Hl.
Qed.

Lemma extends_new_object o : obeys extends (fun _ => True) (new_object o).
Proof.
  apply obeys_any. intros w. repeat split; simpl; try done.
  intros l o' Hl. rewrite lookup_insert_ne; [done|].
  intros <-. by rewrite fresh_object in Hl.
Qed.

Lemma extends_read_csv p : obeys extends (fun _ => True) (read_csv p).
Proof.
  apply obeys_any. intros w. unfold read_csv.
  by destruct (files w !! p) as [[?|]|].
Qed.

Lemma extends_species_info_at c sp : obeys extends (fun _ => True) (species_info_at c sp).
Proof.
  apply obeys_any. intros w. unfold species_info_at.
  destruct (cells (species_info w) !! c); [|done]. by case_decide.
Qed.

Lemma init_extends site_ species_ w :
  extends w (__init__ site_ species_ w).1.
Proof.
  apply (obeys_frame extends (fun _ => True)). unfold __init__.
  repeat first [ apply extends_new_frame | apply extends_new_object
               | apply extends_read_csv | apply extends_species_info_at
               | obey_with obeys_bind; [|intros ?] ].
Qed.

(** What follows the stores in a plot only draws. *)
Ltac obey_drawing :=
  apply (obeys_frame draws_only (fun _ => True));
  obey.

Lemma plot_stores_data self data_ w :
  stores_data self data_ w (plot self data_ w).1.
Proof.
  unfold plot, stores_data, store_data.
  destruct (objects w !! self) as [o|] eqn:Hself.
  - erewrite bind_Ok by (by apply get_object_Ok).
    erewrite bind_Ok by reflexivity.
    set (w1 := with_objects (<[self := set_data data_ o]> (objects w)) w).
    match goal with
    | |- context [(?m w1).1] =>
        assert (draws_only w1 (m w1).1) as (-> & -> & -> & ->) by obey_drawing
    end.
    done.
  - by erewrite bind_Wild by (by apply get_object_Wild).
Qed.

Lemma plot_compare_stores_data_and_data2 self data_ other data2_ w :
  stores_data_and_data2 self data_ other data2_ w
    (plot_compare self data_ other data2_ w).1.
Proof.
  unfold plot_compare, stores_data_and_data2.
  destruct (objects w !! self) as [a|] eqn:Hself;
    [|by erewrite bind_Wild by (by apply get_object_Wild)].
  erewrite bind_Ok by (by apply get_object_Ok).
  destruct (objects w !! other) as [b|] eqn:Hother;
    [|by erewrite bind_Wild by (by apply get_object_Wild)].
  erewrite bind_Ok by (by apply get_object_Ok).
  destruct (decide (units a ≠ units b)) as [Hunits|Hunits].
  { erewrite bind_Raise by reflexivity. by rewrite decide_False by (by intros [? _]). }
  erewrite bind_Ok by reflexivity.
  destruct (decide (scale a ≠ scale b)) as [Hscale|Hscale].
  { erewrite bind_Raise by reflexivity. by rewrite decide_False by (by intros [_ ?]). }
  erewrite bind_Ok by reflexivity.
  erewrite bind_Ok by reflexivity.
  rewrite decide_True by (split; by apply dec_stable).
  destruct (stored_other w self other data_ a b Hself Hother) as (o' & Ho' & _).
  erewrite bind_Ok by (by apply get_object_Ok).
  erewrite bind_Ok by reflexivity.
  unfold store_data2, store_data. rewrite Hself, Ho'.
  match goal with
  | |- context [(?m ?w2).1] =>
      assert (draws_only w2 (m w2).1) as (-> & -> & -> & ->) by obey_drawing
  end.
  done.
Qed.

Lemma glimpse_reads_only self w : (glimpse self w).1 = w.
Proof.
  apply (obeys_frame reads_only (fun _ => True)). unfold glimpse.
  repeat first [ obey_with obeys_get_object | obey_with obeys_get_frame
               | obey_with obeys_lift; [done] | obey_with obeys_bind; [|intros ?] ].
Qed.

Lemma str_reads_only self w : (__str__ self w).1 = w.
Proof.
  apply (obeys_frame reads_only (fun _ => True)). unfold __str__.
  repeat first [ obey_with obeys_get_object | obey_with obeys_ret
               | obey_with obeys_bind; [|intros ?] ].
Qed.

Lemma fresh_ne {A} (m : gmap nat A) (l : nat) (x : A) :
  m !! l = Some x → fresh (dom m) ≠ l.
Proof. intros Hl <-. apply (is_fresh (dom m)). by apply elem_of_dom_2 in Hl. Qed.

(** A state whose tables are those of [w], with the column set in the table
    of the instance at [self] and with new tables besides, is within the
    frame of the aggregation. *)
Lemma sets_column_stored column f self w o t (fs : gmap nat DataFrame) :
  objects w !! self = Some o →
  frames w !! df o = Some t →
  fs !! df o = Some (with_period_column column f t) →
  (∀ l t', frames w !! l = Some t' → l ≠ df o → fs !! l = Some t') →
  sets_column column f self w (with_frames fs w).
Proof.
  intros Hself Hdf Hset Hrest. repeat split. simpl. intros l t' Hl.
  rewrite Hself. simpl. case_decide as Hl'.
  - injection Hl' as <-. rewrite Hdf in Hl. by injection Hl as <-.
  - apply Hrest; [done|]. by intros ->.
Qed.

(** A call that stops before it stores the column leaves the state within
    the frame: either the instance or its table is missing, or the [time]
    column does not read as timestamps. *)
Lemma sets_column_stopped column f self w :
  match objects w !! self with
  | Some o =>
      match frames w !! df o with
      | Some t => with_period_column column f t = t
      | None => True
      end
  | None => True
  end →
  sets_column column f self w w.
Proof.
  intros Hstop. repeat split. intros l t Hl.
  destruct (objects w !! self) as [o|]; simpl; [|done].
  case_decide as Hl'; [|done]. injection Hl' as <-.
  by rewrite Hl in Hstop; rewrite Hstop.
Qed.

Section aggregation_frame.
Context (column : string) (f : Freq) (self : nat) (w : World).
Context (m : M nat) (k : Data → DataFrame → list (option Z) → M nat).

(** Both aggregations open in the same way. *)
Hypothesis Hopens :
  m = (o ← get_object self;
       t ← get_frame (df o);
       time ← lift (getitem "time" t);
       stamps ← lift (DatetimeIndex time);
       k o t stamps).

(** What is left to show of a call is what it does once the [time] column
    is read. *)
Lemma aggregation_sets_column :
  (∀ o t time stamps,
     objects w !! self = Some o → frames w !! df o = Some t →
     getitem "time" t = Ok time → DatetimeIndex time = Ok stamps →
     with_period_column column f t
       = setitem column (Period f (fmap (M := option) (to_period f) <$> stamps)) t →
     sets_column column f self w (m w).1) →
  sets_column column f self w (m w).1.
Proof.
  rewrite Hopens. intros Hruns.
  destruct (objects w !! self) as [o|] eqn:Hself.
  2:{ erewrite bind_Wild by (by apply get_object_Wild).
      apply (sets_column_stopped column f self w). by rewrite Hself. }
  destruct (frames w !! df o) as [t|] eqn:Hdf.
  2:{ erewrite bind_Ok by (by apply get_object_Ok).
      erewrite bind_Wild by (by apply get_frame_Wild).
      apply (sets_column_stopped column f self w). by rewrite Hself, Hdf. }
  destruct (getitem "time" t) as [time|e|] eqn:Htime.
  2:{ erewrite bind_Ok by (by apply get_object_Ok).
      erewrite bind_Ok by (by apply get_frame_Ok).
      erewrite bind_Raise by (by apply lift_Raise).
      apply (sets_column_stopped column f self w). rewrite Hself, Hdf.
      unfold with_period_column. by rewrite Htime. }
  2:{ unfold getitem in Htime. by destruct (lookup_column _ _). }
  destruct (DatetimeIndex time) as [stamps|e|] eqn:Hstamps.
  2:{ erewrite bind_Ok by (by apply get_object_Ok).
      erewrite bind_Ok by (by apply get_frame_Ok).
      erewrite bind_Ok by (by apply lift_Ok).
      erewrite bind_Raise by (by apply lift_Raise).
      apply (sets_column_stopped column f self w). rewrite Hself, Hdf.
      unfold with_period_column. by rewrite Htime, Hstamps. }
  2:{ by destruct time. }
  apply (Hruns o t time stamps); try done.
  unfold with_period_column. by rewrite Htime, Hstamps.
Qed.
End aggregation_frame.

Lemma weekly_ave_sets_column self w :
  sets_column "week" W self w (weekly_ave self w).1.
Proof.
  eapply aggregation_sets_column; [reflexivity|].
  intros o t time stamps Hself Hdf Htime Hstamps Hcolumn.
  rewrite (weekly_ave_run w self o t time stamps) by done.
  set (weeks := fmap (M := option) (to_period W) <$> stamps) in *.
  cbn [fst].
  apply (sets_column_stored "week" W self w o t); try done.
  - rewrite lookup_insert_ne by (by eapply fresh_ne, lookup_insert_eq).
    by rewrite lookup_insert_eq, Hcolumn.
  - intros l t' Hl Hne.
    rewrite lookup_insert_ne
      by (eapply fresh_ne; by rewrite lookup_insert_ne by done).
    by rewrite lookup_insert_ne by done.
Qed.

Lemma baseline_sets_column self w :
  sets_column "day" D self w (baseline self w).1.
Proof.
  eapply aggregation_sets_column; [reflexivity|].
  intros o t time stamps Hself Hdf Htime Hstamps Hcolumn.
  rewrite (baseline_grouped w self o t time stamps) by done.
  set (days := fmap (M := option) (to_period D) <$> stamps) in *.
  set (stored := <[df o := setitem "day" (Period D days) t]> (frames w)).
  set (g := groupby_mean "day" D days (setitem "day" (Period D days) t)).
  assert (∀ l t', frames w !! l = Some t' → l ≠ df o → stored !! l = Some t')
    as Hstored by (by intros l t' Hl Hne; unfold stored; rewrite lookup_insert_ne).
  assert (∀ l t', frames w !! l = Some t' → fresh (dom stored) ≠ l) as Hfresh.
  { intros l t' Hl. unfold stored. apply not_eq_sym. by eapply fresh_insert_ne. }
  erewrite bind_Ok by (apply get_frame_Ok; simpl; by apply lookup_insert_eq).
  destruct (setitem_frame "Baseline" (rolling_quantile_frame 14 (frac 1 20) g) g)
    as [a'|e|] eqn:Hset.
  - erewrite bind_Ok by (by apply lift_Ok).
    erewrite bind_Ok by reflexivity.
    erewrite bind_Ok by (apply get_frame_Ok; simpl; by apply lookup_insert_eq).
    unfold new_frame. cbn [fst with_frames frames species_info files objects canvas].
    rewrite insert_insert_eq.
    apply (sets_column_stored "day" D self w o t); try done.
    + rewrite lookup_insert_ne.
      * rewrite lookup_insert_ne by (by eapply Hfresh).
        rewrite Hcolumn. apply lookup_insert_eq.
      * apply (fresh_ne _ _ (setitem "day" (Period D days) t)).
        rewrite lookup_insert_ne by (by eapply Hfresh). apply lookup_insert_eq.
    + intros l t' Hl Hne. rewrite lookup_insert_ne.
      * rewrite lookup_insert_ne by (by eapply Hfresh). by apply Hstored.
      * apply (fresh_ne _ _ t').
        rewrite lookup_insert_ne by (by eapply Hfresh). by apply Hstored.
  - erewrite bind_Raise by (by apply lift_Raise).
    cbn [fst].
    apply (sets_column_stored "day" D self w o t); try done.
    + rewrite lookup_insert_ne by (by eapply Hfresh).
      rewrite Hcolumn. apply lookup_insert_eq.
    + intros l t' Hl Hne. rewrite lookup_insert_ne by (by eapply Hfresh).
      by apply Hstored.
  - unfold setitem_frame in Hset. by repeat case_match.
Qed.

(** C6 (as amended).  The aggregations change no instance and nothing on
    the canvas.  When the [time] column of the table of the instance reads
    as timestamps, [weekly_ave] sets the [week] column of that table to
    their weeks, and [baseline] the [day] column to their days; otherwise
    the table stays as it is.  Every other table that exists stays as it
    was: the tables they work on and return are new.  The plots change no
    table, and of the instances no more than this: [plot] stores its
    argument in the attribute [data] of the instance, and [plot_compare],
    when the units and scales agree, in [data] of the instance and [data2]
    of the other; so the site, species, path, table, scale and units of
    every instance stay as they were.  [glimpse] and [str] change nothing,
    and the constructor leaves every instance and table that exists as it
    is. *)
Theorem methods_change_one_column_and_the_stored_data w self :
  sets_column "week" W self w (weekly_ave self w).1
  ∧ sets_column "day" D self w (baseline self w).1
  ∧ (∀ data_, stores_data self data_ w (plot self data_ w).1)
  ∧ (∀ data_ other data2_,
       stores_data_and_data2 self data_ other data2_ w
         (plot_compare self data_ other data2_ w).1)
  ∧ (glimpse self w).1 = w
  ∧ (__str__ self w).1 = w
  ∧ (∀ site_ species_, extends w (__init__ site_ species_ w).1).
Proof.
  split; [apply weekly_ave_sets_column|].
  split; [apply baseline_sets_column|].
  split; [intros; apply plot_stores_data|].
  split; [intros; apply plot_compare_stores_data_and_data2|].
  split; [apply glimpse_reads_only|].
  split; [apply str_reads_only|].
  intros. apply init_extends.
Qed.

(** C6 (as stated) fails on [plot]: it stores the table it is given in the
    attribute [data] of the instance.  Here the instance at 0 has no such
    attribute before the call, and refers to the table at 4 after it. *)
Lemma plot_stores_its_argument :
  data <$> objects (station_weekly steady) !! 0%nat = Some None
  ∧ (plot 0 4 (station_weekly steady)).2 = Ok ()
  ∧ data <$> objects (plot 0 4 (station_weekly steady)).1 !! 0%nat = Some (Some 4%nat).
Proof. split; [evaluate|]. split; evaluate. Qed.

(** ** The summary *)

Lemma summary_of_numeric name vs cols :
  lookup_column name cols = Some (Float64 vs) →
  summary_of name (prod_map id describe_column <$> numeric_columns cols)
  = Some (describe_column vs).
Proof.
  unfold numeric_columns. induction cols as [|[n c] cols IH]; [done|].
  simpl lookup_column. case_decide as Hn.
  - intros [= ->]. csimpl. by rewrite decide_True.
  - intros Hrest. destruct c; csimpl; rewrite ?decide_False by done; by apply IH.
Qed.

(** C7 (as amended).  The [count] entry of the summary for the [mf] column
    is the number of its values that are not missing; it is the number of
    rows of the column exactly when no value is missing. *)
Theorem glimpse_count w self o t vs :
  objects w !! self = Some o →
  frames w !! df o = Some t →
  lookup_column "mf" (columns t) = Some (Float64 vs) →
  ∃ rows s,
    glimpse self w = (w, Ok (NumericSummary rows)) ∧
    summary_of "mf" rows = Some s ∧
    st_count s = length (observations vs) ∧
    (st_count s ≤ length vs)%nat ∧
    (st_count s = length vs ↔ Forall is_Some vs).
Proof.
  intros Hself Hdf Hmf. unfold glimpse.
  erewrite bind_Ok by (by apply get_object_Ok).
  erewrite bind_Ok by (by apply get_frame_Ok).
  pose proof (summary_of_numeric _ _ _ Hmf) as Hsummary.
  unfold lift, describe.
  destruct (columns t) as [|c cols] eqn:Hcols; [done|].
  destruct (numeric_columns (c :: cols)) as [|nv nvs] eqn:Hnumeric; [done|].
  eexists _, _. split; [done|]. split; [exact Hsummary|].
  split; [done|]. split; [apply observations_length|apply observations_full].
Qed.

Lemma glimpse_count_witness :
  ∃ rows s,
    glimpse 0 (loaded rising_gap) = (loaded rising_gap, Ok (NumericSummary rows)) ∧
    summary_of "mf" rows = Some s ∧
    st_count s = 14%nat.
Proof.
  destruct (glimpse_count (loaded rising_gap) 0%nat
              (mkData "MHD" "ch4" "data/MHD_ch4.csv" 0 "WMO-X2004A" "ppb" None None)
              rising_gap ((Some ∘ Qc_of_Z <$> seqZ 1 14) ++ [None]))
    as (rows & s & Hrun & Hs & Hcount & _).
  - vm_compute. reflexivity.
  - vm_compute. reflexivity.
  - vm_compute. reflexivity.
  - exists rows, s. split; [exact Hrun|]. split; [exact Hs|].
    rewrite Hcount. vm_compute. reflexivity.
Defined.

(** C7 (as stated) fails on a series with a missing value: [rising_gap] has
    15 rows, and the count of its [mf] column is 14. *)
Lemma glimpse_counts_the_values_present :
  index_length (index rising_gap) = 15%nat
  ∧ column_length <$> lookup_column "mf" (columns rising_gap) = Some 15%nat
  ∧ match (glimpse 0 (loaded rising_gap)).2 with
    | Ok (NumericSummary rows) => st_count <$> summary_of "mf" rows
    | _ => None
    end = Some 14%nat.
Proof. split; [evaluate|]. split; evaluate. Qed.

(** ** Additional numeric columns *)

(** Two different members make a list of at least two. *)
Lemma two_elements {A} (x y : A) (l : list A) :
  x ∈ l → y ∈ l → x ≠ y → ∃ a b rest, l = a :: b :: rest.
Proof.
  intros Hx Hy Hne. destruct l as [|a [|b rest]].
  - by apply elem_of_nil in Hx.
  - apply list_elem_of_singleton in Hx, Hy. congruence.
  - by exists a, b, rest.
Qed.

(** The table of daily means has a column for every numeric column of the
    raw table, so with two of them [df_ave["Baseline"] = ...] is handed a
    table of two columns or more, which a single column cannot take. *)
Lemma setitem_frame_two_columns by_ f keys t name1 vs1 name2 vs2 w q :
  (name1, Float64 vs1) ∈ columns t → (name2, Float64 vs2) ∈ columns t →
  name1 ≠ name2 → name1 ≠ by_ → name2 ≠ by_ →
  let g := groupby_mean by_ f keys (setitem by_ (Period f keys) t) in
  ∃ msg, setitem_frame "Baseline" (rolling_quantile_frame w q g) g
         = Raise (ValueError msg)
         ∧ (lookup_column "Baseline" (columns g) = None →
            msg = "Cannot set a DataFrame with multiple columns to the single column Baseline"%string).
Proof.
  intros H1 H2 Hne Hby1 Hby2 g.
  destruct (two_elements (name1, vs1) (name2, vs2)
              (filter (fun nv => nv.1 ≠ by_) (numeric_columns (columns t))))
    as (a & b & rest & Hcols).
  { apply list_elem_of_filter. split; [done|]. by apply elem_of_numeric_columns. }
  { apply list_elem_of_filter. split; [done|]. by apply elem_of_numeric_columns. }
  { congruence. }
  assert (columns (rolling_quantile_frame w q g)
          = (fun '(name, vs) => (name, Float64 (rolling_quantile w q vs)))
              <$> numeric_columns (columns g)) as Hrolling by done.
  assert (∃ a' b' rest', numeric_columns (columns g) = a' :: b' :: rest')
    as (a' & b' & rest' & Hg).
  { unfold g. rewrite groupby_mean_numeric; simpl columns;
      rewrite numeric_columns_set_period, Hcols; [|done].
    destruct a as [na va], b as [nb vb]. csimpl. by eexists _, _, _. }
  unfold setitem_frame. rewrite Hrolling, Hg.
  destruct a' as [na va], b' as [nb vb]. csimpl.
  case_decide as Hkey.
  - eexists. split; [done|]. intros Hnone. rewrite Hnone in Hkey.
    by destruct Hkey.
  - by eexists.
Qed.

(** The names of the columns of the table of means are names of columns
    of the raw table. *)
Lemma groupby_mean_names by_ f keys t name :
  lookup_column name (columns t) = None →
  lookup_column name (columns (groupby_mean by_ f keys t)) = None.
Proof.
  assert (∀ cols : list (string * Column),
            (∀ c, (name, c) ∉ cols) → lookup_column name cols = None) as Hnone.
  { induction cols as [|[n c] cols IH]; [done|]. intros Hcols. simpl.
    case_decide as Hn.
    - subst n. destruct (Hcols c). apply list_elem_of_here.
    - apply IH. intros c' Hc'. apply (Hcols c'). by apply list_elem_of_further. }
  intros Hname. apply Hnone. intros c Hc.
  assert (∀ c', (name, c') ∉ columns t) as Hnot.
  { intros c' Hc'. clear Hc Hnone. revert Hname.
    induction (columns t) as [|[n c''] cols IH]; [by apply elem_of_nil in Hc'|].
    simpl. case_decide as Hn; [done|].
    apply elem_of_cons in Hc' as [[= <- _]|Hc']; [done|]. by apply IH. }
  unfold groupby_mean in Hc. simpl in Hc. case_decide.
  - apply list_elem_of_omap in Hc as ([n c'] & Hin & Hmean).
    apply list_elem_of_filter in Hin as [_ Hin].
    destruct (mean_any _ keys c'); simplify_eq/=. by apply (Hnot c').
  - apply list_elem_of_fmap in Hc as ([n vs] & [= <- _] & Hin).
    apply list_elem_of_filter in Hin as [_ Hin].
    apply elem_of_numeric_columns in Hin. by apply (Hnot (Float64 vs)).
Qed.

(** C8.  On a raw series with a numeric column besides [time] and [mf],
    [weekly_ave] runs, and its result has, next to the renamed [mf]
    column, a column of that name with the weekly means of the additional
    column.  [baseline] does not: the table of daily means has a column
    for each of the two, so has the table of their rolling percentiles,
    and its assignment to the one column [Baseline] raises a
    [ValueError]. *)
Theorem aggregation_with_an_additional_column w self o t ts vs name us :
  objects w !! self = Some o →
  frames w !! df o = Some t →
  lookup_column "time" (columns t) = Some (Object ts) →
  ("mf"%string, Float64 vs) ∈ columns t →
  (name, Float64 us) ∈ columns t →
  name ≠ "mf"%string →
  (name ≠ "week"%string →
   ∃ l res,
     (weekly_ave self w).2 = Ok l ∧
     frames (weekly_ave self w).1 !! l = Some res ∧
     let weeks := fmap (M := option) (to_period W) <$> ts in
     ("Weekly average mole fraction"%string,
      Float64 ((fun k => mean (group k weeks vs)) <$> group_keys weeks)) ∈ columns res ∧
     (name, Float64 ((fun k => mean (group k weeks us)) <$> group_keys weeks))
       ∈ columns res)
  ∧ (name ≠ "day"%string →
     ∃ msg, (baseline self w).2 = Raise (ValueError msg) ∧
            (lookup_column "Baseline" (columns t) = None →
             msg = "Cannot set a DataFrame with multiple columns to the single column Baseline"%string)).
Proof.
  intros Hself Hdf Htime Hmf Hextra Hne.
  assert (getitem "time" t = Ok (Object ts)) as Hget
    by (by unfold getitem; rewrite Htime).
  split.
  - intros Hweek.
    rewrite (weekly_ave_run w self o t (Object ts) ts) by done.
    eexists _, _. split; [done|]. split; [apply lookup_insert_eq|].
    intros weeks. split.
    + apply (rename_columns "mf" "Weekly average mole fraction" _ "mf").
      by apply groupby_mean_columns.
    + pose proof (rename_columns "mf" "Weekly average mole fraction"
                    (groupby_mean "week" W weeks (setitem "week" (Period W weeks) t))
                    name (Float64 ((fun k => mean (group k weeks us))
                                     <$> group_keys weeks))) as Hrename.
      rewrite decide_False in Hrename by done.
      apply Hrename. by apply groupby_mean_columns.
  - intros Hday.
    rewrite (baseline_grouped w self o t (Object ts) ts) by done.
    erewrite bind_Ok by (apply get_frame_Ok; simpl; by apply lookup_insert_eq).
    destruct (setitem_frame_two_columns "day" D
                (fmap (M := option) (to_period D) <$> ts) t "mf" vs name us
                14%nat (frac 1 20)) as (msg & Hmsg & Htext); try done.
    exists msg. split; [by erewrite bind_Raise by (by apply lift_Raise)|].
    intros Hnone. apply Htext, groupby_mean_names. simpl.
    clear -Hnone. induction (columns t) as [|[n c] cols IH]; [done|].
    simpl in *. case_decide; [done|]. case_decide; [by subst|]. simpl.
    rewrite decide_False by done. by apply IH.
Qed.

Lemma aggregation_with_an_additional_column_witness :
  (weekly_ave 0 (loaded with_temperature)).2 = Ok 1%nat
  ∧ frames (weekly_ave 0 (loaded with_temperature)).1 !! 1%nat
    = Some (mkDataFrame (PeriodIndex W [2661; 2662; 2663])
              [("Weekly average mole fraction"%string,
                Float64 [Some (Qc_of_Z 2); Some (Qc_of_Z 7); Some (Qc_of_Z 13)]);
               ("temperature"%string,
                Float64 [Some (Qc_of_Z 272); Some (Qc_of_Z 277); Some (Qc_of_Z 283)])])
  ∧ (baseline 0 (loaded with_temperature)).2
    = Raise (ValueError
               "Cannot set a DataFrame with multiple columns to the single column Baseline").
Proof.
  destruct (aggregation_with_an_additional_column (loaded with_temperature) 0%nat
              (mkData "MHD" "ch4" "data/MHD_ch4.csv" 0 "WMO-X2004A" "ppb" None None)
              with_temperature (Some <$> daily 18628 15)
              (Some ∘ Qc_of_Z <$> seqZ 1 15) "temperature"
              (Some ∘ Qc_of_Z <$> seqZ 271 15))
    as [_ Hbaseline].
  - vm_compute. reflexivity.
  - vm_compute. reflexivity.
  - vm_compute. reflexivity.
  - apply list_elem_of_further, list_elem_of_here.
  - apply list_elem_of_further, list_elem_of_further, list_elem_of_here.
  - discriminate.
  - split; [evaluate|]. split; [evaluate|].
    destruct Hbaseline as (msg & Hraise & Htext); [discriminate|].
    rewrite Hraise, Htext; reflexivity.
Defined.

(** ** Rows with a missing value *)

Section dropna_baseline.
Context (ds : list Z) (ms bs : list (option Qc)).
Hypothesis Hms : length ms = length ds.
Hypothesis Hbs : length bs = length ds.

Let df_ave :=
  mkDataFrame (PeriodIndex D ds)
    [("mf"%string, Float64 ms); ("Baseline"%string, Float64 bs)].

(** A row of the table of daily means and baseline stays when both its
    cells are numbers. *)
Lemma notna_rows_lookup (i : nat) :
  notna_rows df_ave !! i = Some true ↔
  ∃ m b, ms !! i = Some (Some m) ∧ bs !! i = Some (Some b).
Proof.
  unfold notna_rows. simpl index_length. rewrite list_lookup_fmap.
  destruct (decide (i < length ds)%nat) as [Hi|Hi].
  - rewrite lookup_seq_lt by done. simpl. unfold cell_isna, isna.
    rewrite !list_lookup_fmap.
    destruct (lookup_lt_is_Some_2 ms i) as [m ->]; [lia|].
    destruct (lookup_lt_is_Some_2 bs i) as [b ->]; [lia|].
    destruct m as [m|], b as [b|]; simpl; split; try done.
    + by exists m, b.
    + by intros (? & ? & ? & ?).
    + by intros (? & ? & ? & ?).
    + by intros (? & ? & ? & ?).
  - rewrite lookup_seq_ge by lia. simpl. split; [done|].
    intros (m & b & Hm%lookup_lt_Some & _). lia.
Qed.

Lemma dropna_baseline_index (d : Z) :
  d ∈ select (notna_rows df_ave) ds ↔
  ∃ i m b, ds !! i = Some d ∧ ms !! i = Some (Some m) ∧ bs !! i = Some (Some b).
Proof.
  rewrite elem_of_select. split.
  - intros (i & Hmask & Hd). apply notna_rows_lookup in Hmask as (m & b & ? & ?).
    by exists i, m, b.
  - intros (i & m & b & Hd & Hm & Hb). exists i. split; [|done].
    apply notna_rows_lookup. by exists m, b.
Qed.

Lemma dropna_baseline_means : Forall is_Some (select (notna_rows df_ave) ms).
Proof.
  apply Forall_forall. intros v (i & Hmask & Hv)%elem_of_select.
  apply notna_rows_lookup in Hmask as (m & b & Hm & _).
  rewrite Hm in Hv. injection Hv as <-. by eexists.
Qed.

Lemma dropna_baseline_baselines : Forall is_Some (select (notna_rows df_ave) bs).
Proof.
  apply Forall_forall. intros v (i & Hmask & Hv)%elem_of_select.
  apply notna_rows_lookup in Hmask as (m & b & _ & Hb).
  rewrite Hb in Hv. injection Hv as <-. by eexists.
Qed.
End dropna_baseline.

(** C9.  When [mf] is the one numeric column, [baseline] returns the rows
    of the day-grouped table in which both the daily mean and the rolling
    percentile are numbers, and no other: no cell of the result is missing,
    and a day whose daily mean is undefined is absent from it, wherever it
    stands in the series. *)
Theorem baseline_excludes_rows_with_missing_values w self o t ts vs :
  objects w !! self = Some o →
  frames w !! df o = Some t →
  lookup_column "time" (columns t) = Some (Object ts) →
  filter (fun nv => nv.1 ≠ "day"%string) (numeric_columns (columns t))
    = [("mf"%string, vs)] →
  let days := fmap (M := option) (to_period D) <$> ts in
  let ds := group_keys days in
  let ms := (fun d => mean (group d days vs)) <$> ds in
  let bs := rolling_quantile 14 (frac 1 20) ms in
  ∃ l kept ms' bs',
    (baseline self w).2 = Ok l ∧
    frames (baseline self w).1 !! l =
      Some (mkDataFrame (PeriodIndex D kept)
              [("mf"%string, Float64 (Some <$> ms'));
               ("Baseline"%string, Float64 (Some <$> bs'))]) ∧
    (∀ d, d ∈ kept ↔
          ∃ i m b, ds !! i = Some d ∧ ms !! i = Some (Some m) ∧
                   bs !! i = Some (Some b)) ∧
    (∀ d, d ∈ ds → mean (group d days vs) = None → d ∉ kept).
Proof.
  intros Hself Hdf Htime Hmf days ds ms bs.
  assert (length ms = length ds) as Hms by (by unfold ms; rewrite length_fmap).
  assert (length bs = length ds) as Hbs
    by (by unfold bs; rewrite rolling_quantile_length).
  rewrite (baseline_run w self o t (Object ts) ts vs); try done;
    [|by unfold getitem; rewrite Htime].
  fold days. fold ds. fold ms. fold bs.
  set (df_ave := mkDataFrame (PeriodIndex D ds)
                   [("mf"%string, Float64 ms); ("Baseline"%string, Float64 bs)]).
  exists (fresh (dom (<[fresh (dom (<[df o := setitem "day" (Period D days) t]>
                                      (frames w))) := df_ave]>
                        (<[df o := setitem "day" (Period D days) t]> (frames w))))),
    (select (notna_rows df_ave) ds),
    (observations (select (notna_rows df_ave) ms)),
    (observations (select (notna_rows df_ave) bs)).
  split; [done|]. split; [|split].
  - cbn [fst frames with_frames]. rewrite lookup_insert_eq.
    rewrite !observations_all_Some
      by (by apply dropna_baseline_means || by apply dropna_baseline_baselines).
    done.
  - intros d. by apply dropna_baseline_index.
  - intros d Hd Hmean Hkept.
    apply dropna_baseline_index in Hkept as (i & m & b & Hi & Hm & _); [|done..].
    unfold ms in Hm. rewrite list_lookup_fmap, Hi in Hm. simpl in Hm.
    congruence.
Qed.

Lemma baseline_excludes_rows_with_missing_values_witness :
  ∃ l kept ms' bs',
    (baseline 0 (loaded rising_gap)).2 = Ok l ∧
    frames (baseline 0 (loaded rising_gap)).1 !! l =
      Some (mkDataFrame (PeriodIndex D kept)
              [("mf"%string, Float64 (Some <$> ms'));
               ("Baseline"%string, Float64 (Some <$> bs'))]) ∧
    kept = [18641] ∧
    18642 ∉ kept.
Proof.
  pose (days := fmap (M := option) (to_period D) <$> (Some <$> daily 18628 15)).
  pose (vs := (Some ∘ Qc_of_Z <$> seqZ 1 14) ++ [None]).
  destruct (baseline_excludes_rows_with_missing_values (loaded rising_gap) 0%nat
              (mkData "MHD" "ch4" "data/MHD_ch4.csv" 0 "WMO-X2004A" "ppb" None None)
              rising_gap (Some <$> daily 18628 15) vs)
    as (l & kept & ms' & bs' & Hl & Hres & Hkept & Hgap).
  - vm_compute. reflexivity.
  - vm_compute. reflexivity.
  - vm_compute. reflexivity.
  - vm_compute. reflexivity.
  - exists l, kept, ms', bs'. split; [exact Hl|]. split; [exact Hres|].
    assert (18642 ∉ kept) as Hout.
    { apply Hgap; [evaluate|]. vm_compute. reflexivity. }
    split; [|exact Hout].
    assert ((baseline 0 (loaded rising_gap)).2 = Ok 2%nat) as Hl' by evaluate.
    assert (frames (baseline 0 (loaded rising_gap)).1 !! 2%nat =
              Some (mkDataFrame (PeriodIndex D [18641])
                      [("mf"%string, Float64 [Some (Qc_of_Z 14)]);
                       ("Baseline"%string, Float64 [Some (frac 33 20)])]))
      as Hres' by evaluate.
    rewrite Hl in Hl'. injection Hl' as ->. rewrite Hres in Hres'.
    by injection Hres'.
Defined.

(** ** Construction *)

(** C10.  When the measurement file of the site and species exists and
    parses, and the species is not listed in the table of species,
    construction raises a [KeyError]: for the species when the table has a
    [scale] column, for [scale] otherwise; and the store of instances is as
    it was, so no dataset is produced. *)
Theorem init_unlisted_species w site_ species_ t :
  files w !! ("data/" +:+ site_ +:+ "_" +:+ species_ +:+ ".csv") = Some (Csv t) →
  species_ ∉ listed (species_info w) →
  ∃ key,
    (__init__ site_ species_ w).2 = Raise (KeyError key) ∧
    (is_Some (cells (species_info w) !! "scale"%string) → key = species_) ∧
    objects (__init__ site_ species_ w).1 = objects w.
Proof.
  intros Hfile Hspecies. unfold __init__.
  erewrite bind_Ok by (unfold read_csv; by rewrite Hfile).
  erewrite bind_Ok by reflexivity.
  destruct (cells (species_info w) !! "scale"%string) as [col|] eqn:Hscale.
  - exists species_. erewrite bind_Raise.
    2:{ unfold species_info_at. cbn [species_info with_frames].
        rewrite Hscale, decide_False by done. reflexivity. }
    done.
  - exists "scale"%string. erewrite bind_Raise.
    2:{ unfold species_info_at. cbn [species_info with_frames].
        rewrite Hscale. reflexivity. }
    split; [done|]. split; [by intros [? ?]|done].
Qed.

Lemma init_unlisted_species_witness :
  (__init__ "MHD" "sf6" (unlisted steady)).2 = Raise (KeyError "sf6")
  ∧ objects (__init__ "MHD" "sf6" (unlisted steady)).1 = objects (unlisted steady).
Proof.
  destruct (init_unlisted_species (unlisted steady) "MHD" "sf6" steady)
    as (key & Hraise & Hkey & Hobjects).
  - vm_compute. reflexivity.
  - evaluate.
  - split; [|exact Hobjects]. rewrite Hraise, Hkey; [reflexivity|].
    vm_compute. by eexists.
Defined.

(** * Further properties *)

(** ** Construction and description *)

(** X1.  When the measurement file parses and the species is listed in a
    table of species that has the columns [scale] and [units],
    [Data(site, species)] returns a new instance: it holds the site, the
    species and the path as given, the scale and the units of the species,
    and a new table with the content of the file; no attribute [data] or
    [data2] yet. *)
Theorem init_returns_a_new_instance w site_ species_ t scale_of units_of :
  files w !! ("data/" +:+ site_ +:+ "_" +:+ species_ +:+ ".csv") = Some (Csv t) →
  species_ ∈ listed (species_info w) →
  cells (species_info w) !! "scale"%string = Some scale_of →
  cells (species_info w) !! "units"%string = Some units_of →
  ∃ l fl,
    (__init__ site_ species_ w).2 = Ok l ∧
    objects w !! l = None ∧
    frames w !! fl = None ∧
    objects (__init__ site_ species_ w).1 !! l =
      Some (mkData site_ species_ ("data/" +:+ site_ +:+ "_" +:+ species_ +:+ ".csv")
              fl (scale_of species_) (units_of species_) None None) ∧
    frames (__init__ site_ species_ w).1 !! fl = Some t.
Proof.
  intros Hfile Hlisted Hscale Hunits. unfold __init__.
  erewrite bind_Ok by (unfold read_csv; by rewrite Hfile).
  erewrite bind_Ok by reflexivity.
  erewrite bind_Ok.
  2:{ unfold species_info_at. cbn [species_info with_frames].
      rewrite Hscale, decide_True by done. reflexivity. }
  erewrite bind_Ok.
  2:{ unfold species_info_at. cbn [species_info with_frames].
      rewrite Hunits, decide_True by done. reflexivity. }
  unfold new_object. cbn [fst snd objects frames with_frames with_objects].
  eexists _, _. split; [done|]. split; [apply fresh_object|].
  split; [apply fresh_frame|]. split; apply lookup_insert_eq.
Qed.

Lemma init_returns_a_new_instance_witness :
  ∃ l fl,
    (__init__ "TAC" "ch4" (station steady)).2 = Ok l ∧
    objects (station steady) !! l = None ∧
    frames (station steady) !! fl = None ∧
    objects (__init__ "TAC" "ch4" (station steady)).1 !! l =
      Some (mkData "TAC" "ch4" "data/TAC_ch4.csv" fl "WMO-X2004A" "ppb" None None) ∧
    frames (__init__ "TAC" "ch4" (station steady)).1 !! fl = Some steady.
Proof.
  refine (init_returns_a_new_instance (station steady) "TAC" "ch4" steady
           (fun sp => if decide (sp = "ch4"%string) then "WMO-X2004A"
                      else if decide (sp = "co2"%string) then "WMO-X2019"
                      else "WMO-X2006A")%string
           (fun sp => if decide (sp = "co2"%string) then "ppm" else "ppb")%string
           _ _ _ _).
  - vm_compute. reflexivity.
  - evaluate.
  - vm_compute. reflexivity.
  - vm_compute. reflexivity.
Defined.

(** X2.  Without a measurement file that parses, construction fails on the
    file, whatever the table of species holds, and the state is the one it
    started from: [FileNotFoundError] when there is no file, a parse error
    when the file is malformed. *)
Theorem init_without_a_readable_file w site_ species_ :
  (∀ t, files w !! ("data/" +:+ site_ +:+ "_" +:+ species_ +:+ ".csv")
        ≠ Some (Csv t)) →
  ∃ e,
    __init__ site_ species_ w = (w, Raise e) ∧
    match files w !! ("data/" +:+ site_ +:+ "_" +:+ species_ +:+ ".csv") with
    | None => e = FileNotFoundError ("data/" +:+ site_ +:+ "_" +:+ species_ +:+ ".csv")
    | Some _ => e = ParserError ("data/" +:+ site_ +:+ "_" +:+ species_ +:+ ".csv")
    end.
Proof.
  intros Hfile. unfold __init__.
  destruct (files w !! ("data/" +:+ site_ +:+ "_" +:+ species_ +:+ ".csv"))
    as [[t|]|] eqn:Hpath.
  - by destruct (Hfile t).
  - eexists. split; [|done].
    erewrite bind_Raise; [done|]. unfold read_csv. by rewrite Hpath.
  - eexists. split; [|done].
    erewrite bind_Raise; [done|]. unfold read_csv. by rewrite Hpath.
Qed.

Lemma init_without_a_readable_file_witness :
  __init__ "MHD" "sf6" (station steady)
    = (station steady, Raise (FileNotFoundError "data/MHD_sf6.csv"))
  ∧ __init__ "MHD" "ch4" damaged
    = (damaged, Raise (ParserError "data/MHD_ch4.csv")).
Proof.
  split.
  - destruct (init_without_a_readable_file (station steady) "MHD" "sf6")
      as (e & -> & He).
    + intros t. vm_compute. discriminate.
    + f_equal. f_equal. revert He. vm_compute. intros ->. reflexivity.
  - destruct (init_without_a_readable_file damaged "MHD" "ch4") as (e & -> & He).
    + intros t. vm_compute. discriminate.
    + f_equal. f_equal. revert He. vm_compute. intros ->. reflexivity.
Defined.

(** X3.  The text of a new instance names its species and site as given to
    the constructor, with the scale and the units that the table of species
    has for the species; asking for it changes nothing. *)
Theorem str_of_a_new_instance w site_ species_ t scale_of units_of :
  files w !! ("data/" +:+ site_ +:+ "_" +:+ species_ +:+ ".csv") = Some (Csv t) →
  species_ ∈ listed (species_info w) →
  cells (species_info w) !! "scale"%string = Some scale_of →
  cells (species_info w) !! "units"%string = Some units_of →
  ∃ l w',
    __init__ site_ species_ w = (w', Ok l) ∧
    __str__ l w' =
      (w', Ok ("Species: " +:+ species_ +:+ "   Site code: " +:+ site_
               +:+ "    Scale: " +:+ scale_of species_
               +:+ "    Units: " +:+ units_of species_)).
Proof.
  intros Hfile Hlisted Hscale Hunits.
  destruct (init_returns_a_new_instance w site_ species_ t scale_of units_of)
    as (l & fl & Hl & _ & _ & Hobject & _); try done.
  destruct (__init__ site_ species_ w) as [w' r] eqn:Hinit.
  simpl in Hl, Hobject. subst r. exists l, w'. split; [done|].
  unfold __str__. by erewrite bind_Ok by (by apply get_object_Ok).
Qed.

Lemma str_of_a_new_instance_witness :
  ∃ l w',
    __init__ "MHD" "co2" (archive steady) = (w', Ok l) ∧
    __str__ l w' =
      (w', Ok "Species: co2   Site code: MHD    Scale: WMO-X2019    Units: ppm").
Proof.
  refine (str_of_a_new_instance (archive steady) "MHD" "co2" steady
           (fun sp => if decide (sp = "ch4"%string) then "WMO-X2004A"
                      else if decide (sp = "co2"%string) then "WMO-X2019"
                      else "WMO-X2006A")%string
           (fun sp => if decide (sp = "co2"%string) then "ppm" else "ppb")%string
           _ _ _ _).
  - vm_compute. reflexivity.
  - evaluate.
  - vm_compute. reflexivity.
  - vm_compute. reflexivity.
Defined.

(** ** The aggregations, again and in turn *)

(** X4.  On a table without a [time] column, both aggregations raise
    [KeyError] for [time] and leave the state as it was: no period column
    is added. *)
Theorem aggregation_without_time_column w self o t :
  objects w !! self = Some o →
  frames w !! df o = Some t →
  lookup_column "time" (columns t) = None →
  weekly_ave self w = (w, Raise (KeyError "time"))
  ∧ baseline self w = (w, Raise (KeyError "time")).
Proof.
  intros Hself Hdf Htime.
  assert (getitem "time" t = Raise (KeyError "time")) as Hget
    by (by unfold getitem; rewrite Htime).
  split.
  - unfold weekly_ave.
    erewrite bind_Ok by (by apply get_object_Ok).
    erewrite bind_Ok by (by apply get_frame_Ok).
    by erewrite bind_Raise by (by apply lift_Raise).
  - unfold baseline.
    erewrite bind_Ok by (by apply get_object_Ok).
    erewrite bind_Ok by (by apply get_frame_Ok).
    by erewrite bind_Raise by (by apply lift_Raise).
Qed.

Lemma aggregation_without_time_column_witness :
  weekly_ave 0 (loaded without_time) = (loaded without_time, Raise (KeyError "time"))
  ∧ baseline 0 (loaded without_time) = (loaded without_time, Raise (KeyError "time")).
Proof.
  apply (aggregation_without_time_column (loaded without_time) 0%nat
           (mkData "MHD" "ch4" "data/MHD_ch4.csv" 0 "WMO-X2004A" "ppb" None None)
           without_time).
  - vm_compute. reflexivity.
  - vm_compute. reflexivity.
  - vm_compute. reflexivity.
Defined.

Lemma lookup_set_column_ne name name' c cols :
  name ≠ name' →
  lookup_column name' (set_column name c cols) = lookup_column name' cols.
Proof.
  intros Hne. induction cols as [|[n c'] cols IH]; simpl.
  - by rewrite decide_False.
  - case_decide as Hn; simpl.
    + subst n. by rewrite !decide_False.
    + case_decide; [done|apply IH].
Qed.

(** Storing a column twice is storing it once. *)
Lemma set_column_twice name c cols :
  set_column name c (set_column name c cols) = set_column name c cols.
Proof.
  induction cols as [|[n c'] cols IH]; simpl.
  - by rewrite decide_True.
  - case_decide as Hn; simpl.
    + by rewrite decide_True.
    + rewrite decide_False by done. by rewrite IH.
Qed.

(** A new name goes to the end, and the numeric columns stay the same when
    the column stored is not numeric. *)
Lemma set_column_new name c cols :
  lookup_column name cols = None → set_column name c cols = cols ++ [(name, c)].
Proof.
  induction cols as [|[n c'] cols IH]; simpl; [done|].
  case_decide; [done|]. intros Hrest. by rewrite IH.
Qed.

Lemma numeric_columns_new_period name f ps cols :
  lookup_column name cols = None →
  numeric_columns (set_column name (Period f ps) cols) = numeric_columns cols.
Proof.
  intros Hnew. rewrite set_column_new by done. unfold numeric_columns.
  rewrite omap_app. csimpl. by rewrite app_nil_r.
Qed.

(** X5.  [weekly_ave] can be called again: the second call returns a new
    table equal to the one the first call returned, leaves that first table
    and the stored table of the instance as the first call left them. *)
Theorem weekly_ave_twice w self o t time stamps :
  objects w !! self = Some o →
  frames w !! df o = Some t →
  lookup_column "time" (columns t) = Some time →
  DatetimeIndex time = Ok stamps →
  ∃ l1 l2 res stored,
    (weekly_ave self w).2 = Ok l1 ∧
    (weekly_ave self (weekly_ave self w).1).2 = Ok l2 ∧
    l1 ≠ l2 ∧
    frames (weekly_ave self w).1 !! l1 = Some res ∧
    frames (weekly_ave self w).1 !! df o = Some stored ∧
    frames (weekly_ave self (weekly_ave self w).1).1 !! l2 = Some res ∧
    frames (weekly_ave self (weekly_ave self w).1).1 !! l1 = Some res ∧
    frames (weekly_ave self (weekly_ave self w).1).1 !! df o = Some stored.
Proof.
  intros Hself Hdf Htime Hstamps.
  assert (getitem "time" t = Ok time) as Hget by (by unfold getitem; rewrite Htime).
  set (weeks := fmap (M := option) (to_period W) <$> stamps).
  set (t' := setitem "week" (Period W weeks) t).
  set (res := rename "mf" "Weekly average mole fraction"
                (groupby_mean "week" W weeks t')).
  set (fs := <[df o := t']> (frames w)).
  set (l1 := fresh (dom fs)).
  assert (weekly_ave self w = (with_frames (<[l1 := res]> fs) w, Ok l1)) as Hfirst
    by (by rewrite (weekly_ave_run w self o t time stamps)).
  assert (df o ≠ l1) as Hl1.
  { apply not_eq_sym, (fresh_ne _ _ t'). apply lookup_insert_eq. }
  assert (setitem "week" (Period W weeks) t' = t') as Hsame.
  { unfold t', setitem. simpl. by rewrite set_column_twice. }
  assert (getitem "time" t' = Ok time) as Hget'.
  { unfold getitem, t'. simpl. by rewrite lookup_set_column_ne, Htime. }
  rewrite Hfirst. cbn [fst snd].
  rewrite (weekly_ave_run (with_frames (<[l1 := res]> fs) w) self o t' time stamps);
    [|done|by cbn; rewrite lookup_insert_ne by done; apply lookup_insert_eq|done..].
  cbn [fst snd frames with_frames]. fold weeks. rewrite Hsame. fold res.
  set (fs' := <[df o := t']> (<[l1 := res]> fs)).
  assert (fs' !! l1 = Some res) as Hkept.
  { unfold fs'. rewrite lookup_insert_ne by done. apply lookup_insert_eq. }
  assert (fresh (dom fs') ≠ l1) as Hl2 by (by eapply fresh_ne).
  assert (fresh (dom fs') ≠ df o) as Hl2'.
  { apply (fresh_ne _ _ t'). apply lookup_insert_eq. }
  exists l1, (fresh (dom fs')), res, t'.
  split; [done|]. split; [done|]. split; [done|].
  split; [apply lookup_insert_eq|].
  split; [by rewrite lookup_insert_ne by done; apply lookup_insert_eq|].
  split; [apply lookup_insert_eq|].
  split; [by rewrite lookup_insert_ne|].
  rewrite lookup_insert_ne by done. apply lookup_insert_eq.
Qed.

Lemma weekly_ave_twice_witness :
  ∃ l1 l2 res stored,
    (weekly_ave 0 (loaded steady)).2 = Ok l1 ∧
    (weekly_ave 0 (weekly_ave 0 (loaded steady)).1).2 = Ok l2 ∧
    l1 ≠ l2 ∧
    frames (weekly_ave 0 (loaded steady)).1 !! l1 = Some res ∧
    frames (weekly_ave 0 (loaded steady)).1 !! 0%nat = Some stored ∧
    frames (weekly_ave 0 (weekly_ave 0 (loaded steady)).1).1 !! l2 = Some res ∧
    frames (weekly_ave 0 (weekly_ave 0 (loaded steady)).1).1 !! l1 = Some res ∧
    frames (weekly_ave 0 (weekly_ave 0 (loaded steady)).1).1 !! 0%nat = Some stored.
Proof.
  refine (weekly_ave_twice (loaded steady) 0%nat
            (mkData "MHD" "ch4" "data/MHD_ch4.csv" 0 "WMO-X2004A" "ppb" None None)
            steady (Object (Some <$> hourly 18628 14)) (Some <$> hourly 18628 14)
            _ _ _ _).
  - vm_compute. reflexivity.
  - vm_compute. reflexivity.
  - vm_compute. reflexivity.
  - reflexivity.
Defined.

(** Where the aggregations leave the stored table of the instance. *)
Lemma aggregation_stored column f self w w' o t :
  sets_column column f self w w' →
  objects w !! self = Some o →
  frames w !! df o = Some t →
  objects w' !! self = Some o ∧
  ∃ t', frames w' !! df o = Some t' ∧
        (t' = t ∨ ∃ ps, t' = setitem column (Period f ps) t).
Proof.
  intros (_ & _ & _ & Hobjects & Hframes) Hself Hdf.
  split; [by rewrite Hobjects|].
  specialize (Hframes (df o) t Hdf). rewrite Hself in Hframes. simpl in Hframes.
  rewrite decide_True in Hframes by done.
  eexists. split; [done|]. unfold with_period_column.
  destruct (getitem "time" t) as [time| |]; auto.
  destruct (DatetimeIndex time); eauto.
Qed.

(** X6.  The two aggregations do not disturb each other.  On a raw table
    without a [week] column and with [mf] as its one numeric column,
    [baseline] called after [weekly_ave] returns a table equal to the one
    it returns when called first. *)
Theorem baseline_after_weekly_ave w self o t time stamps vs :
  objects w !! self = Some o →
  frames w !! df o = Some t →
  lookup_column "time" (columns t) = Some time →
  DatetimeIndex time = Ok stamps →
  lookup_column "week" (columns t) = None →
  filter (fun nv => nv.1 ≠ "day"%string) (numeric_columns (columns t))
    = [("mf"%string, vs)] →
  ∃ l l' res,
    (baseline self w).2 = Ok l ∧
    frames (baseline self w).1 !! l = Some res ∧
    (baseline self (weekly_ave self w).1).2 = Ok l' ∧
    frames (baseline self (weekly_ave self w).1).1 !! l' = Some res.
Proof.
  intros Hself Hdf Htime Hstamps Hweek Hmf.
  assert (getitem "time" t = Ok time) as Hget by (by unfold getitem; rewrite Htime).
  destruct (aggregation_stored "week" W self w (weekly_ave self w).1 o t)
    as (Hself' & t' & Hdf' & Ht'); [apply weekly_ave_sets_column|done..|].
  assert (getitem "time" t' = Ok time ∧
          filter (fun nv => nv.1 ≠ "day"%string) (numeric_columns (columns t'))
            = [("mf"%string, vs)]) as [Hget' Hmf'].
  { destruct Ht' as [->|[ps ->]]; [done|]. split.
    - unfold getitem, setitem. simpl. by rewrite lookup_set_column_ne, Htime.
    - unfold setitem. simpl. by rewrite numeric_columns_new_period. }
  rewrite (baseline_run w self o t time stamps vs) by done.
  rewrite (baseline_run (weekly_ave self w).1 self o t' time stamps vs) by done.
  eexists _, _, _. cbn [fst snd frames with_frames].
  split; [done|]. split; [apply lookup_insert_eq|].
  split; [done|]. apply lookup_insert_eq.
Qed.

Lemma baseline_after_weekly_ave_witness :
  ∃ l l' res,
    (baseline 0 (loaded rising)).2 = Ok l ∧
    frames (baseline 0 (loaded rising)).1 !! l = Some res ∧
    (baseline 0 (weekly_ave 0 (loaded rising)).1).2 = Ok l' ∧
    frames (baseline 0 (weekly_ave 0 (loaded rising)).1).1 !! l' = Some res.
Proof.
  refine (baseline_after_weekly_ave (loaded rising) 0%nat
            (mkData "MHD" "ch4" "data/MHD_ch4.csv" 0 "WMO-X2004A" "ppb" None None)
            rising (Object (Some <$> daily 18628 15)) (Some <$> daily 18628 15)
            (Some ∘ Qc_of_Z <$> seqZ 1 15) _ _ _ _ _ _).
  - vm_compute. reflexivity.
  - vm_compute. reflexivity.
  - vm_compute. reflexivity.
  - reflexivity.
  - vm_compute. reflexivity.
  - vm_compute. reflexivity.
Defined.

(** The names of the columns survive [rename], but for the one renamed. *)
Lemma lookup_column_rename old new name t :
  name ≠ old → name ≠ new →
  lookup_column name (columns (rename old new t)) = lookup_column name (columns t).
Proof.
  intros Hold Hnew. unfold rename. simpl.
  induction (columns t) as [|[n c] cols IH]; [done|]. csimpl.
  destruct (decide (n = old)) as [->|Hn].
  - by rewrite !decide_False by done.
  - case_decide; [done|]. apply IH.
Qed.

Lemma lookup_set_column_eq name c cols :
  lookup_column name (set_column name c cols) = Some c.
Proof.
  induction cols as [|[n c'] cols IH]; simpl.
  - by rewrite decide_True.
  - case_decide as Hn; simpl; [by rewrite decide_True|by rewrite decide_False].
Qed.

(** When [GroupBy.mean] turns to the columns that are not numeric, a
    column of periods other than the key is among its means. *)
Lemma groupby_mean_period by_ f keys t name g ps :
  filter (fun nv => nv.1 ≠ by_) (numeric_columns (columns t)) = [] →
  index_length (index t) ≠ 0%nat →
  lookup_column name (columns t) = Some (Period g ps) → name ≠ by_ →
  ∃ ps', lookup_column name (columns (groupby_mean by_ f keys t))
         = Some (Period g ps').
Proof.
  intros Hnumeric Hrows Hname Hby. unfold groupby_mean. simpl.
  rewrite decide_True.
  2:{ split; [done|]. split; [|done]. intros Hnil.
      apply lookup_column_elem_of in Hname.
      assert ((name, Period g ps) ∈ filter (fun nc => nc.1 ≠ by_) (columns t)) as Hin
        by (by apply list_elem_of_filter).
      rewrite Hnil in Hin. by apply elem_of_nil in Hin. }
  clear Hnumeric Hrows. revert Hname.
  induction (columns t) as [|[n c] cols IH]; [done|]. simpl.
  case_decide as Hn.
  - intros [= ->]. subst n. rewrite filter_cons_True by done. csimpl.
    rewrite decide_True by done. by eexists.
  - intros Hname. rewrite filter_cons. case_decide; [|by apply IH]. csimpl.
    destruct (mean_any _ keys c); csimpl; [|by apply IH].
    rewrite decide_False by done. by apply IH.
Qed.

(** X7.  [weekly_ave] called after [baseline], whether that call returned
    or raised, returns a table equal to the one it returns when called
    first, on a raw table without a [day] column that has a numeric column
    besides [week].  On a table with rows and without any such numeric
    column it does not: the means are then taken of the columns that are
    not numeric, and the [day] column that [baseline] stored is among them,
    so the second table has a column [day] that the first lacks. *)
Theorem weekly_ave_after_baseline w self o t time stamps :
  objects w !! self = Some o →
  frames w !! df o = Some t →
  lookup_column "time" (columns t) = Some time →
  DatetimeIndex time = Ok stamps →
  lookup_column "day" (columns t) = None →
  ∃ l l' res res',
    (weekly_ave self w).2 = Ok l ∧
    frames (weekly_ave self w).1 !! l = Some res ∧
    (weekly_ave self (baseline self w).1).2 = Ok l' ∧
    frames (weekly_ave self (baseline self w).1).1 !! l' = Some res' ∧
    (filter (fun nv => nv.1 ≠ "week"%string) (numeric_columns (columns t)) ≠ [] →
     res' = res) ∧
    (filter (fun nv => nv.1 ≠ "week"%string) (numeric_columns (columns t)) = [] →
     index_length (index t) ≠ 0%nat →
     lookup_column "day" (columns res) = None ∧
     ∃ days, lookup_column "day" (columns res') = Some (Period D days)).
Proof.
  intros Hself Hdf Htime Hstamps Hday.
  assert (getitem "time" t = Ok time) as Hget by (by unfold getitem; rewrite Htime).
  set (days := fmap (M := option) (to_period D) <$> stamps).
  set (t' := setitem "day" (Period D days) t).
  assert (objects (baseline self w).1 !! self = Some o ∧
          frames (baseline self w).1 !! df o = Some t') as [Hself' Hdf'].
  { destruct (baseline_sets_column self w) as (_ & _ & _ & Hobjects & Hframes).
    split; [by rewrite Hobjects|].
    rewrite (Hframes (df o) t Hdf), Hself. simpl. rewrite decide_True by done.
    unfold with_period_column. by rewrite Hget, Hstamps. }
  assert (getitem "time" t' = Ok time) as Hget'.
  { unfold getitem, t', setitem. simpl. by rewrite lookup_set_column_ne, Htime. }
  set (weeks := fmap (M := option) (to_period W) <$> stamps).
  rewrite (weekly_ave_run w self o t time stamps) by done.
  rewrite (weekly_ave_run (baseline self w).1 self o t' time stamps) by done.
  fold weeks. eexists _, _, _, _. cbn [fst snd frames with_frames].
  split; [done|]. split; [apply lookup_insert_eq|].
  split; [done|]. split; [apply lookup_insert_eq|].
  assert (filter (fun nv => nv.1 ≠ "week"%string)
            (numeric_columns (columns (setitem "week" (Period W weeks) t')))
          = filter (fun nv => nv.1 ≠ "week"%string) (numeric_columns (columns t)))
    as Hnumeric.
  { unfold t', setitem. simpl.
    by rewrite numeric_columns_set_period, numeric_columns_new_period. }
  split.
  - intros Hsome. f_equal. rewrite !groupby_mean_numeric.
    + by rewrite Hnumeric; simpl; rewrite numeric_columns_set_period.
    + by simpl; rewrite numeric_columns_set_period.
    + by rewrite Hnumeric.
  - intros Hnone Hrows. split.
    + rewrite lookup_column_rename by done. apply groupby_mean_names.
      simpl. by rewrite lookup_set_column_ne.
    + destruct (groupby_mean_period "week" W weeks
                  (setitem "week" (Period W weeks) t') "day" D days)
        as [days' Hdays']; try done.
      * by rewrite Hnumeric.
      * unfold t', setitem. simpl. rewrite lookup_set_column_ne by done.
        apply lookup_set_column_eq.
      * exists days'. by rewrite lookup_column_rename.
Qed.

Lemma weekly_ave_after_baseline_witness :
  (weekly_ave 0 (baseline 0 (loaded with_temperature)).1).2 = Ok 2%nat
  ∧ frames (weekly_ave 0 (baseline 0 (loaded with_temperature)).1).1 !! 2%nat
    = frames (weekly_ave 0 (loaded with_temperature)).1 !! 1%nat
  ∧ frames (weekly_ave 0 (loaded timestamps_only)).1 !! 1%nat
    = Some (mkDataFrame (PeriodIndex W [2661; 2662; 2663]) [])
  ∧ frames (weekly_ave 0 (baseline 0 (loaded timestamps_only)).1).1 !! 2%nat
    = Some (mkDataFrame (PeriodIndex W [2661; 2662; 2663])
              [("day"%string, Period D [Some 18629; Some 18634; Some 18640])]).
Proof.
  pose (ch4 := mkData "MHD" "ch4" "data/MHD_ch4.csv" 0 "WMO-X2004A" "ppb" None None).
  destruct (weekly_ave_after_baseline (loaded with_temperature) 0%nat ch4
              with_temperature (Object (Some <$> daily 18628 15))
              (Some <$> daily 18628 15))
    as (l & l' & res & res' & Hl & Hres & Hl' & Hres' & Hsame & _);
    [vm_compute; reflexivity..|].
  destruct (weekly_ave_after_baseline (loaded timestamps_only) 0%nat ch4
              timestamps_only (Object (Some <$> daily 18628 15))
              (Some <$> daily 18628 15))
    as (k & k' & table & table' & Hk & Htable & Hk' & Htable' & _ & Hday);
    [vm_compute; reflexivity..|].
  assert ((weekly_ave 0 (loaded with_temperature)).2 = Ok 1%nat) as H1 by evaluate.
  assert ((weekly_ave 0 (baseline 0 (loaded with_temperature)).1).2 = Ok 2%nat)
    as H2 by evaluate.
  rewrite H1 in Hl. injection Hl as <-.
  rewrite H2 in Hl'. injection Hl' as <-.
  split; [exact H2|]. split.
  { rewrite Hres, Hres', Hsame; [reflexivity|]. vm_compute. discriminate. }
  destruct Hday as [Hnone [days Hdays]]; [vm_compute; reflexivity|vm_compute; lia|].
  split; evaluate.
Defined.

(** X8.  With missing values, a row of the weekly average holds the mean of
    the values of its calendar week that are present, their sum divided by
    their number, and a week none of whose values is present keeps its
    row, with NaN: unlike [baseline], [weekly_ave] drops no row. *)
Theorem weekly_ave_skips_missing_values w self o t ts vs :
  objects w !! self = Some o →
  frames w !! df o = Some t →
  lookup_column "time" (columns t) = Some (Object (Some <$> ts)) →
  lookup_column "mf" (columns t) = Some (Float64 vs) →
  length ts = length vs →
  ∃ l res weeks means,
    (weekly_ave self w).2 = Ok l ∧
    frames (weekly_ave self w).1 !! l = Some res ∧
    index res = PeriodIndex W weeks ∧
    (∀ k, k ∈ weeks ↔ ∃ s, s ∈ ts ∧ in_week k s) ∧
    ("Weekly average mole fraction"%string, Float64 means) ∈ columns res ∧
    length means = length weeks ∧
    ∀ i k, weeks !! i = Some k →
      let present :=
        omap id (filter (fun sx => in_week k sx.1) (zip ts vs)).*2 in
      means !! i =
        Some (if decide (present = []) then None
              else Some (foldr Qcplus (Q2Qc 0) present
                         / Qc_of_Z (Z.of_nat (length present)))%Qc).
Proof.
  intros Hself Hdf Htime Hmf Hlen.
  destruct (weekly_ave_rows w self o t ts vs)
    as (l & res & weeks & means & Hl & Hres & Hindex & _ & _
        & Hweeks & Hcolumn & Hlength & Hmeans); try done.
  exists l, res, weeks, means. repeat (split; [done|]).
  split; [|split; [done|split; [done|]]].
  - intros k. rewrite Hweeks, list_elem_of_fmap. split.
    + intros (s & -> & Hs). exists s. split; [done|]. by apply to_period_week.
    + intros (s & Hs & Hin). exists s. split; [|done].
      symmetry. by apply to_period_week.
  - intros i k Hk present. destruct (Hmeans i k Hk) as [_ ->].
    rewrite filter_in_week. f_equal. unfold mean, observations. fold present.
    by destruct present.
Qed.

Lemma weekly_ave_skips_missing_values_witness :
  (weekly_ave 0 (loaded lost_week)).2 = Ok 1%nat
  ∧ frames (weekly_ave 0 (loaded lost_week)).1 !! 1%nat =
      Some (mkDataFrame (PeriodIndex W [2661; 2662; 2663])
              [("Weekly average mole fraction"%string,
                Float64 [Some (Qc_of_Z 2); None; Some (Qc_of_Z 13)])])
  ∧ (∀ k, k ∈ [2661; 2662; 2663] ↔ ∃ s, s ∈ daily 18628 15 ∧ in_week k s)
  ∧ ∀ i k, [2661; 2662; 2663] !! i = Some k →
      let present :=
        omap id (filter (fun sx => in_week k sx.1)
                   (zip (daily 18628 15)
                      ((Some ∘ Qc_of_Z <$> seqZ 1 3) ++ replicate 7 None
                       ++ (Some ∘ Qc_of_Z <$> seqZ 11 5)))).*2 in
      [Some (Qc_of_Z 2); None; Some (Qc_of_Z 13)] !! i =
        Some (if decide (present = []) then None
              else Some (foldr Qcplus (Q2Qc 0) present
                         / Qc_of_Z (Z.of_nat (length present)))%Qc).
Proof.
  destruct (weekly_ave_skips_missing_values (loaded lost_week) 0%nat
              (mkData "MHD" "ch4" "data/MHD_ch4.csv" 0 "WMO-X2004A" "ppb" None None)
              lost_week (daily 18628 15)
              ((Some ∘ Qc_of_Z <$> seqZ 1 3) ++ replicate 7 None
               ++ (Some ∘ Qc_of_Z <$> seqZ 11 5)))
    as (l & res & weeks & means & Hl & Hres & Hindex & Hweeks & Hcolumn
        & _ & Hmeans).
  - vm_compute. reflexivity.
  - vm_compute. reflexivity.
  - vm_compute. reflexivity.
  - evaluate.
  - vm_compute. reflexivity.
  - assert ((weekly_ave 0 (loaded lost_week)).2 = Ok 1%nat) as Hone by evaluate.
    assert (frames (weekly_ave 0 (loaded lost_week)).1 !! 1%nat =
              Some (mkDataFrame (PeriodIndex W [2661; 2662; 2663])
                      [("Weekly average mole fraction"%string,
                        Float64 [Some (Qc_of_Z 2); None; Some (Qc_of_Z 13)])]))
      as Htable by evaluate.
    split; [exact Hone|]. split; [exact Htable|].
    rewrite Hone in Hl. injection Hl as <-.
    rewrite Htable in Hres. injection Hres as <-.
    injection Hindex as <-.
    apply list_elem_of_singleton in Hcolumn. injection Hcolumn as <-.
    split; [exact Hweeks|exact Hmeans].
Defined.

(** X9.  The summary does not depend on whether the table was aggregated
    before: on a raw table with a numeric column and without columns named
    [week] or [day], [glimpse] gives after [weekly_ave] or [baseline] what
    it gives before. *)
Theorem glimpse_after_aggregation w self o t :
  objects w !! self = Some o →
  frames w !! df o = Some t →
  lookup_column "week" (columns t) = None →
  lookup_column "day" (columns t) = None →
  numeric_columns (columns t) ≠ [] →
  (glimpse self (weekly_ave self w).1).2 = (glimpse self w).2
  ∧ (glimpse self (baseline self w).1).2 = (glimpse self w).2.
Proof.
  intros Hself Hdf Hweek Hday Hnumeric.
  assert (∀ column f w',
            lookup_column column (columns t) = None →
            sets_column column f self w w' →
            (glimpse self w').2 = (glimpse self w).2) as Hsame.
  { intros column f w' Hnew Hset.
    destruct (aggregation_stored column f self w w' o t Hset Hself Hdf)
      as (Hself' & t' & Hdf' & Ht').
    unfold glimpse.
    erewrite !bind_Ok by first [by apply get_object_Ok | by apply get_frame_Ok].
    cbn [snd lift]. destruct Ht' as [->|[ps ->]]; [done|].
    assert (describe (setitem column (Period f ps) t) = describe t) as ->; [|done].
    pose proof (numeric_columns_new_period column f ps (columns t) Hnew) as Hnum.
    unfold describe, setitem. cbn [columns].
    destruct (set_column column (Period f ps) (columns t)) as [|c cs] eqn:Hcs.
    { rewrite set_column_new in Hcs by done. by destruct (columns t). }
    rewrite Hnum.
    destruct (columns t) as [|c' cs']; [done|].
    by destruct (numeric_columns (c' :: cs')). }
  split.
  - by apply (Hsame "week"%string W), weekly_ave_sets_column.
  - by apply (Hsame "day"%string D), baseline_sets_column.
Qed.

Lemma glimpse_after_aggregation_witness :
  (glimpse 0 (weekly_ave 0 (loaded rising_gap)).1).2 = (glimpse 0 (loaded rising_gap)).2
  ∧ (glimpse 0 (baseline 0 (loaded rising_gap)).1).2 = (glimpse 0 (loaded rising_gap)).2.
Proof.
  refine (glimpse_after_aggregation (loaded rising_gap) 0%nat
            (mkData "MHD" "ch4" "data/MHD_ch4.csv" 0 "WMO-X2004A" "ppb" None None)
            rising_gap _ _ _ _ _).
  - vm_compute. reflexivity.
  - vm_compute. reflexivity.
  - vm_compute. reflexivity.
  - vm_compute. reflexivity.
  - vm_compute. discriminate.
Defined.

(** ** The baseline, further *)

Lemma select_length {A} (mask : list bool) (xs : list A) :
  (length (select mask xs) ≤ length xs)%nat.
Proof.
  revert xs. induction mask as [|b mask IH]; intros [|x xs]; simpl; try lia.
  destruct b; simpl; specialize (IH xs); lia.
Qed.

Lemma select_nil_r {A} (mask : list bool) : select mask (@nil A) = [].
Proof. by destruct mask. Qed.

(** Rows that the mask refuses at the start can be left out beforehand. *)
Lemma select_after {A} (k : nat) (mask : list bool) (xs : list A) :
  (∀ i, (i < k)%nat → mask !! i ≠ Some true) →
  select mask xs = select (drop k mask) (drop k xs).
Proof.
  revert mask xs. induction k as [|k IH]; intros mask xs Hmask; [done|].
  destruct mask as [|b mask]; [by destruct (drop (S k) xs)|].
  destruct xs as [|x xs]; [simpl; by destruct b, (drop k mask)|].
  assert (b = false) as ->.
  { destruct b; [|done]. by destruct (Hmask 0%nat ltac:(lia)). }
  simpl. apply IH. intros i Hi. apply (Hmask (S i)). lia.
Qed.

(** The table that [baseline] returns when [mf] is the one numeric column:
    the rows of the table of daily means and rolling percentiles that
    [dropna] keeps. *)
Section baseline_result.
Context (w : World) (self : nat) (o : Data) (t : DataFrame).
Context (ts : list (option Z)) (vs : list (option Qc)).
Hypothesis Hself : objects w !! self = Some o.
Hypothesis Hdf : frames w !! df o = Some t.
Hypothesis Htime : lookup_column "time" (columns t) = Some (Object ts).
Hypothesis Hmf :
  filter (fun nv => nv.1 ≠ "day"%string) (numeric_columns (columns t))
    = [("mf"%string, vs)].

Let days := fmap (M := option) (to_period D) <$> ts.
Let ds := group_keys days.
Let ms := (fun d => mean (group d days vs)) <$> ds.
Let bs := rolling_quantile 14 (frac 1 20) ms.
Let mask :=
  notna_rows (mkDataFrame (PeriodIndex D ds)
                [("mf"%string, Float64 ms); ("Baseline"%string, Float64 bs)]).

Lemma baseline_result :
  ∃ l,
    (baseline self w).2 = Ok l ∧
    frames (baseline self w).1 !! l =
      Some (mkDataFrame (PeriodIndex D (select mask ds))
              [("mf"%string, Float64 (select mask ms));
               ("Baseline"%string, Float64 (select mask bs))]).
Proof.
  rewrite (baseline_run w self o t (Object ts) ts vs); try done;
    [|by unfold getitem; rewrite Htime].
  eexists. split; [done|]. cbn [fst frames with_frames].
  by rewrite lookup_insert_eq.
Qed.

Lemma baseline_lengths : length ms = length ds ∧ length bs = length ds.
Proof.
  unfold bs, ms. by rewrite rolling_quantile_length, !length_fmap.
Qed.

(** The first thirteen rows are refused. *)
Lemma baseline_mask_early i : (i < 13)%nat → mask !! i ≠ Some true.
Proof.
  intros Hi Htrue. destruct baseline_lengths as [Hms Hbs].
  apply (notna_rows_lookup ds ms bs Hms Hbs) in Htrue as (m & b & Hm & Hb).
  assert (i < length ms)%nat as Hlen by (by eapply lookup_lt_Some).
  unfold bs in Hb. rewrite rolling_quantile_early in Hb by (done || lia).
  done.
Qed.

(** A row is refused when a daily mean is missing in its window. *)
Lemma baseline_mask_gap i j :
  ms !! j = Some None → (j ≤ i < j + 14)%nat → mask !! i ≠ Some true.
Proof.
  intros Hj Hij Htrue. destruct baseline_lengths as [Hms Hbs].
  apply (notna_rows_lookup ds ms bs Hms Hbs) in Htrue as (m & b & Hm & Hb).
  assert (i < length ms)%nat as Hlen by (by eapply lookup_lt_Some).
  unfold bs in Hb. rewrite rolling_quantile_gap in Hb; [done..|].
  unfold window. apply list_elem_of_lookup. exists (j - (S i - 14))%nat.
  rewrite lookup_drop, lookup_take_lt by lia.
  by replace (S i - 14 + (j - (S i - 14)))%nat with j by lia.
Qed.
End baseline_result.

(** X10.  [baseline] never returns one of the first 13 days of the
    day-grouped series, so its result has at most as many rows as the
    series has days beyond 13: a series of fewer than 14 days gives a table
    without rows, and no error. *)
Theorem baseline_needs_14_days w self o t ts vs :
  objects w !! self = Some o →
  frames w !! df o = Some t →
  lookup_column "time" (columns t) = Some (Object ts) →
  filter (fun nv => nv.1 ≠ "day"%string) (numeric_columns (columns t))
    = [("mf"%string, vs)] →
  let ds := group_keys (fmap (M := option) (to_period D) <$> ts) in
  ∃ l kept ms' bs',
    (baseline self w).2 = Ok l ∧
    frames (baseline self w).1 !! l =
      Some (mkDataFrame (PeriodIndex D kept)
              [("mf"%string, Float64 ms'); ("Baseline"%string, Float64 bs')]) ∧
    (∀ d, d ∈ kept → d ∈ drop 13 ds) ∧
    (length kept ≤ length ds - 13)%nat ∧
    ((length ds < 14)%nat → kept = [] ∧ ms' = [] ∧ bs' = []).
Proof.
  intros Hself Hdf Htime Hmf ds.
  destruct (baseline_result w self o t ts vs Hself Hdf Htime Hmf) as (l & Hl & Hres).
  pose proof (baseline_mask_early ts vs) as Hearly.
  destruct (baseline_lengths ts vs) as [Hms Hbs].
  eexists l, _, _, _. split; [done|]. split; [exact Hres|].
  fold ds in Hearly, Hms, Hbs |- *.
  rewrite (select_after 13 _ ds), (select_after 13 _ (_ <$> ds)),
    (select_after 13 _ (rolling_quantile _ _ _)) by done.
  split; [|split].
  - intros d (i & _ & Hd)%elem_of_select. by eapply list_elem_of_lookup_2.
  - etrans; [apply select_length|]. by rewrite length_drop.
  - intros Hshort.
    rewrite (drop_ge ds), (drop_ge (_ <$> ds)), (drop_ge (rolling_quantile _ _ _));
      [|rewrite ?rolling_quantile_length, ?length_fmap; lia..].
    by rewrite !select_nil_r.
Qed.

Lemma baseline_needs_14_days_witness :
  ∃ l,
    (baseline 0 (loaded doubling)).2 = Ok l ∧
    frames (baseline 0 (loaded doubling)).1 !! l =
      Some (mkDataFrame (PeriodIndex D [18644])
              [("mf"%string, Float64 [Some (Qc_of_Z 313)]);
               ("Baseline"%string, Float64 [Some (frac 165 8)])])
  ∧ ∃ l',
    (baseline 0 (loaded one_week)).2 = Ok l' ∧
    frames (baseline 0 (loaded one_week)).1 !! l' =
      Some (mkDataFrame (PeriodIndex D [])
              [("mf"%string, Float64 []); ("Baseline"%string, Float64 [])]).
Proof.
  destruct (baseline_needs_14_days (loaded one_week) 0%nat
              (mkData "MHD" "ch4" "data/MHD_ch4.csv" 0 "WMO-X2004A" "ppb" None None)
              one_week (Some <$> hourly 18631 7)
              (Some <$> (Qc_of_Z <$> seqZ 1 168)))
    as (l' & kept & ms' & bs' & Hl' & Hres' & _ & _ & Hshort).
  - vm_compute. reflexivity.
  - vm_compute. reflexivity.
  - vm_compute. reflexivity.
  - vm_compute. reflexivity.
  - destruct Hshort as (-> & -> & ->); [vm_compute; lia|].
    assert ((baseline 0 (loaded doubling)).2 = Ok 2%nat) as Hl by evaluate.
    assert (frames (baseline 0 (loaded doubling)).1 !! 2%nat =
              Some (mkDataFrame (PeriodIndex D [18644])
                      [("mf"%string, Float64 [Some (Qc_of_Z 313)]);
                       ("Baseline"%string, Float64 [Some (frac 165 8)])]))
      as Hres by evaluate.
    exists 2%nat. split; [exact Hl|]. split; [exact Hres|].
    exists l'. split; [exact Hl'|exact Hres'].
Defined.

(** X11.  A day without a daily mean takes its followers with it: it and
    the 13 days that come after it in the day-grouped series are absent
    from the result of [baseline], since the window of each of them holds
    the missing mean. *)
Theorem baseline_gap_hides_the_next_13_days w self o t ts vs :
  objects w !! self = Some o →
  frames w !! df o = Some t →
  lookup_column "time" (columns t) = Some (Object ts) →
  filter (fun nv => nv.1 ≠ "day"%string) (numeric_columns (columns t))
    = [("mf"%string, vs)] →
  let days := fmap (M := option) (to_period D) <$> ts in
  let ds := group_keys days in
  ∃ l kept ms' bs',
    (baseline self w).2 = Ok l ∧
    frames (baseline self w).1 !! l =
      Some (mkDataFrame (PeriodIndex D kept)
              [("mf"%string, Float64 ms'); ("Baseline"%string, Float64 bs')]) ∧
    ∀ i j d gap,
      ds !! j = Some gap → mean (group gap days vs) = None →
      ds !! i = Some d → (j ≤ i < j + 14)%nat →
      d ∉ kept.
Proof.
  intros Hself Hdf Htime Hmf days ds.
  destruct (baseline_result w self o t ts vs Hself Hdf Htime Hmf) as (l & Hl & Hres).
  eexists l, _, _, _. split; [done|]. split; [exact Hres|].
  intros i j d gap Hj Hgap Hi Hij (i' & Hmask & Hi')%elem_of_select.
  assert (i' = i) as ->.
  { eapply NoDup_lookup; [apply NoDup_group_keys|done..]. }
  eapply (baseline_mask_gap ts vs i j); [|done..].
  rewrite list_lookup_fmap. fold days ds. by rewrite Hj; simpl; rewrite Hgap.
Qed.

Lemma baseline_gap_hides_the_next_13_days_witness :
  ∃ l kept ms' bs',
    (baseline 0 (loaded month_with_gap)).2 = Ok l ∧
    frames (baseline 0 (loaded month_with_gap)).1 !! l =
      Some (mkDataFrame (PeriodIndex D kept)
              [("mf"%string, Float64 ms'); ("Baseline"%string, Float64 bs')]) ∧
    (18642 ∉ kept) ∧ (18655 ∉ kept) ∧
    kept = [18641; 18656; 18657].
Proof.
  destruct (baseline_gap_hides_the_next_13_days (loaded month_with_gap) 0%nat
              (mkData "MHD" "ch4" "data/MHD_ch4.csv" 0 "WMO-X2004A" "ppb" None None)
              month_with_gap (Some <$> daily 18628 30)
              ((Some ∘ Qc_of_Z <$> seqZ 1 14) ++ [None]
                 ++ (Some ∘ Qc_of_Z <$> seqZ 16 15)))
    as (l & kept & ms' & bs' & Hl & Hres & Hgap).
  - vm_compute. reflexivity.
  - vm_compute. reflexivity.
  - vm_compute. reflexivity.
  - vm_compute. reflexivity.
  - exists l, kept, ms', bs'. split; [exact Hl|]. split; [exact Hres|].
    split; [|split].
    + apply (Hgap 14%nat 14%nat 18642 18642); [evaluate|evaluate|evaluate|lia].
    + apply (Hgap 27%nat 14%nat 18655 18642); [evaluate|evaluate|evaluate|lia].
    + assert ((baseline 0 (loaded month_with_gap)).2 = Ok 2%nat) as Hl' by evaluate.
      assert (index <$> frames (baseline 0 (loaded month_with_gap)).1 !! 2%nat
              = Some (PeriodIndex D [18641; 18656; 18657])) as Hres' by evaluate.
      rewrite Hl in Hl'. injection Hl' as ->. rewrite Hres in Hres'.
      by injection Hres'.
Defined.

(** The fifth percentile of fourteen observations lies between the smallest
    and the second smallest of them. *)
Lemma quantile_5_of_14_bounds (xs : list Qc) (b : Qc) :
  length xs = 14%nat → quantile (frac 1 20) xs = Some b →
  ∃ lo hi rest,
    merge_sort Qcle xs = lo :: hi :: rest ∧
    (lo ≤ b)%Qc ∧ (b ≤ hi)%Qc ∧ ∀ x, x ∈ xs → (lo ≤ x)%Qc.
Proof.
  intros Hlen Hb.
  destruct (quantile_5_of_14 xs Hlen) as (lo & hi & rest & Hsort & Hq).
  rewrite Hq in Hb. injection Hb as <-.
  pose proof (StronglySorted_merge_sort Qcle xs) as Hsorted.
  rewrite Hsort in Hsorted.
  apply StronglySorted_inv in Hsorted as [_ Hlo].
  assert (lo ≤ hi)%Qc as Hle by (by apply Forall_cons in Hlo as [? _]).
  assert (0 ≤ hi - lo)%Qc as Hdiff by (by apply Qcle_minus_iff in Hle).
  exists lo, hi, rest. split; [done|]. split; [|split].
  - replace lo with (lo + 0 * frac 13 20)%Qc at 1 by ring.
    apply Qcplus_le_mono_l, Qcmult_le_compat_r; done.
  - replace hi with (lo + (hi - lo) * frac 13 20 + (hi - lo) * frac 7 20)%Qc at 2.
    + replace (lo + (hi - lo) * frac 13 20)%Qc
        with (lo + (hi - lo) * frac 13 20 + 0 * frac 7 20)%Qc at 1 by ring.
      apply Qcplus_le_mono_l, Qcmult_le_compat_r; done.
    + assert (frac 13 20 + frac 7 20 = 1)%Qc as Hone by (by apply Qc_is_canon).
      transitivity (lo + (hi - lo) * (frac 13 20 + frac 7 20))%Qc; [ring|].
      rewrite Hone. ring.
  - intros x Hx. rewrite <-(merge_sort_Permutation Qcle xs), Hsort in Hx.
    apply elem_of_cons in Hx as [->|Hx]; [done|].
    rewrite Forall_forall in Hlo. by apply Hlo.
Qed.

(** X12.  The baseline is a low estimate: on every row that [baseline]
    returns for a series whose days all have a mean, the [Baseline] value
    is at least the smallest of the 14 daily means that end at the row, and
    at most the second smallest. *)
Theorem baseline_between_the_two_lowest_means w self o t ts vs xs :
  objects w !! self = Some o →
  frames w !! df o = Some t →
  lookup_column "time" (columns t) = Some (Object ts) →
  filter (fun nv => nv.1 ≠ "day"%string) (numeric_columns (columns t))
    = [("mf"%string, vs)] →
  let days := fmap (M := option) (to_period D) <$> ts in
  (fun d => mean (group d days vs)) <$> group_keys days = Some <$> xs →
  ∃ l kept ms' bs',
    (baseline self w).2 = Ok l ∧
    frames (baseline self w).1 !! l =
      Some (mkDataFrame (PeriodIndex D kept)
              [("mf"%string, Float64 ms'); ("Baseline"%string, Float64 bs')]) ∧
    length bs' = (length xs - 13)%nat ∧
    ∀ i, (i < length xs - 13)%nat →
      ∃ b lo hi rest,
        bs' !! i = Some (Some b) ∧
        merge_sort Qcle (take 14 (drop i xs)) = lo :: hi :: rest ∧
        (lo ≤ b)%Qc ∧ (b ≤ hi)%Qc ∧
        ∀ x, x ∈ take 14 (drop i xs) → (lo ≤ x)%Qc.
Proof.
  intros Hself Hdf Htime Hmf days Hmeans.
  destruct (baseline_result w self o t ts vs Hself Hdf Htime Hmf) as (l & Hl & Hres).
  fold days in Hres. rewrite Hmeans in Hres.
  assert (length (group_keys days) = length xs) as Hlen.
  { apply (f_equal length) in Hmeans. by rewrite !length_fmap in Hmeans. }
  rewrite notna_rows_baseline in Hres by done.
  rewrite <-(length_fmap Some xs), <-(rolling_quantile_length 14 (frac 1 20)) in Hres.
  rewrite (select_from 13 0 (rolling_quantile _ _ _)) in Hres.
  eexists l, _, _, _. split; [done|]. split; [exact Hres|].
  split; [by rewrite length_drop, rolling_quantile_length, length_fmap|].
  intros i Hi. rewrite lookup_drop.
  rewrite rolling_14_lookup, decide_True by lia.
  replace (13 - 0 + i - 13)%nat with i by lia.
  destruct (rolling_14_defined xs (13 + i)) as [b Hb]; [lia..|].
  replace (13 + i - 13)%nat with i in Hb by lia.
  destruct (quantile_5_of_14_bounds (take 14 (drop i xs)) b)
    as (lo & hi & rest & Hsort & Hlo & Hhi & Hmin); [|done|].
  { rewrite length_take, length_drop. lia. }
  exists b, lo, hi, rest. by rewrite Hb.
Qed.

Lemma baseline_between_the_two_lowest_means_witness :
  ∃ l kept ms' bs',
    (baseline 0 (loaded rising)).2 = Ok l ∧
    frames (baseline 0 (loaded rising)).1 !! l =
      Some (mkDataFrame (PeriodIndex D kept)
              [("mf"%string, Float64 ms'); ("Baseline"%string, Float64 bs')]) ∧
    length bs' = 2%nat ∧
    ∃ b, bs' !! 0%nat = Some (Some b) ∧ (Qc_of_Z 1 ≤ b)%Qc ∧ (b ≤ Qc_of_Z 2)%Qc.
Proof.
  destruct (baseline_between_the_two_lowest_means (loaded rising) 0%nat
              (mkData "MHD" "ch4" "data/MHD_ch4.csv" 0 "WMO-X2004A" "ppb" None None)
              rising (Some <$> daily 18628 15) (Some ∘ Qc_of_Z <$> seqZ 1 15)
              (Qc_of_Z <$> seqZ 1 15))
    as (l & kept & ms' & bs' & Hl & Hres & Hlen & Hbounds).
  - vm_compute. reflexivity.
  - vm_compute. reflexivity.
  - vm_compute. reflexivity.
  - vm_compute. reflexivity.
  - evaluate.
  - exists l, kept, ms', bs'. split; [exact Hl|]. split; [exact Hres|].
    split; [exact Hlen|].
    destruct (Hbounds 0%nat) as (b & lo & hi & rest & Hb & Hsort & Hlo & Hhi & _).
    { vm_compute. lia. }
    exists b. split; [exact Hb|].
    assert (merge_sort Qcle (take 14 (drop 0 (Qc_of_Z <$> seqZ 1 15)))
            = Qc_of_Z <$> seqZ 1 14) as Hsorted by evaluate.
    rewrite Hsorted in Hsort. injection Hsort as <- <- _. by split.
Defined.

(** ** The plots *)

(** The ticks of [plot]: [np.arange(0, n, n / 3.5)] is four ticks, at 0,
    2/7, 4/7 and 6/7 of [n]. *)
Lemma arange_ticks (n : nat) :
  (0 < n)%nat →
  arange (Q2Qc 0) (Qc_of_nat n) (Qc_of_nat n / frac 7 2)%Qc
  = [Q2Qc 0; (Qc_of_nat n * frac 2 7)%Qc; (Qc_of_nat n * frac 4 7)%Qc;
     (Qc_of_nat n * frac 6 7)%Qc].
Proof.
  intros Hn. pose proof (Qc_of_nat_nonzero n Hn) as Hnz.
  assert (frac 7 2 ≠ Q2Qc 0) as H72.
  { intros E. by apply (f_equal (fun q => Qnum (this q))) in E. }
  unfold arange.
  assert ((Qc_of_nat n - Q2Qc 0) / (Qc_of_nat n / frac 7 2) = frac 7 2)%Qc as ->
    by (by field).
  assert (Z.to_nat (Qceiling (frac 7 2)) = 4%nat) as -> by done.
  assert (frac 2 7 = 1 / frac 7 2)%Qc as H2 by (by apply Qc_is_canon).
  assert (frac 4 7 = Qc_of_nat 2 / frac 7 2)%Qc as H4 by (by apply Qc_is_canon).
  assert (frac 6 7 = Qc_of_nat 3 / frac 7 2)%Qc as H6 by (by apply Qc_is_canon).
  assert (Qc_of_nat 1 = 1)%Qc as H1 by (by apply Qc_is_canon).
  cbn [seq fmap list_fmap]. rewrite H2, H4, H6, Qc_of_nat_0, H1.
  repeat f_equal; by field.
Qed.

(** [plot] up to the moment it has the table it was given and has stored
    it. *)
Section plot_run.
Context (w : World) (self data_ : nat) (o : Data) (d : DataFrame) (name : string).
Hypothesis Hself : objects w !! self = Some o.
Hypothesis Hdata : frames w !! data_ = Some d.
Hypothesis Hname : column_name_from_end 0 d = Ok name.

Let stored := with_objects (<[self := set_data data_ o]> (objects w)) w.

Lemma plot_stored :
  objects stored !! self = Some (set_data data_ o) ∧ get_data self stored = (stored, Ok d).
Proof.
  assert (objects stored !! self = Some (set_data data_ o)) as Hstored
    by apply lookup_insert_eq.
  split; [done|]. unfold get_data.
  erewrite bind_Ok by (by apply get_object_Ok).
  by apply get_frame_Ok.
Qed.

(** [plot] stops after it has opened the figure when matplotlib refuses
    the last column. *)
Lemma plot_refused e :
  as_floats (getitem_all name d) = Raise e →
  plot self data_ w = (with_canvas (canvas w ++ [Subplots 12 6]) stored, Raise e).
Proof.
  intros Hy. destruct plot_stored as [Hstored Hget]. unfold plot.
  erewrite bind_Ok by (by apply get_object_Ok).
  erewrite bind_Ok by reflexivity.
  erewrite bind_Ok by exact Hget.
  erewrite bind_Ok by (by apply lift_Ok).
  erewrite bind_Ok by reflexivity.
  erewrite bind_Ok by (by apply get_object_Ok).
  by erewrite bind_Raise by (by apply ax_plot_Raise).
Qed.

(** What [plot] has drawn when it comes to the label of the x axis; [lines]
    is the one line, or the two when the name of the last column holds
    [Baseline]. *)
Lemma plot_lines (lines : list Draw) :
  as_floats (getitem_all name d) = Ok () →
  (if contains "Baseline" name
   then ∃ prev, column_name_from_end 1 d = Ok prev ∧
                as_floats (getitem_all prev d) = Ok () ∧
                lines = [Plot (Labels (astype_str (index d))) (getitem_all name d)
                           (species o +:+ ", " +:+ site o) "black" (Some 2);
                         Plot (Labels (astype_str (index d))) (getitem_all prev d)
                           ("Normal " +:+ species o +:+ " data") "seagreen" None]
   else lines = [Plot (Labels (astype_str (index d))) (getitem_all name d)
                   (species o +:+ ", " +:+ site o) "black" (Some 2)]) →
  plot self data_ w =
  (year ← lift (index_year_0 (index d));
   draw (SetXLabel ("Time (" +:+ pretty year +:+ ")"));;
   let n := Qc_of_nat (index_length (index d)) in
   draw (SetXTicks (arange (Q2Qc 0) n (n / frac 7 2)%Qc));;
   draw Grid;;
   draw Legend;;
   draw Show)
    (with_canvas
       (canvas w ++ [Subplots 12 6] ++ lines ++
        [SetTitle name;
         SetYLabel ("Mole fraction of " +:+ species o +:+ " / " +:+ units o
                    +:+ " (scale:" +:+ scale o +:+ ")")]) stored).
Proof.
  intros Hy Hlines. destruct plot_stored as [Hstored Hget]. unfold plot.
  erewrite bind_Ok by (by apply get_object_Ok).
  erewrite bind_Ok by reflexivity.
  erewrite bind_Ok by exact Hget.
  erewrite bind_Ok by (by apply lift_Ok).
  erewrite bind_Ok by reflexivity.
  erewrite bind_Ok by (by apply get_object_Ok).
  erewrite bind_Ok by (by apply ax_plot_Ok).
  destruct (contains "Baseline" name).
  - destruct Hlines as (prev & Hprev & Hy' & ->).
    erewrite bind_Ok.
    2:{ erewrite bind_Ok by (by apply lift_Ok). by apply ax_plot_Ok. }
    erewrite !bind_Ok by reflexivity.
    unfold draw, with_canvas. cbn -[arange contains pretty].
    by rewrite <-!app_assoc.
  - subst lines. erewrite !bind_Ok by reflexivity.
    unfold draw, with_canvas. cbn -[arange contains pretty].
    by rewrite <-!app_assoc.
Qed.
End plot_run.

(** X13.  [plot] draws the last column of the table against the periods of
    its index as text, in black, and shows the figure, with the name of the
    column as title and four ticks on the x axis; when that name holds
    [Baseline], it first adds the column before the last, the daily means,
    as a second line in green.  The columns drawn are columns that
    matplotlib takes, as every column of numbers is. *)
Theorem plot_draws_the_series w self data_ o d f p ps name :
  objects w !! self = Some o →
  frames w !! data_ = Some d →
  index d = PeriodIndex f (p :: ps) →
  column_name_from_end 0 d = Ok name →
  as_floats (getitem_all name d) = Ok () →
  let x := Labels (period_str f <$> p :: ps) in
  let n := Qc_of_nat (S (length ps)) in
  let line := Plot x (getitem_all name d) (species o +:+ ", " +:+ site o)
                "black" (Some 2) in
  let labels :=
    [SetTitle name;
     SetYLabel ("Mole fraction of " +:+ species o +:+ " / " +:+ units o
                +:+ " (scale:" +:+ scale o +:+ ")");
     SetXLabel ("Time (" +:+ pretty (period_year f p) +:+ ")");
     SetXTicks [Q2Qc 0; (n * frac 2 7)%Qc; (n * frac 4 7)%Qc; (n * frac 6 7)%Qc];
     Grid; Legend; Show] in
  (contains "Baseline" name = false →
   (plot self data_ w).2 = Ok () ∧
   canvas (plot self data_ w).1 = canvas w ++ [Subplots 12 6; line] ++ labels)
  ∧ (∀ prev, contains "Baseline" name = true →
       column_name_from_end 1 d = Ok prev →
       as_floats (getitem_all prev d) = Ok () →
       (plot self data_ w).2 = Ok () ∧
       canvas (plot self data_ w).1 =
         canvas w ++
         [Subplots 12 6; line;
          Plot x (getitem_all prev d) ("Normal " +:+ species o +:+ " data")
            "seagreen" None] ++ labels).
Proof.
  intros Hself Hdata Hindex Hname Hy x n line labels.
  assert (∀ lines,
            plot self data_ w =
            (year ← lift (index_year_0 (index d));
             draw (SetXLabel ("Time (" +:+ pretty year +:+ ")"));;
             let n := Qc_of_nat (index_length (index d)) in
             draw (SetXTicks (arange (Q2Qc 0) n (n / frac 7 2)%Qc));;
             draw Grid;;
             draw Legend;;
             draw Show)
              (with_canvas
                 (canvas w ++ [Subplots 12 6] ++ lines ++
                  [SetTitle name;
                   SetYLabel ("Mole fraction of " +:+ species o +:+ " / " +:+ units o
                              +:+ " (scale:" +:+ scale o +:+ ")")])
                 (with_objects (<[self := set_data data_ o]> (objects w)) w)) →
            (plot self data_ w).2 = Ok () ∧
            canvas (plot self data_ w).1 =
              canvas w ++ [Subplots 12 6] ++ lines ++ labels) as Hrest.
  { intros lines ->. rewrite Hindex. cbn [index_year_0 index_length length].
    erewrite !bind_Ok by reflexivity.
    rewrite arange_ticks by lia.
    unfold draw, with_canvas. cbn [fst snd canvas]. split; [done|].
    unfold labels. rewrite <-!app_assoc. cbn [app]. by rewrite <-?app_assoc. }
  split.
  - intros Hplain. apply (Hrest [line]).
    apply (plot_lines w self data_ o d name Hself Hdata Hname); [done|].
    rewrite Hplain. unfold line, x. by rewrite Hindex.
  - intros prev Hoverlay Hprev Hy'.
    apply (Hrest [line; Plot x (getitem_all prev d)
                          ("Normal " +:+ species o +:+ " data") "seagreen" None]).
    apply (plot_lines w self data_ o d name Hself Hdata Hname); [done|].
    rewrite Hoverlay. exists prev. split; [done|]. split; [done|].
    unfold line, x. by rewrite Hindex.
Qed.

Lemma plot_draws_the_series_witness :
  (plot 0 2 (baseline 0 (loaded rising)).1).2 = Ok ()
  ∧ canvas (plot 0 2 (baseline 0 (loaded rising)).1).1 =
      [Subplots 12 6;
       Plot (Labels ["2021-01-14"; "2021-01-15"])
         [Float64 [Some (frac 33 20); Some (frac 53 20)]] "ch4, MHD" "black" (Some 2);
       Plot (Labels ["2021-01-14"; "2021-01-15"])
         [Float64 [Some (Qc_of_Z 14); Some (Qc_of_Z 15)]] "Normal ch4 data"
         "seagreen" None;
       SetTitle "Baseline";
       SetYLabel "Mole fraction of ch4 / ppb (scale:WMO-X2004A)";
       SetXLabel "Time (2021)";
       SetXTicks [Q2Qc 0; frac 4 7; frac 8 7; frac 12 7];
       Grid; Legend; Show].
Proof.
  pose (d := mkDataFrame (PeriodIndex D [18641; 18642])
               [("mf"%string, Float64 [Some (Qc_of_Z 14); Some (Qc_of_Z 15)]);
                ("Baseline"%string, Float64 [Some (frac 33 20); Some (frac 53 20)])]).
  destruct (plot_draws_the_series (baseline 0 (loaded rising)).1 0%nat 2%nat
              (mkData "MHD" "ch4" "data/MHD_ch4.csv" 0 "WMO-X2004A" "ppb" None None)
              d D 18641 [18642] "Baseline")
    as [_ Hoverlay].
  - vm_compute. reflexivity.
  - evaluate.
  - reflexivity.
  - reflexivity.
  - reflexivity.
  - destruct (Hoverlay "mf"%string) as [Hok Hcanvas]; [reflexivity..|].
    split; [exact Hok|]. rewrite Hcanvas. evaluate.
Defined.

(** X14.  [plot] needs an index of periods, and columns that matplotlib
    takes.  Given a table on a range index, it stores the table and opens
    the figure.  When the last column is one of numbers, as in the raw
    table, it draws the line and sets the title and the label of the y
    axis, and then raises [AttributeError] for [year].  When the last
    column is one of periods, as in the table of the instance once an
    aggregation has run, drawing the line raises a [TypeError].  Either
    way the figure is never shown. *)
Theorem plot_on_a_range_index w self data_ o d ls name :
  objects w !! self = Some o →
  frames w !! data_ = Some d →
  index d = IntIndex ls →
  column_name_from_end 0 d = Ok name →
  contains "Baseline" name = false →
  objects (plot self data_ w).1 !! self = Some (set_data data_ o)
  ∧ (∀ vs, getitem_all name d = [Float64 vs] →
       (plot self data_ w).2 = Raise (AttributeError "year") ∧
       canvas (plot self data_ w).1 =
         canvas w ++
         [Subplots 12 6;
          Plot (Labels (pretty <$> ls)) [Float64 vs]
            (species o +:+ ", " +:+ site o) "black" (Some 2);
          SetTitle name;
          SetYLabel ("Mole fraction of " +:+ species o +:+ " / " +:+ units o
                     +:+ " (scale:" +:+ scale o +:+ ")")])
  ∧ (∀ f p ps, getitem_all name d = [Period f (p :: ps)] →
       (∃ msg, (plot self data_ w).2 = Raise (TypeError msg)) ∧
       canvas (plot self data_ w).1 = canvas w ++ [Subplots 12 6]).
Proof.
  intros Hself Hdata Hindex Hname Hplain.
  assert (∀ e, as_floats (getitem_all name d) = Raise e →
               plot self data_ w =
               (with_canvas (canvas w ++ [Subplots 12 6])
                  (with_objects (<[self := set_data data_ o]> (objects w)) w),
                Raise e)) as Hrefused
    by (intros e; by apply plot_refused).
  assert (as_floats (getitem_all name d) = Ok () →
          plot self data_ w =
          (with_canvas
             (canvas w ++ [Subplots 12 6] ++
              [Plot (Labels (astype_str (index d))) (getitem_all name d)
                 (species o +:+ ", " +:+ site o) "black" (Some 2)] ++
              [SetTitle name;
               SetYLabel ("Mole fraction of " +:+ species o +:+ " / " +:+ units o
                          +:+ " (scale:" +:+ scale o +:+ ")")])
             (with_objects (<[self := set_data data_ o]> (objects w)) w),
           Raise (AttributeError "year"))) as Hdrawn.
  { intros Hy.
    rewrite (plot_lines w self data_ o d name Hself Hdata Hname
               [Plot (Labels (astype_str (index d))) (getitem_all name d)
                  (species o +:+ ", " +:+ site o) "black" (Some 2)] Hy)
      by (by rewrite Hplain).
    rewrite Hindex. by erewrite bind_Raise by reflexivity. }
  split; [|split].
  - destruct (as_floats (getitem_all name d)) as [[]|e|] eqn:Hy.
    + rewrite Hdrawn by done. apply lookup_insert_eq.
    + rewrite (Hrefused e) by done. apply lookup_insert_eq.
    + unfold as_floats in Hy. by destruct (omap refusal _).
  - intros vs Hvs. rewrite Hdrawn by (by rewrite Hvs).
    rewrite Hvs, Hindex. by split.
  - intros f p ps Hps.
    assert (∃ msg, as_floats (getitem_all name d) = Raise (TypeError msg))
      as [msg Hmsg] by (rewrite Hps; destruct p; by eexists).
    rewrite (Hrefused _ Hmsg). split; [by exists msg|done].
Qed.

Lemma plot_on_a_range_index_witness :
  ((plot 0 0 (loaded rising)).2 = Raise (AttributeError "year")
   ∧ canvas (plot 0 0 (loaded rising)).1 =
       [Subplots 12 6;
        Plot (Labels (pretty <$> (Z.of_nat <$> seq 0 15)))
          [Float64 (Some ∘ Qc_of_Z <$> seqZ 1 15)] "ch4, MHD" "black" (Some 2);
        SetTitle "mf";
        SetYLabel "Mole fraction of ch4 / ppb (scale:WMO-X2004A)"]
   ∧ data <$> objects (plot 0 0 (loaded rising)).1 !! 0%nat = Some (Some 0%nat))
  ∧ (∃ msg, (plot 0 0 (weekly_ave 0 (loaded rising)).1).2 = Raise (TypeError msg))
  ∧ canvas (plot 0 0 (weekly_ave 0 (loaded rising)).1).1 = [Subplots 12 6].
Proof.
  pose (ch4 := mkData "MHD" "ch4" "data/MHD_ch4.csv" 0 "WMO-X2004A" "ppb" None None).
  split.
  - destruct (plot_on_a_range_index (loaded rising) 0%nat 0%nat ch4
                rising (Z.of_nat <$> seq 0 15) "mf")
      as (Hstored & Hnumbers & _); [vm_compute; reflexivity..|].
    destruct (Hnumbers (Some ∘ Qc_of_Z <$> seqZ 1 15)) as [Hraise Hcanvas];
      [reflexivity|].
    split; [exact Hraise|]. split; [exact Hcanvas|]. by rewrite Hstored.
  - destruct (plot_on_a_range_index (weekly_ave 0 (loaded rising)).1 0%nat 0%nat ch4
                (setitem "week"
                   (Period W (fmap (M := option) (to_period W)
                                <$> (Some <$> daily 18628 15))) rising)
                (Z.of_nat <$> seq 0 15) "week")
      as (_ & _ & Hperiods); [vm_compute; reflexivity..|].
    apply (Hperiods W (Some 2661)
             (replicate 2 (Some 2661) ++ replicate 7 (Some 2662)
              ++ replicate 5 (Some 2663))).
    reflexivity.
Defined.

(** [plot_compare] once the units and the scales are found to agree: the
    two tables are stored, then read back. *)
Section plot_compare_run.
Context (w : World) (self data_ other data2_ : nat) (a b : Data).
Context (d d2 : DataFrame).
Hypothesis Hself : objects w !! self = Some a.
Hypothesis Hother : objects w !! other = Some b.
Hypothesis Hunits : units a = units b.
Hypothesis Hscale : scale a = scale b.
Hypothesis Hdata : frames w !! data_ = Some d.
Hypothesis Hdata2 : frames w !! data2_ = Some d2.

Lemma plot_compare_stored :
  ∃ w2 oa ob,
    canvas w2 = canvas w ∧ frames w2 = frames w ∧
    objects w2 !! self = Some oa ∧ objects w2 !! other = Some ob ∧
    data oa = Some data_ ∧ data2 ob = Some data2_ ∧
    same_core a oa ∧ same_core b ob ∧
    plot_compare self data_ other data2_ w =
    (x ← lift (index_week (index d));
     x2 ← lift (index_week (index d2));
     last_name ← lift (column_name_from_end 0 d);
     let y := drop_last_column <$> getitem_all last_name d in
     last_name2 ← lift (column_name_from_end 0 d2);
     let y2 := drop_last_column <$> getitem_all last_name2 d2 in
     let title := last_name in
     draw (Subplots 12 6);;
     o ← get_object self;
     o' ← get_object other;
     ax_plot (Numbers (drop_last x)) y (species o +:+ ", " +:+ site o)
       "seagreen" (Some 2);;
     ax_plot (Numbers (drop_last x2)) y2 (species o' +:+ ", " +:+ site o')
       "plum" (Some 2);;
     draw (SetTitle title);;
     draw (SetYLabel ("Mole fraction of " +:+ species o +:+ " / " +:+ units o
                      +:+ " (scale:" +:+ scale o +:+ ")"));;
     year ← lift (index_year_0 (index d));
     draw (SetXLabel ("Weeks, " +:+ pretty year));;
     draw Grid;;
     draw Legend;;
     draw Show) w2.
Proof.
  unfold plot_compare.
  erewrite !bind_Ok by (by apply get_object_Ok).
  erewrite bind_Ok by (by rewrite decide_False by (by intros ?)).
  erewrite bind_Ok by (by rewrite decide_False by (by intros ?)).
  erewrite bind_Ok by reflexivity.
  destruct (stored_other w self other data_ a b Hself Hother) as (o' & Ho' & _).
  erewrite bind_Ok by (by apply get_object_Ok).
  erewrite bind_Ok by reflexivity.
  destruct (stored_both w self other data_ data2_ a b Hself Hother o' Ho')
    as (oa & ob & Hoa & Hob & Hda & Hdb & Hcorea & Hcoreb).
  set (w2 := with_objects _ _).
  exists w2, oa, ob. repeat (split; [done|]).
  assert (get_data self w2 = (w2, Ok d)) as Hget.
  { unfold get_data. erewrite bind_Ok by (by apply get_object_Ok).
    rewrite Hda. by apply get_frame_Ok. }
  assert (get_data2 other w2 = (w2, Ok d2)) as Hget2.
  { unfold get_data2. erewrite bind_Ok by (by apply get_object_Ok).
    rewrite Hdb. by apply get_frame_Ok. }
  erewrite bind_Ok by exact Hget.
  by erewrite bind_Ok by exact Hget2.
Qed.
End plot_compare_run.

(** X15.  [plot_compare] needs indexes of periods too.  When the units and
    scales agree and the first table is on a range index, it raises
    [AttributeError] for [week] before anything is drawn, but after the two
    tables are stored in [data] and [data2]. *)
Theorem plot_compare_on_a_range_index w self data_ other data2_ a b d d2 ls :
  objects w !! self = Some a →
  objects w !! other = Some b →
  units a = units b →
  scale a = scale b →
  frames w !! data_ = Some d →
  frames w !! data2_ = Some d2 →
  index d = IntIndex ls →
  (plot_compare self data_ other data2_ w).2 = Raise (AttributeError "week")
  ∧ canvas (plot_compare self data_ other data2_ w).1 = canvas w
  ∧ ∃ oa ob,
      objects (plot_compare self data_ other data2_ w).1 !! self = Some oa ∧
      objects (plot_compare self data_ other data2_ w).1 !! other = Some ob ∧
      data oa = Some data_ ∧ data2 ob = Some data2_.
Proof.
  intros Hself Hother Hunits Hscale Hdata Hdata2 Hindex.
  destruct (plot_compare_stored w self data_ other data2_ a b d d2)
    as (w2 & oa & ob & Hcanvas & _ & Hoa & Hob & Hda & Hdb & _ & _ & ->); try done.
  rewrite Hindex. erewrite bind_Raise by reflexivity. cbn [fst snd].
  split; [done|]. split; [done|]. by exists oa, ob.
Qed.

Lemma plot_compare_on_a_range_index_witness :
  (plot_compare 0 0 3 3 (station steady)).2 = Raise (AttributeError "week")
  ∧ canvas (plot_compare 0 0 3 3 (station steady)).1 = []
  ∧ data <$> objects (plot_compare 0 0 3 3 (station steady)).1 !! 0%nat
    = Some (Some 0%nat)
  ∧ data2 <$> objects (plot_compare 0 0 3 3 (station steady)).1 !! 3%nat
    = Some (Some 3%nat).
Proof.
  destruct (plot_compare_on_a_range_index (station steady) 0%nat 0%nat 3%nat 3%nat
              (mkData "MHD" "ch4" "data/MHD_ch4.csv" 0 "WMO-X2004A" "ppb" None None)
              (mkData "TAC" "ch4" "data/TAC_ch4.csv" 3 "WMO-X2004A" "ppb" None None)
              steady steady (Z.of_nat <$> seq 0 (24 * 14)))
    as (Hraise & Hcanvas & oa & ob & Hoa & Hob & Hda & Hdb).
  - vm_compute. reflexivity.
  - vm_compute. reflexivity.
  - reflexivity.
  - reflexivity.
  - vm_compute. reflexivity.
  - vm_compute. reflexivity.
  - reflexivity.
  - split; [exact Hraise|]. split; [exact Hcanvas|].
    rewrite Hoa, Hob. clear -Hda Hdb. cbn [fmap option_fmap option_map].
    rewrite Hda, Hdb. split; reflexivity.
Defined.

(** X16.  The labels of the comparison come from the first dataset: with
    two weekly series whose last columns matplotlib takes once cut (columns
    of numbers, as the weekly means are), [plot_compare] draws the two lines and
    then the title, the name of the last column of the first series, the
    label of the y axis with the species, units and scale of the first
    instance, and the label of the x axis with the year of the first week
    of the first series, and shows the figure.  When the first series has
    no row, the year cannot be read: [IndexError] is raised after the lines
    are drawn, and the figure is not shown. *)
Theorem plot_compare_labels w self data_ other data2_ a b d d2 f ps f2 ps2
    name name2 :
  objects w !! self = Some a →
  objects w !! other = Some b →
  units a = units b →
  scale a = scale b →
  frames w !! data_ = Some d →
  frames w !! data2_ = Some d2 →
  index d = PeriodIndex f ps →
  index d2 = PeriodIndex f2 ps2 →
  column_name_from_end 0 d = Ok name →
  column_name_from_end 0 d2 = Ok name2 →
  as_floats (drop_last_column <$> getitem_all name d) = Ok () →
  as_floats (drop_last_column <$> getitem_all name2 d2) = Ok () →
  let drawn :=
    [Subplots 12 6;
     Plot (Numbers (drop_last (period_week f <$> ps)))
       (drop_last_column <$> getitem_all name d)
       (species a +:+ ", " +:+ site a) "seagreen" (Some 2);
     Plot (Numbers (drop_last (period_week f2 <$> ps2)))
       (drop_last_column <$> getitem_all name2 d2)
       (species b +:+ ", " +:+ site b) "plum" (Some 2);
     SetTitle name;
     SetYLabel ("Mole fraction of " +:+ species a +:+ " / " +:+ units a
                +:+ " (scale:" +:+ scale a +:+ ")")] in
  match ps with
  | [] =>
      (plot_compare self data_ other data2_ w).2 = Raise IndexError ∧
      canvas (plot_compare self data_ other data2_ w).1 = canvas w ++ drawn
  | p :: _ =>
      (plot_compare self data_ other data2_ w).2 = Ok () ∧
      canvas (plot_compare self data_ other data2_ w).1 =
        canvas w ++ drawn ++
        [SetXLabel ("Weeks, " +:+ pretty (period_year f p)); Grid; Legend; Show]
  end.
Proof.
  intros Hself Hother Hunits Hscale Hdata Hdata2 Hindex Hindex2 Hname Hname2
    Hy Hy2 drawn.
  destruct (plot_compare_stored w self data_ other data2_ a b d d2)
    as (w2 & oa & ob & Hcanvas & _ & Hoa & Hob & _ & _ & Hcorea & Hcoreb & ->);
    try done.
  destruct Hcorea as (Hsite & Hspecies & _ & _ & Hscale' & Hunits').
  destruct Hcoreb as (Hsite2 & Hspecies2 & _).
  rewrite Hindex, Hindex2. cbn [index_week].
  erewrite !bind_Ok by reflexivity.
  erewrite bind_Ok by (by apply lift_Ok).
  erewrite bind_Ok by (by apply lift_Ok).
  erewrite bind_Ok by reflexivity.
  erewrite bind_Ok by (by apply get_object_Ok).
  erewrite bind_Ok by (by apply get_object_Ok).
  erewrite bind_Ok by (by apply ax_plot_Ok).
  erewrite bind_Ok by (by apply ax_plot_Ok).
  erewrite !bind_Ok by reflexivity.
  rewrite Hsite, Hspecies, Hsite2, Hspecies2, Hscale', Hunits'.
  destruct ps as [|p ps].
  - erewrite bind_Raise by reflexivity. split; [reflexivity|].
    unfold drawn. simpl. rewrite Hcanvas, <-!app_assoc. reflexivity.
  - erewrite !bind_Ok by reflexivity. split; [reflexivity|].
    unfold drawn. simpl. rewrite Hcanvas, <-!app_assoc. reflexivity.
Qed.

Lemma plot_compare_labels_witness :
  (plot_compare 0 4 3 5 (station_weekly steady)).2 = Ok ()
  ∧ canvas (plot_compare 0 4 3 5 (station_weekly steady)).1 =
      [Subplots 12 6;
       Plot (Numbers [53; 1]) [Float64 [Some (Qc_of_Z 10); Some (Qc_of_Z 10)]]
         "ch4, MHD" "seagreen" (Some 2);
       Plot (Numbers [53; 1]) [Float64 [Some (Qc_of_Z 10); Some (Qc_of_Z 10)]]
         "ch4, TAC" "plum" (Some 2);
       SetTitle "Weekly average mole fraction";
       SetYLabel "Mole fraction of ch4 / ppb (scale:WMO-X2004A)";
       SetXLabel "Weeks, 2021"; Grid; Legend; Show].
Proof.
  pose (weekly := mkDataFrame (PeriodIndex W [2661; 2662; 2663])
          [("Weekly average mole fraction"%string,
            Float64 [Some (Qc_of_Z 10); Some (Qc_of_Z 10); Some (Qc_of_Z 10)])]).
  pose proof (plot_compare_labels (station_weekly steady) 0 4 3 5
              (mkData "MHD" "ch4" "data/MHD_ch4.csv" 0 "WMO-X2004A" "ppb" None None)
              (mkData "TAC" "ch4" "data/TAC_ch4.csv" 3 "WMO-X2004A" "ppb" None None)
              weekly weekly W [2661; 2662; 2663] W [2661; 2662; 2663]
              "Weekly average mole fraction" "Weekly average mole fraction")
    as Hlabels.
  destruct Hlabels as [Hok Hcanvas].
  - vm_compute. reflexivity.
  - vm_compute. reflexivity.
  - reflexivity.
  - reflexivity.
  - evaluate.
  - evaluate.
  - reflexivity.
  - reflexivity.
  - reflexivity.
  - reflexivity.
  - reflexivity.
  - reflexivity.
  - split; [exact Hok|]. rewrite Hcanvas. evaluate.
Defined.
